(** * D-ID Studio Pro: the submit-then-poll handler, the video downloader and
      the configuration store of [app.py], embedded in Rocq.

    Python values that travel through the handler (decoded JSON, the request
    payload, the tuples yielded to the UI) are represented by [pyval];
    dictionaries keep their insertion order, as Python's do.  Wall-clock
    readings are exact rationals.  The functions of the [requests], [json],
    [os] and [time] modules are not part of the repository: what they return
    is supplied by an explicit world, and [json.dumps], [json.loads], [repr]
    and [int] are parameters of the development. *)

From Stdlib Require Import QArith Lqa.
From stdpp Require Import gmap strings list pretty.

Local Open Scope string_scope.

(** The line feed of Python's ["\n"]. *)
Definition LF : string := String (Ascii.ascii_of_nat 10) "".


(** [s.startswith(p)] *)
Fixpoint startswith (s p : string) {struct p} : bool :=
  match p with
  | EmptyString => true
  | String c p' =>
      match s with
      | EmptyString => false
      | String c' s' => Ascii.eqb c c' && startswith s' p'
      end
  end.

(** ** Python values *)

#[warnings="-register-all"]
Inductive pyval :=
| PNone
| PBool (b : bool)
| PInt (n : Z)
| PFloat (q : Q)
| PStr (s : string)
| PList (l : list pyval)
| PDict (d : list (string * pyval)).

Abbreviation pydict := (list (string * pyval)).

(** [bool(v)]: the truth value Python gives to [v] in [if v] / [not v]. *)
Definition truthy (v : pyval) : bool :=
  match v with
  | PNone => false
  | PBool b => b
  | PInt n => negb (n =? 0)%Z
  | PFloat q => negb (Qeq_bool q 0)
  | PStr s => negb (String.eqb s "")
  | PList l => match l with [] => false | _ => true end
  | PDict d => match d with [] => false | _ => true end
  end.

(** [v is not None] *)
Definition is_not_None (v : pyval) : bool :=
  match v with PNone => false | _ => true end.

(** [v == s] for a string literal [s]: only a [str] equals a [str]. *)
Definition py_eq_str (v : pyval) (s : string) : bool :=
  match v with PStr s' => String.eqb s' s | _ => false end.

(** [v in [s1, s2, ...]] for a list of string literals. *)
Definition py_in_strs (v : pyval) (l : list string) : bool :=
  existsb (py_eq_str v) l.

(** [type(v).__name__], as it appears in an [AttributeError] message. *)
Definition py_type_name (v : pyval) : string :=
  match v with
  | PNone => "NoneType"
  | PBool _ => "bool"
  | PInt _ => "int"
  | PFloat _ => "float"
  | PStr _ => "str"
  | PList _ => "list"
  | PDict _ => "dict"
  end.

(** *** Dictionaries: insertion-ordered, one entry per key *)

Fixpoint dict_get (k : string) (d : pydict) : option pyval :=
  match d with
  | [] => None
  | (k', v) :: d' => if String.eqb k' k then Some v else dict_get k d'
  end.

(** [d.get(k, default)] *)
Definition dict_get_default (k : string) (default : pyval) (d : pydict) : pyval :=
  match dict_get k d with Some v => v | None => default end.

(** [d.get(k)]: the default is [None]. *)
Definition dict_get_none (k : string) (d : pydict) : pyval :=
  dict_get_default k PNone d.

(** [d[k] = v]: an existing key keeps its position. *)
Fixpoint dict_set (k : string) (v : pyval) (d : pydict) : pydict :=
  match d with
  | [] => [(k, v)]
  | (k', v') :: d' =>
      if String.eqb k' k then (k, v) :: d' else (k', v') :: dict_set k v d'
  end.

(** [{**d, **items}], and with [d = {}] a dictionary display. *)
Definition dict_update (d items : pydict) : pydict :=
  fold_left (fun acc kv => dict_set kv.1 kv.2 acc) items d.

Definition dict_display (items : pydict) : pydict := dict_update [] items.

(** [{k: v for k, v in d.items() if v is not None}] *)
Definition drop_None (d : pydict) : pydict :=
  List.filter (fun kv => is_not_None kv.2) d.

Definition has_key (k : string) (d : pydict) : bool :=
  match dict_get k d with Some _ => true | None => false end.

(** The entries of a value that is a dictionary. *)
Definition dict_items (v : pyval) : pydict :=
  match v with PDict d => d | _ => [] end.

(** ** The arguments of [create_talk]

    [submit_btn.click] passes twelve component values, in this order; the
    field names are the components', the comments give the index into
    [args]. *)

Record inputs := {
  source_url : string;      (* args[0] *)
  script_type : string;     (* args[1] *)
  text_input : string;      (* args[2] *)
  audio_url : string;       (* args[3] *)
  voice_provider : string;  (* args[4] *)
  voice_id : string;        (* args[5] *)
  voice_style : string;     (* args[6] *)
  driver_url : string;      (* args[7] *)
  webhook : string;         (* args[8] *)
  stitch : bool;            (* args[9] *)
  persist : bool;           (* args[10] *)
  external_tts : string     (* args[11] *)
}.

Definition with_external_tts (x : string) (a : inputs) : inputs :=
  {| source_url := source_url a; script_type := script_type a;
     text_input := text_input a; audio_url := audio_url a;
     voice_provider := voice_provider a; voice_id := voice_id a;
     voice_style := voice_style a; driver_url := driver_url a;
     webhook := webhook a; stitch := stitch a; persist := persist a;
     external_tts := x |}.

(** ** Building the payload (app.py, lines 350-376) *)

(** [**({k: v} if c else {})] *)
Definition optional_entry (c : bool) (k : string) (v : pyval) : pydict :=
  if c then [(k, v)] else [].

Definition provider_dict (a : inputs) : pydict :=
  dict_update
    (dict_display [("type", PStr (voice_provider a));
                   ("voice_id", PStr (voice_id a))])
    (optional_entry (truthy (PStr (voice_style a))) "voice_config"
       (PDict (dict_display [("style", PStr (voice_style a))]))).

Definition script_dict (a : inputs) : pydict :=
  dict_display
    [("type", PStr (script_type a));
     ("input", if String.eqb (script_type a) "text"
               then PStr (text_input a) else PStr "");
     ("subtitles", PStr "false");
     ("ssml", PStr "false");
     ("provider", if String.eqb (script_type a) "text"
                  then PDict (provider_dict a) else PNone);
     ("audio_url", if String.eqb (script_type a) "audio"
                   then PStr (audio_url a) else PNone)].

Definition config_dict (a : inputs) : pydict :=
  dict_update
    (dict_update
       (dict_update (dict_display [("fluent", PStr "false")])
          (optional_entry (stitch a) "stitch" (PBool true)))
       (optional_entry (persist a) "persist" (PBool true)))
    (optional_entry (truthy (PStr (webhook a))) "webhook" (PStr (webhook a))).

Definition raw_payload (a : inputs) : pydict :=
  dict_update
    (dict_display [("source_url", PStr (source_url a));
                   ("script", PDict (script_dict a));
                   ("config", PDict (config_dict a))])
    (optional_entry (truthy (PStr (driver_url a))) "driver_url"
       (PStr (driver_url a))).

(** The two "Remove None values" comprehensions. *)
Definition build_payload (a : inputs) : pydict :=
  let payload := drop_None (raw_payload a) in
  dict_set "script"
    (PDict (drop_None (dict_items (dict_get_none "script" payload))))
    payload.

(** The sub-dictionaries of a payload. *)
Definition payload_script (p : pydict) : pydict :=
  dict_items (dict_get_none "script" p).
Definition payload_config (p : pydict) : pydict :=
  dict_items (dict_get_none "config" p).
Definition payload_provider (p : pydict) : pydict :=
  dict_items (dict_get_none "provider" (payload_script p)).

(** ** Exceptions, yielded tuples and the outside world *)

(** An exception caught by [except Exception as e]: [str(e)], and the
    [response] attribute when the exception has one, as the pair of the truth
    value of the response object and its [text]. *)
Record py_exception := {
  exc_str : string;
  exc_response : option (bool * string)
}.

(** [gr.Video(value=..., visible=...)] *)
Record video := {
  video_value : option pyval;
  video_visible : bool
}.

(** One yielded tuple; the fields are the [outputs] of [submit_btn.click]. *)
Record update := {
  u_talk_id : pyval;
  u_status : string;
  u_result_url : pyval;
  u_video_preview : video;
  u_download_status : string;
  u_api_logs : string
}.

(** What a run does that is visible outside the generator. *)
Inductive event :=
| EvCreateTalk (payload : pydict)   (* client.create_talk(payload) *)
| EvGetTalk (talk_id : pyval)       (* client.get_talk(talk_id) *)
| EvYield (u : update)              (* yield (...) *)
| EvSleep (seconds : Q).            (* time.sleep(poll_interval) *)

(** The answer to one [client.get_talk]: the time that passes on the wall
    clock during the loop iteration besides the requested sleep (the network
    call, the consumer of the yielded tuple), and what the call returns or
    raises. *)
Record poll_answer := {
  delay : Q;
  answer : py_exception + pyval
}.

Record world := {
  create_answer : py_exception + pyval;   (* client.create_talk *)
  poll_answers : nat -> poll_answer       (* the n-th client.get_talk *)
}.

(** The wall clock does not run backwards. *)
Definition monotone_clock (w : world) : Prop :=
  forall n, (0 <= delay (poll_answers w n))%Q.

Definition timeout : Q := 300%Q.
Definition poll_interval : Q := 2%Q.

(** [a < b] on clock readings. *)
Definition Qlt_bool (a b : Q) : bool := negb (Qle_bool b a).

(** How the body of the generator stops. *)
Inductive exit_point :=
| ExitNoKey                       (* line 346: return after "Error: No API key" *)
| ExitNoId                        (* line 384: return after "Failed" *)
| ExitCompleted                   (* line 420: return after "Completed successfully" *)
| ExitBreak                       (* lines 421/423: break, then the last yield *)
| ExitDeadline                    (* line 392: loop condition false, then the last yield *)
| ExitError (e : py_exception).   (* line 441: the except clause *)

(** How the generator ends for its consumer.  [Unfinished] is the model's
    own: the iteration budget given to the loop ran out. *)
Inductive generator_end :=
| StopIteration (x : exit_point)
| Propagated (e : py_exception)
| Unfinished.

Record run := {
  run_trace : list event;
  run_end : generator_end;
  run_polls : nat;       (* number of client.get_talk calls made *)
  run_elapsed : Q        (* time.time() - start_time when the run ends *)
}.

Definition yields (tr : list event) : list update :=
  omap (fun e => match e with EvYield u => Some u | _ => None end) tr.

Definition get_calls (tr : list event) : list pyval :=
  omap (fun e => match e with EvGetTalk i => Some i | _ => None end) tr.

Definition updates (r : run) : list update := yields (run_trace r).

Definition hidden_video : video :=
  {| video_value := None; video_visible := false |}.

Definition attribute_error (v : pyval) (attr : string) : py_exception :=
  {| exc_str := "'" +:+ py_type_name v +:+ "' object has no attribute '"
                +:+ attr +:+ "'";
     exc_response := None |}.

Definition unbound_local (name : string) : py_exception :=
  {| exc_str := "cannot access local variable '" +:+ name
                +:+ "' where it is not associated with a value";
     exc_response := None |}.

(** ** The generator [create_talk] (app.py, lines 342-441) *)

Section Poller.

(** [json.dumps(v, indent=2)] *)
Variable json_dumps : pyval -> string.
(** [repr(v)] for a float, a list or a dictionary. *)
Variable py_repr : pyval -> string.

(** [f"{v}"] *)
Definition py_format (v : pyval) : string :=
  match v with
  | PStr s => s
  | PNone => "None"
  | PBool true => "True"
  | PBool false => "False"
  | PInt n => pretty n
  | _ => py_repr v
  end.

Definition no_key_update : update :=
  {| u_talk_id := PStr ""; u_status := "Error: No API key";
     u_result_url := PStr ""; u_video_preview := hidden_video;
     u_download_status := ""; u_api_logs := "Configure API key first" |}.

Definition creation_log (talk : pyval) : string :=
  "Creation Response:" +:+ LF +:+ json_dumps talk.

Definition failed_update (response_log : string) : update :=
  {| u_talk_id := PStr ""; u_status := "Failed";
     u_result_url := PStr ""; u_video_preview := hidden_video;
     u_download_status := ""; u_api_logs := response_log |}.

Definition polling_log (response_log : string) (current_status talk_status : pyval)
  : string :=
  response_log +:+ LF +:+ LF +:+ "Polling Response ("
    +:+ py_format current_status +:+ "):" +:+ LF +:+ json_dumps talk_status.

Definition progress_update (talk_id current_status : pyval)
    (talk_status : pydict) (response_log : string) : update :=
  {| u_talk_id := talk_id;
     u_status := "Status: " +:+ py_format current_status;
     u_result_url := dict_get_default "result_url" (PStr "") talk_status;
     u_video_preview := hidden_video;
     u_download_status := "";
     u_api_logs := response_log |}.

Definition completed_update (talk_id result_url : pyval) (response_log : string)
  : update :=
  {| u_talk_id := talk_id;
     u_status := "Completed successfully";
     u_result_url := result_url;
     u_video_preview := {| video_value := Some result_url; video_visible := true |};
     u_download_status := "";
     u_api_logs := response_log |}.

Definition unfinished_update (talk_id current_status : pyval)
    (response_log : string) : update :=
  {| u_talk_id := talk_id;
     u_status := "Processing timed out or failed (status: "
                 +:+ py_format current_status +:+ ")";
     u_result_url := PStr "";
     u_video_preview := hidden_video;
     u_download_status := "";
     u_api_logs := response_log |}.

Definition error_update (e : py_exception) : update :=
  {| u_talk_id := PStr ""; u_status := "Error";
     u_result_url := PStr ""; u_video_preview := hidden_video;
     u_download_status := "";
     u_api_logs :=
       match exc_response e with
       | Some (true, text) =>
           "Error: " +:+ exc_str e +:+ LF +:+ "API Response:" +:+ LF +:+ text
       | _ => "Error: " +:+ exc_str e
       end |}.

(** The local variables that live across loop iterations. *)
Record locals := {
  polls : nat;                      (* client.get_talk calls made so far *)
  elapsed : Q;                      (* time.time() - start_time *)
  response_log : string;
  current_status : option pyval     (* None: not yet assigned *)
}.

(** How the [while] statement is left. *)
Inductive loop_exit :=
| LoopReturn                  (* return at line 420 *)
| LoopBreak                   (* break at line 421 or 423 *)
| LoopDeadline                (* the condition at line 392 is false *)
| LoopRaise (e : py_exception)
| LoopFuel.

Variable w : world.

Section Loop.

Variable talk_id : pyval.

(** What one pass through the loop body does. *)
Inductive iteration :=
| Again (evs : list event) (st : locals)                  (* falls through to the next test *)
| Leave (evs : list event) (x : loop_exit) (st : locals). (* return, break or raise *)

(** The loop body, lines 393-425. *)
Definition poll_iteration (st : locals) : iteration :=
  let a := poll_answers w (polls st) in
  let now := (elapsed st + delay a)%Q in
  match answer a with
  | inl e =>
      Leave [EvGetTalk talk_id] (LoopRaise e)
        {| polls := S (polls st); elapsed := now;
           response_log := response_log st;
           current_status := current_status st |}
  | inr (PDict talk_status) =>
      let cs := dict_get_default "status" (PStr "unknown") talk_status in
      let log := polling_log (response_log st) cs (PDict talk_status) in
      let progress := progress_update talk_id cs talk_status log in
      let st1 := {| polls := S (polls st); elapsed := now;
                    response_log := log; current_status := Some cs |} in
      if py_eq_str cs "done" then
        let result_url := dict_get_none "result_url" talk_status in
        if truthy result_url then
          Leave [EvGetTalk talk_id; EvYield progress;
                 EvYield (completed_update talk_id result_url log)]
            LoopReturn st1
        else Leave [EvGetTalk talk_id; EvYield progress] LoopBreak st1
      else if py_in_strs cs ["failed"; "error"] then
        Leave [EvGetTalk talk_id; EvYield progress] LoopBreak st1
      else
        Again [EvGetTalk talk_id; EvYield progress; EvSleep poll_interval]
          {| polls := S (polls st); elapsed := (now + poll_interval)%Q;
             response_log := log; current_status := Some cs |}
  | inr v =>
      Leave [EvGetTalk talk_id] (LoopRaise (attribute_error v "get"))
        {| polls := S (polls st); elapsed := now;
           response_log := response_log st;
           current_status := current_status st |}
  end.

(** The [while] statement of line 392; [fuel] bounds the iterations. *)
Fixpoint poll_loop (fuel : nat) (st : locals) : list event * loop_exit * locals :=
  if Qlt_bool (elapsed st) timeout then
    match fuel with
    | O => ([], LoopFuel, st)
    | S fuel' =>
        match poll_iteration st with
        | Again evs st1 =>
            let '(tr, x, st2) := poll_loop fuel' st1 in ((evs ++ tr)%list, x, st2)
        | Leave evs x st1 => (evs, x, st1)
        end
    end
  else ([], LoopDeadline, st).

End Loop.

(** The module-level [API_KEY]: [config.get("key")]. *)
Variable API_KEY : pyval.

Definition fresh_locals (log : string) : locals :=
  {| polls := 0; elapsed := 0%Q; response_log := log;
     current_status := None |}.

(** Lines 427-435, reached when the loop is left, and the [return] of line
    420.  [Propagated e] means that the statements raised [e]. *)
Definition after_loop (payload : pydict) (talk_id : pyval)
    (res : list event * loop_exit * locals) : run :=
  let '(tr, x, st) := res in
  let last_yield (how : exit_point) :=
    match current_status st with
    | Some cs =>
        {| run_trace :=
             EvCreateTalk payload :: tr ++
               [EvYield (unfinished_update talk_id cs (response_log st))];
           run_end := StopIteration how;
           run_polls := polls st; run_elapsed := elapsed st |}
    | None =>
        {| run_trace := EvCreateTalk payload :: tr;
           run_end := Propagated (unbound_local "current_status");
           run_polls := polls st; run_elapsed := elapsed st |}
    end in
  match x with
  | LoopReturn =>
      {| run_trace := EvCreateTalk payload :: tr;
         run_end := StopIteration ExitCompleted;
         run_polls := polls st; run_elapsed := elapsed st |}
  | LoopBreak => last_yield ExitBreak
  | LoopDeadline => last_yield ExitDeadline
  | LoopRaise e =>
      {| run_trace := EvCreateTalk payload :: tr;
         run_end := Propagated e;
         run_polls := polls st; run_elapsed := elapsed st |}
  | LoopFuel =>
      {| run_trace := EvCreateTalk payload :: tr;
         run_end := Unfinished;
         run_polls := polls st; run_elapsed := elapsed st |}
  end.

(** The statements inside [try:] (lines 344-435). *)
Definition create_talk_try (fuel : nat) (args : inputs) : run :=
  if negb (truthy API_KEY) then
    {| run_trace := [EvYield no_key_update];
       run_end := StopIteration ExitNoKey; run_polls := 0; run_elapsed := 0%Q |}
  else
    let payload := build_payload args in
    match create_answer w with
    | inl e =>
        {| run_trace := [EvCreateTalk payload];
           run_end := Propagated e; run_polls := 0; run_elapsed := 0%Q |}
    | inr (PDict talk) =>
        let log := creation_log (PDict talk) in
        if negb (truthy (dict_get_none "id" talk)) then
          {| run_trace := [EvCreateTalk payload; EvYield (failed_update log)];
             run_end := StopIteration ExitNoId; run_polls := 0; run_elapsed := 0%Q |}
        else
          let talk_id := dict_get_none "id" talk in
          after_loop payload talk_id (poll_loop talk_id fuel (fresh_locals log))
    | inr v =>
        {| run_trace := [EvCreateTalk payload];
           run_end := Propagated (attribute_error v "get");
           run_polls := 0; run_elapsed := 0%Q |}
    end.

(** The [except Exception as e] clause, lines 437-441. *)
Definition except_clause (r : run) : run :=
  match run_end r with
  | Propagated e =>
      {| run_trace := run_trace r ++ [EvYield (error_update e)];
         run_end := StopIteration (ExitError e);
         run_polls := run_polls r; run_elapsed := run_elapsed r |}
  | _ => r
  end.

(** The whole generator. *)
Definition create_talk (fuel : nat) (args : inputs) : run :=
  except_clause (create_talk_try fuel args).

End Poller.

(** A client call with answer [a] makes the generator's body raise [e]:
    the call itself raises (transport error, [raise_for_status], a body that
    is not JSON), or it returns JSON that is not an object and [.get] fails
    on it. *)
Definition raises (a : py_exception + pyval) (e : py_exception) : Prop :=
  match a with
  | inl e' => e = e'
  | inr (PDict _) => False
  | inr v => e = attribute_error v "get"
  end.

(** Iterations that fit below the deadline: [timeout / poll_interval]. *)
Definition max_polls : nat := 150.

(** A count as a clock quantity. *)
Definition Qnat (n : nat) : Q := inject_Z (Z.of_nat n).

(** ** [download_video] (app.py, lines 96-120) *)

Abbreviation bytes := (list Byte.byte).

(** What [r.iter_content(chunk_size=8192)] produces next. *)
Inductive stream_item :=
| Chunk (data : bytes)          (* a chunk; the empty one is a keep-alive *)
| Broken (e : py_exception).    (* the transfer fails: the iterator raises *)

Record http_response := {
  raise_for_status : option py_exception;   (* None: the status is 2xx *)
  content_length : option string;           (* the header, when present *)
  iter_content : list stream_item
}.

Record download_world := {
  makedirs : option py_exception;               (* os.makedirs raises *)
  time_time : Z;                                (* int(time.time()) *)
  requests_get : py_exception + http_response;  (* requests.get(url, stream=True, ...) *)
  open_wb : option py_exception;                (* open(filename, 'wb') raises *)
  write_error : nat -> option py_exception;     (* the n-th f.write raises *)
  os_remove : option py_exception               (* os.remove(filename) raises *)
}.

(** What the caller of [download_video] gets. *)
Inductive download_result :=
| Returned (filepath : option string) (message : string)
| Raised (e : py_exception).

(** [url.startswith(('http://', 'https://'))] *)
Definition is_http_url (url : string) : bool :=
  startswith url "http://" || startswith url "https://".

Section Downloader.

(** [os.sep], and [int(s)] for a header value. *)
Variable os_sep : string.
Variable py_int : string -> py_exception + Z.

Variable dw : download_world.

Definition filename : string :=
  "d-id_videos" +:+ os_sep +:+ "video_" +:+ pretty (time_time dw) +:+ ".mp4".

(** The [for chunk in r.iter_content(...)] loop; [n] counts the writes,
    [content] is what the file holds. *)
Fixpoint write_chunks (items : list stream_item) (n : nat) (content : bytes)
  : bytes * option py_exception :=
  match items with
  | [] => (content, None)
  | Broken e :: _ => (content, Some e)
  | Chunk [] :: rest => write_chunks rest n content
  | Chunk data :: rest =>
      match write_error dw n with
      | Some e => (content, Some e)
      | None => write_chunks rest (S n) (content ++ data)%list
      end
  end.

(** The statements inside [try:] (lines 105-116): the files afterwards and
    the exception raised, if any. *)
Definition download_try (fs : gmap string bytes)
  : gmap string bytes * option py_exception :=
  match requests_get dw with
  | inl e => (fs, Some e)
  | inr r =>
      match raise_for_status r with
      | Some e => (fs, Some e)
      | None =>
          match match content_length r with
                | Some h => py_int h
                | None => inr 0%Z
                end with
          | inl e => (fs, Some e)
          | inr total_size =>
              match open_wb dw with
              | Some e => (fs, Some e)
              | None =>
                  let '(content, err) := write_chunks (iter_content r) 0 [] in
                  (<[filename := content]> fs, err)
              end
          end
      end
  end.

Definition download_video (url : string) (fs : gmap string bytes)
  : gmap string bytes * download_result :=
  if negb (is_http_url url) then (fs, Returned None "❌ Invalid URL")
  else
    match makedirs dw with
    | Some e => (fs, Raised e)
    | None =>
        let '(fs1, err) := download_try fs in
        match err with
        | None => (fs1, Returned (Some filename) "✅ Downloaded successfully")
        | Some e =>
            (* if os.path.exists(filename): os.remove(filename); the call
               is not inside a [try], so its exception leaves the function
               and the file stays *)
            match fs1 !! filename with
            | Some _ =>
                match os_remove dw with
                | Some e' => (fs1, Raised e')
                | None =>
                    (delete filename fs1,
                     Returned None ("❌ Download failed: " +:+ exc_str e))
                end
            | None =>
                (fs1, Returned None ("❌ Download failed: " +:+ exc_str e))
            end
        end
    end.

End Downloader.

(** ** The configuration file: [load_config] (lines 23-31) and
       [save_config_handler] (lines 479-489) *)

Record app_state := {
  files : gmap string string;   (* text files on disk *)
  API_KEY : pyval;
  BASE_URL : pyval
}.

(** What happens to the file opened with [open(CONFIG_PATH, 'w')]. *)
Inductive disk_outcome :=
| DiskOk
| OpenFails (e : py_exception)                        (* the file is left as it was *)
| WriteFails (written : string) (e : py_exception).   (* truncated, partly written *)

Definition default_config : pyval :=
  PDict [("key", PStr ""); ("url", PStr "https://api.d-id.com")].

Definition api_status_markdown (key : pyval) : string :=
  "**API Status:**  " +:+ LF +:+
  (if truthy key then "🟢 Connected" else "🔴 Not Configured").

Section Config.

(** [os.path.join(os.getcwd(), 'api_config.json')] *)
Variable CONFIG_PATH : string.
(** The text [json.dump(v, f)] writes, and [json.load(f)] on a text
    ([None]: it raises). *)
Variable json_dump : pyval -> string.
Variable json_load : string -> option pyval.

Definition load_config (fs : gmap string string) : pyval :=
  match fs !! CONFIG_PATH with
  | Some text =>
      match json_load text with
      | Some config => config
      | None => default_config
      end
  | None => default_config
  end.

Definition save_config_handler (disk : disk_outcome) (key url : string)
    (st : app_state) : app_state * (string * string) :=
  let config := PDict (dict_display [("key", PStr key); ("url", PStr url)]) in
  match disk with
  | DiskOk =>
      ({| files := <[CONFIG_PATH := json_dump config]> (files st);
          API_KEY := PStr key; BASE_URL := PStr url |},
       ("✅ Config saved! Restart app to apply changes",
        api_status_markdown (PStr key)))
  | OpenFails e =>
      (st,
       ("❌ Error saving config: " +:+ exc_str e,
        api_status_markdown (API_KEY st)))
  | WriteFails written e =>
      ({| files := <[CONFIG_PATH := written]> (files st);
          API_KEY := API_KEY st; BASE_URL := BASE_URL st |},
       ("❌ Error saving config: " +:+ exc_str e,
        api_status_markdown (API_KEY st)))
  end.

(** Lines 33-35: the module-level reads after [load_config]. *)
Definition configured_key (config : pyval) : pyval :=
  dict_get_none "key" (dict_items config).
Definition configured_url (config : pyval) : pyval :=
  dict_get_default "url" (PStr "https://api.d-id.com") (dict_items config).

End Config.

(** ** Notions of the specification *)

(** The terminal outcomes of a poller run. *)
Inductive outcome := Succeeded | Failed | TimedOut.

(** The outcome each way of leaving the generator stands for: a finished
    job with its result is a success, the deadline is a timeout, everything
    else is a failure. *)
Definition outcome_of (x : exit_point) : outcome :=
  match x with
  | ExitCompleted => Succeeded
  | ExitDeadline => TimedOut
  | ExitNoKey | ExitNoId | ExitBreak | ExitError _ => Failed
  end.

(** The per-poll snapshots are the tuples whose status reads
    ["Status: ..."]; every other tuple closes the stream. *)
Definition is_progress (u : update) : bool :=
  startswith (u_status u) "Status: ".

(** A valid request selects exactly one of the two script variants. *)
Definition valid_request (a : inputs) : bool :=
  String.eqb (script_type a) "text" || String.eqb (script_type a) "audio".

Definition unset (s : string) : bool := String.eqb s "".

(** Omission invariant, optional fields: driver reference, webhook, stitch,
    persist and voice style are keys of the payload only when set. *)
Definition optional_fields_omitted (a : inputs) (p : pydict) : bool :=
  implb (unset (driver_url a)) (negb (has_key "driver_url" p))
  && implb (unset (webhook a)) (negb (has_key "webhook" (payload_config p)))
  && implb (negb (stitch a)) (negb (has_key "stitch" (payload_config p)))
  && implb (negb (persist a)) (negb (has_key "persist" (payload_config p)))
  && implb (unset (voice_style a))
       (negb (has_key "voice_config" (payload_provider p))).

(** Omission invariant, script variants: the fields of the variant that is
    not selected ([input] and [provider] belong to text, [audio_url] to
    audio) are not keys of the script. *)
Definition other_variant_omitted (a : inputs) (p : pydict) : bool :=
  (if String.eqb (script_type a) "audio"
   then negb (has_key "input" (payload_script p))
        && negb (has_key "provider" (payload_script p))
   else true)
  && (if String.eqb (script_type a) "text"
      then negb (has_key "audio_url" (payload_script p))
      else true).

Definition omission_invariant (a : inputs) (p : pydict) : bool :=
  optional_fields_omitted a p && other_variant_omitted a p.

(** ** Sample data used by the examples *)

(** The double quote character. *)
Definition dquote : Ascii.ascii := Ascii.ascii_of_nat 34.

Definition quoted (s : string) : string :=
  String dquote s +:+ String dquote "".

Definition join (sep : string) (l : list string) : string :=
  match l with
  | [] => ""
  | x :: xs => fold_left (fun acc y => acc +:+ sep +:+ y) xs x
  end.

(** A plain renderer standing for [json.dumps]: no escapes, one line. *)
Fixpoint sample_dumps (v : pyval) : string :=
  match v with
  | PNone => "null"
  | PBool true => "true"
  | PBool false => "false"
  | PInt n => pretty n
  | PFloat q => pretty (Qnum q) +:+ "/" +:+ pretty (Zpos (Qden q))
  | PStr s => quoted s
  | PList l => "[" +:+ join ", " (map sample_dumps l) +:+ "]"
  | PDict d =>
      "{" +:+ join ", "
                (map (fun kv => let '(k, x) := kv in
                                quoted k +:+ ": " +:+ sample_dumps x) d)
          +:+ "}"
  end.

(** The texts between successive pairs of double quotes. *)
Fixpoint between_quotes (s : string) (inside : bool) (cur : string)
  : list string :=
  match s with
  | EmptyString => []
  | String c s' =>
      if Ascii.eqb c dquote then
        if inside then cur :: between_quotes s' false ""
        else between_quotes s' true ""
      else between_quotes s' inside
             (if inside then cur +:+ String c "" else cur)
  end.

Fixpoint pair_up (l : list string) : option pydict :=
  match l with
  | [] => Some []
  | k :: v :: rest => option_map (cons (k, PStr v)) (pair_up rest)
  | _ => None
  end.

(** A reader for what [sample_dumps] writes for a flat object of strings. *)
Definition sample_loads (s : string) : option pyval :=
  option_map PDict (pair_up (between_quotes s false "")).

Definition sample_repr (v : pyval) : string := sample_dumps v.

Definition text_request : inputs :=
  {| source_url := "https://x/a.jpg"; script_type := "text";
     text_input := "Hi"; audio_url := "";
     voice_provider := "microsoft"; voice_id := "en-US-JennyNeural";
     voice_style := ""; driver_url := ""; webhook := "";
     stitch := false; persist := false; external_tts := "" |}.

Definition audio_request : inputs :=
  {| source_url := "https://x/a.jpg"; script_type := "audio";
     text_input := "Hello world!"; audio_url := "https://x/a.mp3";
     voice_provider := "microsoft"; voice_id := "en-US-JennyNeural";
     voice_style := ""; driver_url := ""; webhook := "";
     stitch := false; persist := false; external_tts := "" |}.

Definition transport_error : py_exception :=
  {| exc_str := "Connection reset by peer"; exc_response := None |}.

Definition created_talk : py_exception + pyval :=
  inr (PDict [("id", PStr "tlk_1"); ("status", PStr "created")]).

(** A poll answer that arrives after [d] seconds with the given status. *)
Definition status_after (d : Q) (s : string) : poll_answer :=
  {| delay := d; answer := inr (PDict [("status", PStr s)]) |}.

Definition done_with (url : string) : poll_answer :=
  {| delay := 0%Q;
     answer := inr (PDict [("status", PStr "done"); ("result_url", PStr url)]) |}.

(** created, started, then done with a result. *)
Definition world_done : world :=
  {| create_answer := created_talk;
     poll_answers := fun n =>
       match n with
       | 0 => status_after 0 "created"
       | 1 => status_after 0 "started"
       | _ => done_with "https://x/out.mp4"
       end |}.

(** rejected at the first poll; the job record later reads done. *)
Definition world_rejected_then_done : world :=
  {| create_answer := created_talk;
     poll_answers := fun n =>
       match n with
       | 0 => status_after 0 "rejected"
       | _ => done_with "https://x/out.mp4"
       end |}.

(** rejected at every poll. *)
Definition world_rejected : world :=
  {| create_answer := created_talk;
     poll_answers := fun _ => status_after 0 "rejected" |}.

(** started at every poll. *)
Definition world_started : world :=
  {| create_answer := created_talk;
     poll_answers := fun _ => status_after 0 "started" |}.



(** The creation response has no [id]. *)
Definition world_no_id : world :=
  {| create_answer := inr (PDict [("kind", PStr "ValidationError")]);
     poll_answers := fun _ => status_after 0 "started" |}.

(** The second [get_talk] fails in transport. *)
Definition world_poll_fails : world :=
  {| create_answer := created_talk;
     poll_answers := fun n =>
       match n with
       | 0 => status_after 0 "started"
       | _ => {| delay := 0%Q; answer := inl transport_error |}
       end |}.

(** failed at the second poll. *)
Definition world_failed : world :=
  {| create_answer := created_talk;
     poll_answers := fun n =>
       match n with
       | 0 => status_after 0 "started"
       | _ => status_after 0 "failed"
       end |}.

(** The run of the text request in a world, with the sample renderers. *)
Definition sample_run (w : world) : run :=
  create_talk sample_dumps sample_repr w (PStr "key") max_polls text_request.

(** A response that declares 0 bytes and breaks after the first chunk. *)
Definition world_reset : download_world :=
  {| makedirs := None;
     time_time := 1700000000;
     requests_get :=
       inr {| raise_for_status := None;
              content_length := Some "0";
              iter_content := [Chunk [Byte.x00; Byte.x01]; Broken transport_error] |};
     open_wb := None;
     write_error := fun _ => None;
     os_remove := None |}.

(** The same response, and the partial file cannot be removed (another
    process holds it open). *)
Definition world_reset_locked : download_world :=
  {| makedirs := None;
     time_time := 1700000000;
     requests_get :=
       inr {| raise_for_status := None;
              content_length := Some "0";
              iter_content := [Chunk [Byte.x00; Byte.x01]; Broken transport_error] |};
     open_wb := None;
     write_error := fun _ => None;
     os_remove :=
       Some {| exc_str := "[WinError 32] The process cannot access the file because it is being used by another process";
               exc_response := None |} |}.

Definition sample_int (s : string) : py_exception + Z :=
  if String.eqb s "0" then inr 0%Z
  else inl {| exc_str := "invalid literal for int() with base 10";
              exc_response := None |}.

(** ** Further readings of a trace *)

Definition creates (tr : list event) : list pydict :=
  omap (fun e => match e with EvCreateTalk p => Some p | _ => None end) tr.

Definition sleeps (tr : list event) : list Q :=
  omap (fun e => match e with EvSleep s => Some s | _ => None end) tr.

(** [t] is [s] with text appended. *)
Definition log_extends (s t : string) : Prop := exists r, t = s +:+ r.

(** Each text is the one before it with text appended. *)
Fixpoint append_only (logs : list string) : Prop :=
  match logs with
  | a :: rest =>
      match rest with
      | b :: _ => log_extends a b /\ append_only rest
      | [] => True
      end
  | [] => True
  end.

(** falsy ids, a status that is no string, a finished job without a result. *)
Definition world_empty_id : world :=
  {| create_answer := inr (PDict [("id", PStr ""); ("status", PStr "created")]);
     poll_answers := fun _ => status_after 0 "started" |}.

Definition world_done_no_result : world :=
  {| create_answer := created_talk;
     poll_answers := fun n =>
       match n with
       | 0 => {| delay := 0%Q; answer := inr (PDict [("pending", PBool true)]) |}
       | _ => {| delay := 1%Q;
                 answer := inr (PDict [("status", PStr "done");
                                       ("result_url", PStr "")]) |}
       end |}.

(** ** [download_handler] (app.py, lines 455-470) *)

(** The bytes of the chunks of a response, in order. *)
Definition chunk_data (items : list stream_item) : bytes :=
  concat (omap (fun i => match i with Chunk d => Some d | Broken _ => None end)
            items).

(** One tuple for [outputs=[download_btn, download_status,
    local_video_preview]]. *)
Record download_update := {
  d_button : string;
  d_status : string;
  d_video : video
}.

(** A run of the generator: the tuples it yields, the value of its [return]
    statement (a consumer of the stream does not see it), the exception that
    leaves it, and the files afterwards. *)
Record handler_run := {
  h_yields : list download_update;
  h_returned : option download_update;
  h_raised : option py_exception;
  h_files : gmap string bytes
}.

Definition download_started : download_update :=
  {| d_button := "⏳ Downloading..."; d_status := "Download started...";
     d_video := hidden_video |}.

Section DownloadHandler.

Variable os_sep : string.
Variable py_int : string -> py_exception + Z.
Variable dw : download_world.

(** The statements inside [try:] (lines 457-467). *)
Definition download_handler_try (url : string) (fs : gmap string bytes)
  : handler_run :=
  if negb (truthy (PStr url)) then
    {| h_yields := [];
       h_returned :=
         Some {| d_button := "⬇️ Download Video";
                 d_status := "❌ No URL provided";
                 d_video := hidden_video |};
       h_raised := None; h_files := fs |}
  else
    match download_video os_sep py_int dw url fs with
    | (fs1, Raised e) =>
        {| h_yields := [download_started]; h_returned := None;
           h_raised := Some e; h_files := fs1 |}
    | (fs1, Returned filepath message) =>
        let truthy_path :=
          match filepath with Some p => truthy (PStr p) | None => false end in
        {| h_yields :=
             [download_started;
              if truthy_path then
                {| d_button := "✅ Download Complete"; d_status := message;
                   d_video := {| video_value := option_map PStr filepath;
                                 video_visible := true |} |}
              else
                {| d_button := "❌ Download Failed"; d_status := message;
                   d_video := hidden_video |}];
           h_returned := None; h_raised := None; h_files := fs1 |}
    end.

(** The whole generator, with its [except Exception as e] clause. *)
Definition download_handler (url : string) (fs : gmap string bytes)
  : handler_run :=
  let r := download_handler_try url fs in
  match h_raised r with
  | Some e =>
      {| h_yields :=
           h_yields r ++
             [{| d_button := "❌ Download Failed";
                 d_status := "❌ Error: " +:+ exc_str e;
                 d_video := hidden_video |}];
         h_returned := h_returned r; h_raised := None; h_files := h_files r |}
  | None => r
  end.

End DownloadHandler.

(** A response of three chunks, the second a keep-alive. *)
Definition world_three_chunks : download_world :=
  {| makedirs := None;
     time_time := 1700000000;
     requests_get :=
       inr {| raise_for_status := None;
              content_length := None;
              iter_content := [Chunk [Byte.x01; Byte.x02]; Chunk [];
                               Chunk [Byte.x03]] |};
     open_wb := None;
     write_error := fun _ => None;
     os_remove := None |}.

(** The directory cannot be created. *)
Definition world_no_directory : download_world :=
  {| makedirs := Some {| exc_str := "Permission denied: 'd-id_videos'";
                         exc_response := None |};
     time_time := 1700000000;
     requests_get := inl transport_error;
     open_wb := None;
     write_error := fun _ => None;
     os_remove := None |}.

(** ** Start of the application (app.py, lines 33-35 and 528-535) *)

(** What the [__main__] block leaves: the files, what it printed, and the
    exception that stops it, if any. *)
Record main_run := {
  m_files : gmap string string;
  m_printed : list string;
  m_raised : option py_exception
}.

Definition no_key_warning : string :=
  "⚠️ Warning: No API key configured in api_config.json".

Section Startup.

Variable CONFIG_PATH : string.
Variable json_dump : pyval -> string.
Variable json_load : string -> option pyval.
(** [s.strip()] *)
Variable py_strip : string -> string.

(** Lines 33-35: [config = load_config()], then [API_KEY] and [BASE_URL]
    read with [config.get]. *)
Definition module_globals (fs : gmap string string)
  : py_exception + (pyval * pyval) :=
  match load_config CONFIG_PATH json_load fs with
  | PDict config =>
      inr (dict_get_none "key" config,
           dict_get_default "url" (PStr "https://api.d-id.com") config)
  | v => inl (attribute_error v "get")
  end.

(** Lines 529-535: the default file is written when there is none, then the
    key is looked at. *)
Definition main_block (disk : disk_outcome) (api_key : pyval)
    (fs : gmap string string) : main_run :=
  let check_key (fs1 : gmap string string) (out : list string) :=
    if negb (truthy api_key) then
      {| m_files := fs1; m_printed := out ++ [no_key_warning]; m_raised := None |}
    else
      match api_key with
      | PStr s =>
          {| m_files := fs1;
             m_printed :=
               if negb (truthy (PStr (py_strip s)))
               then out ++ [no_key_warning] else out;
             m_raised := None |}
      | v =>
          {| m_files := fs1; m_printed := out;
             m_raised := Some (attribute_error v "strip") |}
      end in
  match fs !! CONFIG_PATH with
  | Some _ => check_key fs []
  | None =>
      match disk with
      | DiskOk =>
          check_key (<[CONFIG_PATH := json_dump default_config]> fs)
            ["⚠️ Created default config file at: " +:+ CONFIG_PATH]
      | OpenFails e =>
          {| m_files := fs; m_printed := []; m_raised := Some e |}
      | WriteFails written e =>
          {| m_files := <[CONFIG_PATH := written]> fs; m_printed := [];
             m_raised := Some e |}
      end
  end.

End Startup.

(** [strip] for the examples: blanks at both ends are dropped. *)
Fixpoint drop_blanks (s : string) : string :=
  match s with
  | String c s' =>
      if Ascii.eqb c (Ascii.ascii_of_nat 32) then drop_blanks s' else s
  | EmptyString => EmptyString
  end.

Definition sample_strip (s : string) : string :=
  String.rev (drop_blanks (String.rev (drop_blanks s))).

(** ** The url validators and the previews (app.py, lines 37-69 and 303-326) *)

(** [sub in s] for two strings. *)
Fixpoint contains (s sub : string) : bool :=
  startswith s sub
  || match s with
     | EmptyString => false
     | String _ s' => contains s' sub
     end.

Definition invalid_url_message : string :=
  "❌ Please enter a valid URL starting with http:// or https://".

Section Validators.

(** [s.strip()] and [s.lower()] *)
Variable py_strip : string -> string.
Variable py_lower : string -> string.

(** [not url or not url.strip() or not url.startswith(('http://', 'https://'))] *)
Definition rejects_url (url : string) : bool :=
  negb (truthy (PStr url))
  || negb (truthy (PStr (py_strip url)))
  || negb (is_http_url url).

(** [validate_audio_url]: [head] is what [requests.head(url, timeout=10)]
    followed by [raise_for_status()] gives, an exception or the
    [Content-Type] header when the response has one.  The result is the list
    of urls requested and the returned pair. *)
Definition validate_audio_url (head : py_exception + option string)
    (url : string) : list string * (option string * string) :=
  if rejects_url url then ([], (None, invalid_url_message))
  else
    match head with
    | inl e => ([url], (None, "❌ Error: " +:+ exc_str e))
    | inr header =>
        let content_type :=
          py_lower (match header with Some h => h | None => "" end) in
        if negb (contains content_type "mp3")
           && negb (contains content_type "mpeg")
        then ([url], (None, "❌ Only MP3 audio files are supported"))
        else ([url], (Some url, "✅ Valid MP3 audio file"))
    end.

(** [update_audio_preview]: the value, the status text and the visibility
    of the player. *)
Definition update_audio_preview (head : py_exception + option string)
    (url : string) : list string * (option string * string * bool) :=
  if negb (truthy (PStr url)) then
    ([], (None, "❌ Please enter an audio URL", false))
  else
    let '(reqs, (audio_url, message)) := validate_audio_url head url in
    match audio_url with
    | Some a => (reqs, (Some a, message, true))
    | None => (reqs, (None, message, false))
    end.

(** The picture as PIL and numpy hand it back. *)
Variable ndarray : Type.
(** [Image.open], [verify], [Image.open], [thumbnail((200, 200))] and
    [np.array] on the content of a response. *)
Variable decode_image : bytes -> py_exception + ndarray.

(** [validate_image_url]: [get] is what [requests.get(url, timeout=10)]
    followed by [raise_for_status()] gives, an exception or the content. *)
Definition validate_image_url (get : py_exception + bytes) (url : string)
  : list string * (option ndarray * string) :=
  if rejects_url url then ([], (None, invalid_url_message))
  else
    match get with
    | inl e => ([url], (None, "❌ Error: " +:+ exc_str e))
    | inr content =>
        match decode_image content with
        | inl e => ([url], (None, "❌ Error: " +:+ exc_str e))
        | inr img => ([url], (Some img, "✅ Valid avatar image"))
        end
    end.

Definition update_image_preview (get : py_exception + bytes) (url : string)
  : list string * (option ndarray * string * bool) :=
  if negb (truthy (PStr url)) then
    ([], (None, "❌ Please enter an image URL", false))
  else
    let '(reqs, (img_array, message)) := validate_image_url get url in
    match img_array with
    | Some a => (reqs, (Some a, message, true))
    | None => (reqs, (None, message, false))
    end.

End Validators.

(** ** The requests of [DIDClient] (app.py, lines 71-94) and [test_api_key]
       (lines 498-518) *)

Record http_request := {
  req_method : string;
  req_url : string;
  req_headers : pydict;
  req_json : option pydict      (* the [json=] body *)
}.

(** What a handler hands to a Gradio output: a value, a text, or a
    [gr.JSON(visible=...)] update. *)
Inductive gr_output :=
| GrValue (v : pyval)
| GrText (s : string)
| GrJSON (visible : bool).

Section Client.

(** [base64.b64encode(s.encode()).decode()] *)
Variable b64encode : string -> string.
Variable py_repr : pyval -> string.
(** The module-level [BASE_URL], taken not to change during a run. *)
Variable BASE_URL : pyval.

(** [f"Basic {base64.b64encode(f'{api_key}:'.encode()).decode()}"] *)
Definition basic_auth (api_key : pyval) : string :=
  "Basic " +:+ b64encode (py_format py_repr api_key +:+ ":").

(** [DIDClient.__init__] *)
Definition client_headers (api_key : pyval) : pydict :=
  dict_display [("Authorization", PStr (basic_auth api_key));
                ("Content-Type", PStr "application/json");
                ("accept", PStr "application/json")].

(** The request behind an event of [create_talk]: [DIDClient.create_talk]
    and [DIDClient.get_talk]. *)
Definition request_of_event (api_key : pyval) (e : event)
  : option http_request :=
  match e with
  | EvCreateTalk payload =>
      Some {| req_method := "POST";
              req_url := py_format py_repr BASE_URL +:+ "/talks";
              req_headers := client_headers api_key;
              req_json := Some payload |}
  | EvGetTalk talk_id =>
      Some {| req_method := "GET";
              req_url := py_format py_repr BASE_URL +:+ "/talks/"
                         +:+ py_format py_repr talk_id;
              req_headers := client_headers api_key;
              req_json := None |}
  | _ => None
  end.

Definition http_requests (api_key : pyval) (tr : list event)
  : list http_request :=
  omap (request_of_event api_key) tr.

(** [test_api_key]: [credits] is what the GET of [/credits] followed by
    [raise_for_status()] and [.json()] gives.  The result is the requests
    made and the returned tuple. *)
Definition test_api_key (credits : py_exception + pyval) (api_key : string)
  : list http_request * list gr_output :=
  if negb (truthy (PStr api_key)) then
    ([], [GrJSON false; GrText "❌ Please enter an API key first"])
  else
    let request :=
      {| req_method := "GET";
         req_url := py_format py_repr BASE_URL +:+ "/credits";
         req_headers :=
           dict_display [("Authorization", PStr (basic_auth (PStr api_key)));
                         ("accept", PStr "application/json")];
         req_json := None |} in
    let failed (e : py_exception) :=
      [GrValue (PDict []); GrText ("❌ API Key test failed: " +:+ exc_str e);
       GrJSON false] in
    match credits with
    | inl e => ([request], failed e)
    | inr (PDict data) =>
        ([request],
         [GrValue (PDict (dict_display
                            [("remaining", dict_get_none "remaining" data);
                             ("total", dict_get_none "total" data);
                             ("expiry", dict_get_none "expiry" data)]));
          GrText "✅ API Key is valid"; GrJSON true])
    | inr v => ([request], failed (attribute_error v "get"))
    end.

End Client.

(** ** setup.py: [create_config] (lines 78-92) and [check_gradio_version]
       (lines 52-75) *)

(** What a step of the set-up script does that can be seen from outside. *)
Inductive setup_event :=
| Print (s : string)
| Prompt (s : string)      (* input(s) *)
| PipList                  (* pip list --format=json *)
| PipUpgradeGradio         (* pip install --upgrade gradio *)
| MakeVenv                 (* python -m venv venv *)
| PipSetuptools            (* pip install --upgrade setuptools *)
| PipRequirements          (* pip install -r requirements.txt *)
| RunApp.                  (* python app.py *)

(** Does the step ask a question, does it run the upgrade? *)
Definition asks (evs : list setup_event) : bool :=
  existsb (fun e => match e with Prompt _ => true | _ => false end) evs.

Definition upgrades (evs : list setup_event) : bool :=
  existsb (fun e => match e with PipUpgradeGradio => true | _ => false end) evs.

(** [a < b] on two strings: the first character that differs decides, and a
    proper prefix is smaller. *)
Fixpoint str_lt (a b : string) : bool :=
  match a, b with
  | _, EmptyString => false
  | EmptyString, String _ _ => true
  | String c a', String d b' =>
      if (Ascii.N_of_ascii c <? Ascii.N_of_ascii d)%N then true
      else if (Ascii.N_of_ascii d <? Ascii.N_of_ascii c)%N then false
      else str_lt a' b'
  end.

(** [str(KeyError(k))] *)
Definition key_error (k : string) : py_exception :=
  {| exc_str := "'" +:+ k +:+ "'"; exc_response := None |}.

Record config_run := {
  c_files : gmap string string;
  c_events : list setup_event;
  c_raised : option py_exception
}.

Section Setup.

Variable py_strip : string -> string.
Variable py_lower : string -> string.
Variable py_repr : pyval -> string.
(** [json.dumps(v, indent=2)] *)
Variable json_dumps_indent : pyval -> string.
(** The [TypeError] of an operation on a value of a type it does not
    support, by operation and type name. *)
Variable type_error : string -> string -> py_exception.
(** [Path.cwd() / 'api_config.json'] *)
Variable config_path : string.

(** [create_config]: [typed] is what [input] returns, [disk] what happens
    to [write_text]. *)
Definition create_config (typed : string) (disk : disk_outcome)
    (fs : gmap string string) : config_run :=
  match fs !! config_path with
  | Some _ =>
      {| c_files := fs;
         c_events := [Print "ℹ️ Configuration file already exists"];
         c_raised := None |}
  | None =>
      let key := py_strip typed in
      let asked :=
        ([Print (LF +:+ "🛠 Creating configuration file...");
          Prompt "Enter your D-ID API key (press Enter to skip): "] ++
         (if negb (truthy (PStr key)) then
            [Print "⚠️ No API key entered. You can configure it later in api_config.json or through the app."]
          else []))%list in
      let config :=
        PDict (dict_display [("key", PStr key);
                             ("url", PStr "https://api.d-id.com")]) in
      match disk with
      | DiskOk =>
          {| c_files := <[config_path := json_dumps_indent config]> fs;
             c_events :=
               (asked ++ [Print ("✅ Configuration file created at: "
                                 +:+ config_path)])%list;
             c_raised := None |}
      | OpenFails e =>
          {| c_files := fs; c_events := asked; c_raised := Some e |}
      | WriteFails written e =>
          {| c_files := <[config_path := written]> fs; c_events := asked;
             c_raised := Some e |}
      end
  end.

(** [next((pkg for pkg in packages if pkg["name"].lower() == "gradio"),
    None)] over the elements of a list. *)
Fixpoint find_gradio (packages : list pyval) : py_exception + option pyval :=
  match packages with
  | [] => inr None
  | pkg :: rest =>
      match pkg with
      | PDict d =>
          match dict_get "name" d with
          | None => inl (key_error "name")
          | Some (PStr name) =>
              if String.eqb (py_lower name) "gradio" then inr (Some pkg)
              else find_gradio rest
          | Some v => inl (attribute_error v "lower")
          end
      | v => inl (type_error "getitem" (py_type_name v))
      end
  end.

(** The elements a [for] over a decoded JSON value goes through: the items
    of a list, the keys of an object, the characters of a string. *)
Definition py_iter (v : pyval) : py_exception + list pyval :=
  match v with
  | PList l => inr l
  | PDict d => inr (PStr <$> map fst d)
  | PStr s => inr ((fun c => PStr (String c "")) <$> String.list_ascii_of_string s)
  | _ => inl (type_error "iter" (py_type_name v))
  end.

(** The statements inside [try:] (lines 55-73): the events, and the
    exception raised, if any.  [pip_list] is what [subprocess.run(...,
    check=True)] and [json.loads] give, [answer] what [input] returns,
    [upgrade] the exception of the second [subprocess.run], if any. *)
Definition check_gradio_try (pip_list : py_exception + pyval)
    (answer : string) (upgrade : option py_exception)
  : list setup_event * option py_exception :=
  match pip_list with
  | inl e => ([PipList], Some e)
  | inr packages =>
      match match py_iter packages with
            | inl e => inl e
            | inr l => find_gradio l
            end with
      | inl e => ([PipList], Some e)
      | inr None => ([PipList; Print "⚠️ Gradio not found in environment."], None)
      | inr (Some gradio_pkg) =>
          if negb (truthy gradio_pkg) then
            ([PipList; Print "⚠️ Gradio not found in environment."], None)
          else
            match dict_get "version" (dict_items gradio_pkg) with
            | None => ([PipList], Some (key_error "version"))
            | Some current =>
                let shown :=
                  [PipList;
                   Print ("📦 Gradio version installed: "
                          +:+ py_format py_repr current)] in
                match current with
                | PStr v =>
                    if str_lt v "4.0.0" then
                      let asked :=
                        (shown ++
                         [Print "⚠️ A newer version of Gradio is available.";
                          Prompt "Would you like to upgrade to the latest Gradio version? [Y/n]: "])%list in
                      if py_in_strs (PStr (py_lower (py_strip answer)))
                           [""; "y"; "yes"]
                      then
                        match upgrade with
                        | Some e => ((asked ++ [PipUpgradeGradio])%list, Some e)
                        | None =>
                            ((asked ++ [PipUpgradeGradio;
                                        Print "✅ Gradio upgraded successfully."])%list,
                             None)
                        end
                      else (asked, None)
                    else (shown, None)
                | v => (shown, Some (type_error "lt" (py_type_name v)))
                end
            end
      end
  end.

(** [check_gradio_version], with its first [print] and its [except
    Exception as e] clause. *)
Definition check_gradio_version (pip_list : py_exception + pyval)
    (answer : string) (upgrade : option py_exception) : list setup_event :=
  let '(events, raised) := check_gradio_try pip_list answer upgrade in
  (Print "🔍 Checking Gradio version..." :: events ++
   match raised with
   | Some e => [Print ("⚠️ Could not check Gradio version: " +:+ exc_str e)]
   | None => []
   end)%list.

End Setup.

(** Lower case for the letters A to Z, for the examples. *)
Definition lower_ascii (c : Ascii.ascii) : Ascii.ascii :=
  let n := Ascii.N_of_ascii c in
  if ((65 <=? n) && (n <=? 90))%N then Ascii.ascii_of_N (n + 32) else c.

Fixpoint sample_lower (s : string) : string :=
  match s with
  | EmptyString => EmptyString
  | String c s' => String (lower_ascii c) (sample_lower s')
  end.

Definition sample_type_error (op ty : string) : py_exception :=
  {| exc_str := "unsupported operand type: " +:+ ty; exc_response := None |}.

Definition pip_packages (version : string) : py_exception + pyval :=
  inr (PList [PDict [("name", PStr "requests"); ("version", PStr "2.31.0")];
              PDict [("name", PStr "Gradio"); ("version", PStr version)]]).

(** ** What the JSON body holds *)

(** No [None] anywhere in a value: nothing [json.dumps] would write as
    [null]. *)
Fixpoint no_None (v : pyval) : bool :=
  match v with
  | PNone => false
  | PList l => forallb no_None l
  | PDict d =>
      (fix entries (d : list (string * pyval)) : bool :=
         match d with
         | [] => true
         | (_, x) :: rest => no_None x && entries rest
         end) d
  | _ => true
  end.

(** [list(d.keys())] *)
Definition dict_keys (d : pydict) : list string := map fst d.

(** ** setup.py: the script (lines 8-49 and 95-131) *)

(** What a [subprocess.run(..., check=True)] does: it returns, it raises
    [CalledProcessError], or it raises something else. *)
Inductive proc_outcome :=
| ProcOk
| ProcFailed (e : py_exception)
| ProcError (e : py_exception).

(** What the [subprocess.run] of [run_app] does (no [check=True]): it
    returns whatever the exit status, it is interrupted from the keyboard, or
    it raises something else. *)
Inductive app_outcome :=
| AppReturned
| AppInterrupted
| AppError (e : py_exception).

(** How the script stops. *)
Inductive script_end :=
| Finished
| Exit (code : Z)                 (* sys.exit(code) *)
| Crashed (e : py_exception).     (* an exception nobody catches *)

Record setup_world := {
  version_info : Z * Z;                    (* sys.version_info[:2] *)
  venv_exists : bool;                      (* venv_dir.exists() *)
  venv_resolved : string;                  (* venv_dir.resolve() *)
  venv_run : proc_outcome;
  setuptools_run : proc_outcome;
  requirements_exist : bool;               (* requirements_file.exists() *)
  requirements_run : proc_outcome;
  pip_list : py_exception + pyval;
  upgrade_answer : string;
  upgrade_run : option py_exception;
  typed_key : string;
  config_disk : disk_outcome;
  os_name : string;
  run_now_answer : string;
  app_run : app_outcome;
  (* the files a child process leaves, whether it succeeds or not *)
  proc_files : setup_event -> gmap string string -> gmap string string
}.

Record setup_run := {
  s_events : list setup_event;
  s_files : gmap string string;
  s_end : script_end
}.

(** [sys.version_info < (3, 8)] *)
Definition version_too_old (v : Z * Z) : bool :=
  (v.1 <? 3)%Z || ((v.1 =? 3)%Z && (v.2 <? 8)%Z).

(** The files after the child processes among [evs] have run, in order;
    printing and asking change no file. *)
Definition files_after (sw : setup_world) (evs : list setup_event)
    (fs : gmap string string) : gmap string string :=
  foldl (fun fs e =>
           match e with
           | Print _ | Prompt _ => fs
           | _ => proc_files sw e fs
           end) fs evs.

(** A virtual environment is there for the rest of the script. *)
Definition venv_usable (sw : setup_world) : bool :=
  venv_exists sw || match venv_run sw with ProcOk => true | _ => false end.

Definition proc_ok (o : proc_outcome) : bool :=
  match o with ProcOk => true | _ => false end.

Definition proc_failed (o : proc_outcome) : bool :=
  match o with ProcFailed _ => true | _ => false end.

(** Every step before the gradio check succeeds. *)
Definition installs_succeed (sw : setup_world) : bool :=
  negb (version_too_old (version_info sw))
  && venv_usable sw
  && proc_ok (setuptools_run sw)
  && requirements_exist sw
  && proc_ok (requirements_run sw).

(** Is the application started? *)
Definition runs_app (evs : list setup_event) : bool :=
  existsb (fun e => match e with RunApp => true | _ => false end) evs.

Definition run_now_question : string :=
  LF +:+ "🚀 Would you like to run the application now? [y/N]: ".

Section SetupScript.

Variable py_strip : string -> string.
Variable py_lower : string -> string.
Variable py_repr : pyval -> string.
Variable json_dumps_indent : pyval -> string.
Variable type_error : string -> string -> py_exception.
Variable config_path : string.
Variable sw : setup_world.

(** [create_venv]: the events, and the returned flag or the exception. *)
Definition create_venv : list setup_event * (py_exception + bool) :=
  if negb (venv_exists sw) then
    match venv_run sw with
    | ProcOk =>
        ([Print "🔧 Creating virtual environment..."; MakeVenv;
          Print ("✅ Virtual environment created at " +:+ venv_resolved sw)],
         inr true)
    | ProcFailed e =>
        ([Print "🔧 Creating virtual environment..."; MakeVenv;
          Print ("❌ Failed to create virtual environment: " +:+ exc_str e)],
         inr false)
    | ProcError e =>
        ([Print "🔧 Creating virtual environment..."; MakeVenv], inl e)
    end
  else ([Print "ℹ️ Virtual environment already exists"], inr true).

(** [install_setuptools]: the events and how it ends ([Finished]: it
    returns). *)
Definition install_setuptools : list setup_event * script_end :=
  match setuptools_run sw with
  | ProcOk =>
      ([Print "🧩 Ensuring setuptools (for distutils compatibility)...";
        PipSetuptools; Print "✅ setuptools installed"], Finished)
  | ProcFailed e =>
      ([Print "🧩 Ensuring setuptools (for distutils compatibility)...";
        PipSetuptools;
        Print ("❌ Failed to install setuptools: " +:+ exc_str e)], Exit 1)
  | ProcError e =>
      ([Print "🧩 Ensuring setuptools (for distutils compatibility)...";
        PipSetuptools], Crashed e)
  end.

Definition install_requirements : list setup_event * script_end :=
  if negb (requirements_exist sw) then
    ([Print "📦 Installing dependencies from requirements.txt...";
      Print "❌ Missing requirements.txt"], Exit 1)
  else
    match requirements_run sw with
    | ProcOk =>
        ([Print "📦 Installing dependencies from requirements.txt...";
          PipRequirements; Print "✅ Requirements installed successfully"],
         Finished)
    | ProcFailed e =>
        ([Print "📦 Installing dependencies from requirements.txt...";
          PipRequirements;
          Print ("❌ Failed to install requirements: " +:+ exc_str e)], Exit 1)
    | ProcError e =>
        ([Print "📦 Installing dependencies from requirements.txt...";
          PipRequirements], Crashed e)
    end.

Definition print_activation_instructions : list setup_event :=
  [Print (LF +:+ "🎉 Setup complete! To use the application:");
   Print (if String.eqb (os_name sw) "nt"
          then "1. Activate the virtual environment:" +:+ LF
               +:+ "   .\venv\Scripts\activate"
          else "1. Activate the virtual environment:" +:+ LF
               +:+ "   source venv/bin/activate");
   Print ("2. Run the app:" +:+ LF +:+ "   python app.py")].

(** [run_app]: only [KeyboardInterrupt] is caught. *)
Definition run_app : list setup_event * script_end :=
  match app_run sw with
  | AppReturned => ([RunApp], Finished)
  | AppInterrupted =>
      ([RunApp; Print (LF +:+ "👋 Application closed by user.")], Finished)
  | AppError e => ([RunApp], Crashed e)
  end.

Definition banner : setup_event :=
  Print (String (Ascii.ascii_of_nat 27) "[96m🔧 Setting up D-ID Studio Pro..."
         +:+ String (Ascii.ascii_of_nat 27) "[0m").

(** The script (lines 111-131).  The files are threaded through the child
    processes, each of which leaves what the world says it leaves. *)
Definition setup_script (fs : gmap string string) : setup_run :=
  if version_too_old (version_info sw) then
    {| s_events :=
         [banner;
          Print "❌ Python 3.8 or higher is required to run this application."];
       s_files := fs; s_end := Exit 1 |}
  else
    let '(venv_events, venv) := create_venv in
    let fs1 := files_after sw venv_events fs in
    match venv with
    | inl e =>
        {| s_events := banner :: venv_events; s_files := fs1;
           s_end := Crashed e |}
    | inr false =>
        {| s_events := banner :: venv_events; s_files := fs1;
           s_end := Finished |}
    | inr true =>
        let '(st_events, st_end) := install_setuptools in
        let fs2 := files_after sw st_events fs1 in
        match st_end with
        | Finished =>
            let '(rq_events, rq_end) := install_requirements in
            let fs3 := files_after sw rq_events fs2 in
            match rq_end with
            | Finished =>
                let gradio :=
                  check_gradio_version py_strip py_lower py_repr type_error
                    (pip_list sw) (upgrade_answer sw) (upgrade_run sw) in
                let fs4 := files_after sw gradio fs3 in
                let c :=
                  create_config py_strip json_dumps_indent config_path
                    (typed_key sw) (config_disk sw) fs4 in
                let before_config :=
                  (banner :: venv_events ++ st_events ++ rq_events ++ gradio
                   ++ c_events c)%list in
                match c_raised c with
                | Some e =>
                    {| s_events := before_config; s_files := c_files c;
                       s_end := Crashed e |}
                | None =>
                    let asked :=
                      (before_config ++ print_activation_instructions ++
                       [Prompt run_now_question])%list in
                    if String.eqb (py_lower (py_strip (run_now_answer sw))) "y"
                    then
                      let '(app_events, app_end) := run_app in
                      {| s_events := (asked ++ app_events)%list;
                         s_files := files_after sw app_events (c_files c);
                         s_end := app_end |}
                    else
                      {| s_events := asked; s_files := c_files c;
                         s_end := Finished |}
                end
            | stop =>
                {| s_events :=
                     (banner :: venv_events ++ st_events ++ rq_events)%list;
                   s_files := fs3; s_end := stop |}
            end
        | stop =>
            {| s_events := (banner :: venv_events ++ st_events)%list;
               s_files := fs2; s_end := stop |}
        end
    end.

End SetupScript.

(** A machine on which everything installs, [pip list] fails, nothing is
    configured yet, and the application is not started; the child processes
    each leave a file of their own. *)
Definition world_fresh_machine : setup_world :=
  {| version_info := (3, 11)%Z; venv_exists := false;
     venv_resolved := "/home/u/app/venv"; venv_run := ProcOk;
     setuptools_run := ProcOk; requirements_exist := true;
     requirements_run := ProcOk; pip_list := inl transport_error;
     upgrade_answer := ""; upgrade_run := None; typed_key := " k3y ";
     config_disk := DiskOk; os_name := "posix"; run_now_answer := "";
     app_run := AppReturned;
     proc_files := fun e fs =>
       match e with
       | MakeVenv => <["venv/pyvenv.cfg" := "home = /usr/bin"]> fs
       | PipSetuptools => <["venv/setuptools" := "installed"]> fs
       | _ => fs
       end |}.

(** The same machine, answering [Y] to the last question and leaving the
    application with Ctrl-C. *)
Definition world_run_now : setup_world :=
  {| version_info := (3, 11)%Z; venv_exists := true;
     venv_resolved := "/home/u/app/venv"; venv_run := ProcOk;
     setuptools_run := ProcOk; requirements_exist := true;
     requirements_run := ProcOk; pip_list := pip_packages "5.1.0";
     upgrade_answer := ""; upgrade_run := None; typed_key := "";
     config_disk := DiskOk; os_name := "nt"; run_now_answer := " Y ";
     app_run := AppInterrupted;
     proc_files := fun _ fs => fs |}.

(** * Properties *)

(** ** The payload *)

Lemma optional_fields_always_omitted (a : inputs) :
  optional_fields_omitted a (build_payload a) = true.
Proof.
  destruct a as [src ty txt au vp vi vs dr wh st pe ext].
  unfold optional_fields_omitted, build_payload, raw_payload, config_dict,
    script_dict, provider_dict, unset, truthy; cbn [driver_url webhook stitch
    persist voice_style script_type text_input audio_url voice_provider
    voice_id source_url].
  destruct (String.eqb dr ""), (String.eqb wh ""), (String.eqb vs ""), st, pe,
    (String.eqb ty "text"), (String.eqb ty "audio"); reflexivity.
Qed.

Lemma text_variant_omitted (a : inputs) :
  script_type a = "text" -> other_variant_omitted a (build_payload a) = true.
Proof.
  destruct a as [src ty txt au vp vi vs dr wh st pe ext]; cbn [script_type].
  intros ->.
  unfold other_variant_omitted, build_payload, raw_payload, config_dict,
    script_dict, provider_dict, truthy; cbn [driver_url webhook stitch
    persist voice_style script_type text_input audio_url voice_provider
    voice_id source_url].
  destruct (String.eqb dr ""), (String.eqb wh ""), (String.eqb vs ""), st, pe;
    reflexivity.
Qed.

Lemma audio_variant_keeps_input (a : inputs) :
  script_type a = "audio" ->
  dict_get "input" (payload_script (build_payload a)) = Some (PStr "")
  /\ has_key "provider" (payload_script (build_payload a)) = false.
Proof.
  destruct a as [src ty txt au vp vi vs dr wh st pe ext]; cbn [script_type].
  intros ->.
  unfold build_payload, raw_payload, config_dict,
    script_dict, provider_dict, truthy; cbn [driver_url webhook stitch
    persist voice_style script_type text_input audio_url voice_provider
    voice_id source_url].
  destruct (String.eqb dr ""), (String.eqb wh ""), (String.eqb vs ""), st, pe;
    split; reflexivity.
Qed.

(** C2, evaluated on an audio request with every optional field unset: the
    text variant's [input] is a key of the script, with the empty string as
    its value, so the omission invariant does not hold of the payload. *)
Theorem C2_audio_payload_has_empty_input :
  valid_request audio_request = true
  /\ build_payload audio_request =
       [("source_url", PStr "https://x/a.jpg");
        ("script", PDict [("type", PStr "audio"); ("input", PStr "");
                          ("subtitles", PStr "false"); ("ssml", PStr "false");
                          ("audio_url", PStr "https://x/a.mp3")]);
        ("config", PDict [("fluent", PStr "false")])]
  /\ omission_invariant audio_request (build_payload audio_request) = false.
Proof. repeat split; reflexivity. Qed.

(** ** The polling loop *)

Lemma Qlt_bool_true (a b : Q) : Qlt_bool a b = true <-> (a < b)%Q.
Proof.
  unfold Qlt_bool. rewrite negb_true_iff.
  split.
  - intros H. apply Qnot_le_lt. intros Hle.
    apply Qle_bool_iff in Hle. congruence.
  - intros H. destruct (Qle_bool b a) eqn:E; [|reflexivity].
    apply Qle_bool_iff in E. exfalso. apply (Qlt_not_le _ _ H E).
Qed.

Lemma Qnat_S (n : nat) : (Qnat (S n) == Qnat n + 1)%Q.
Proof.
  unfold Qnat. rewrite Nat2Z.inj_succ. unfold Z.succ.
  rewrite inject_Z_plus. reflexivity.
Qed.

Lemma Qnat_0 : (Qnat 0 == 0)%Q.
Proof. reflexivity. Qed.

Lemma progress_update_is_progress pr tid cs d log :
  is_progress (progress_update pr tid cs d log) = true.
Proof. reflexivity. Qed.

Section PollerFacts.

Variable json_dumps : pyval -> string.
Variable py_repr : pyval -> string.
Variable w : world.
Variable talk_id : pyval.

Local Abbreviation iter := (poll_iteration json_dumps py_repr w talk_id).
Local Abbreviation loop := (poll_loop json_dumps py_repr w talk_id).

(** Case analysis on one pass through the loop body. *)
Ltac iter_cases st :=
  unfold poll_iteration;
  destruct (answer (poll_answers w (polls st))) as [?e|[| | | | | |?d]] eqn:?Ea;
  [..|destruct (py_eq_str _ "done") eqn:?Edone;
      [destruct (truthy _) eqn:?Eurl
      |destruct (py_in_strs _ _) eqn:?Efail]].

Lemma poll_loop_unfold fuel st :
  loop fuel st =
  if Qlt_bool (elapsed st) timeout then
    match fuel with
    | O => ([], LoopFuel, st)
    | S fuel' =>
        match iter st with
        | Again evs st1 =>
            let '(tr, x, st2) := loop fuel' st1 in ((evs ++ tr)%list, x, st2)
        | Leave evs x st1 => (evs, x, st1)
        end
    end
  else ([], LoopDeadline, st).
Proof. destruct fuel; reflexivity. Qed.

Lemma iteration_again st evs st1 :
  iter st = Again evs st1 ->
  polls st1 = S (polls st)
  /\ elapsed st1 = (elapsed st + delay (poll_answers w (polls st)) + poll_interval)%Q
  /\ get_calls evs = [talk_id]
  /\ (exists u, yields evs = [u] /\ is_progress u = true)
  /\ exists d,
       answer (poll_answers w (polls st)) = inr (PDict d)
       /\ current_status st1 = Some (dict_get_default "status" (PStr "unknown") d)
       /\ py_eq_str (dict_get_default "status" (PStr "unknown") d) "done" = false
       /\ py_in_strs (dict_get_default "status" (PStr "unknown") d)
            ["failed"; "error"] = false.
Proof.
  iter_cases st; intros H; inversion H; subst; clear H.
  cbn. repeat split; eauto 10.
Qed.

Lemma iteration_leave st evs x st1 :
  iter st = Leave evs x st1 ->
  polls st1 = S (polls st)
  /\ elapsed st1 = (elapsed st + delay (poll_answers w (polls st)))%Q
  /\ get_calls evs = [talk_id]
  /\ x <> LoopFuel /\ x <> LoopDeadline.
Proof.
  iter_cases st; intros H; inversion H; subst; clear H;
    cbn; repeat split; congruence.
Qed.

(** Unfolds one test of the loop condition and one pass, in a goal
    [loop fuel st = (tr, x, st') -> _]. *)
Ltac loop_cases st :=
  rewrite poll_loop_unfold;
  destruct (Qlt_bool (elapsed st) timeout) eqn:?Ec;
  [ lazymatch goal with
    | |- context [iter st] =>
        destruct (iter st) as [?evs ?st1|?evs ?x1 ?st1] eqn:?Ei;
        [ destruct (loop _ _) as [[?tr1 ?x1] ?st2] eqn:?El; intros [= <- <- <-]
        | intros [= <- <- <-] ]
    | |- _ => intros [= <- <- <-]
    end
  | intros [= <- <- <-] ].

Lemma loop_polls fuel : forall st tr x st',
  loop fuel st = (tr, x, st') ->
  polls st' = (polls st + length (get_calls tr))%nat.
Proof.
  induction fuel as [|fuel IH]; intros st tr x st'; loop_cases st;
    cbn; try lia.
  - apply iteration_again in Ei as (Hp & _ & Hg & _).
    apply IH in El. unfold get_calls in *. rewrite omap_app, length_app, Hg.
    cbn. lia.
  - apply iteration_leave in Ei as (Hp & _ & Hg & _). rewrite Hg. cbn. lia.
Qed.

Lemma loop_no_poll fuel st tr x st' :
  loop fuel st = (tr, x, st') -> polls st' = polls st ->
  tr = [] /\ st' = st /\ (x = LoopFuel \/ x = LoopDeadline).
Proof.
  revert tr x st'.
  destruct fuel as [|fuel]; intros tr x st'; loop_cases st; auto.
  - apply loop_polls in El. apply iteration_again in Ei as (Hp & _).
    intros. lia.
  - apply iteration_leave in Ei as (Hp & _). intros. lia.
Qed.

(** What one pass does on each kind of answer. *)

Lemma iteration_done st d url :
  answer (poll_answers w (polls st)) = inr (PDict d) ->
  dict_get "status" d = Some (PStr "done") ->
  dict_get "result_url" d = Some url -> truthy url = true ->
  exists p st1,
    iter st =
      Leave [EvGetTalk talk_id; EvYield p;
             EvYield (completed_update talk_id url (response_log st1))]
        LoopReturn st1
    /\ is_progress p = true /\ polls st1 = S (polls st).
Proof.
  intros Ha Hs Hu Ht. unfold poll_iteration, dict_get_none, dict_get_default.
  rewrite Ha, Hs, Hu. cbn. rewrite Ht.
  lazymatch goal with |- context [Leave _ _ ?s = _] => eexists _, s end.
  split; [reflexivity|]. split; reflexivity.
Qed.

Lemma iteration_failed st d s :
  answer (poll_answers w (polls st)) = inr (PDict d) ->
  dict_get "status" d = Some (PStr s) -> s = "failed" \/ s = "error" ->
  exists p st1,
    iter st = Leave [EvGetTalk talk_id; EvYield p] LoopBreak st1
    /\ is_progress p = true /\ polls st1 = S (polls st)
    /\ current_status st1 = Some (PStr s).
Proof.
  intros Ha Hs Hf. unfold poll_iteration, dict_get_default.
  rewrite Ha, Hs.
  destruct Hf as [-> | ->]; cbn; eexists _, _;
    (split; [reflexivity|]); repeat split; reflexivity.
Qed.

Lemma iteration_in_progress st d s :
  answer (poll_answers w (polls st)) = inr (PDict d) ->
  dict_get "status" d = Some (PStr s) ->
  s <> "done" -> s <> "failed" -> s <> "error" ->
  exists evs st1,
    iter st = Again evs st1
    /\ current_status st1 = Some (PStr s) /\ polls st1 = S (polls st).
Proof.
  intros Ha Hs Hd Hf He. unfold poll_iteration, dict_get_default.
  rewrite Ha, Hs. cbn.
  apply String.eqb_neq in Hd, Hf, He. rewrite Hd, Hf, He. cbn.
  eexists _, _. repeat split.
Qed.

Lemma iteration_leave_yields st evs x st1 :
  iter st = Leave evs x st1 ->
  match x with
  | LoopReturn =>
      exists p url,
        yields evs = [p; completed_update talk_id url (response_log st1)]
        /\ is_progress p = true
  | LoopBreak =>
      (exists p, yields evs = [p] /\ is_progress p = true)
      /\ is_Some (current_status st1)
  | _ => yields evs = []
  end.
Proof.
  iter_cases st; intros H; inversion H; subst; clear H; cbn; eauto.
Qed.

(** The state in which the [N]-th call is made, for a call that is made. *)
Lemma loop_reach N fuel : forall st tr x st',
  loop fuel st = (tr, x, st') -> polls st <= N < polls st' ->
  exists tr0 trN fuelN stN,
    polls stN = N /\ Qlt_bool (elapsed stN) timeout = true
    /\ loop (S fuelN) stN = (trN, x, st')
    /\ tr = (tr0 ++ trN)%list
    /\ Forall (fun u => is_progress u = true) (yields tr0).
Proof.
  induction fuel as [|fuel IH]; intros st tr x st'; loop_cases st;
    try (intros; lia).
  - intros HN. pose proof Ei as (Hp & _ & _ & (u & Hu & Hpu) & _)%iteration_again.
    destruct (decide (polls st = N)) as [HeqN|Hne].
    + exists [], (evs ++ tr1)%list, fuel, st. repeat split; auto.
      rewrite poll_loop_unfold, Ec, Ei, El. reflexivity.
    + destruct (IH _ _ _ _ El) as (tr0 & trN & fuelN & stN & H1 & H2 & H3 & H4 & H5);
        [lia|].
      exists (evs ++ tr0)%list, trN, fuelN, stN. repeat split; auto.
      * rewrite H4, app_assoc. reflexivity.
      * unfold yields in *. rewrite omap_app, Hu. constructor; auto.
  - intros HN. pose proof Ei as (Hp & _)%iteration_leave.
    exists [], evs, fuel, st. repeat split; auto; [lia|].
    rewrite poll_loop_unfold, Ec, Ei. reflexivity.
Qed.


(** [current_status] is bound once a call has returned a dictionary. *)
Lemma loop_status fuel : forall st tr x st',
  loop fuel st = (tr, x, st') ->
  x = LoopBreak \/ x = LoopDeadline ->
  polls st < polls st' \/ is_Some (current_status st) ->
  is_Some (current_status st').
Proof.
  induction fuel as [|fuel IH]; intros st tr x st'; loop_cases st;
    try (intros [|]; discriminate); try (intros _ [|]; [lia|auto]).
  - intros Hx _. apply iteration_again in Ei as (_ & _ & _ & _ & d & _ & Hc & _).
    apply (IH _ _ _ _ El Hx). right. rewrite Hc. eauto.
  - intros Hx _. pose proof Ei as Hy%iteration_leave_yields.
    destruct Hx as [-> | ->].
    + apply Hy.
    + apply iteration_leave in Ei as (_ & _ & _ & _ & Hd). congruence.
Qed.

(** A loop that is left with fuel to spare does the same with more. *)
Lemma loop_more_fuel fuel : forall st tr x st' fuel',
  loop fuel st = (tr, x, st') -> x <> LoopFuel -> fuel <= fuel' ->
  loop fuel' st = (tr, x, st').
Proof.
  induction fuel as [|fuel IH]; intros st tr x st' fuel'; loop_cases st;
    intros Hx Hle; try congruence.
  - rewrite poll_loop_unfold, Ec. reflexivity.
  - destruct fuel' as [|fuel']; [lia|].
    rewrite poll_loop_unfold, Ec, Ei.
    rewrite (IH _ _ _ _ fuel' El Hx) by lia. reflexivity.
  - destruct fuel' as [|fuel']; [lia|].
    rewrite poll_loop_unfold, Ec, Ei. reflexivity.
  - rewrite poll_loop_unfold, Ec. reflexivity.
Qed.

Hypothesis clock : monotone_clock w.

Lemma loop_fuel_enough fuel : forall st tr x st',
  (timeout <= elapsed st + poll_interval * Qnat fuel)%Q ->
  loop fuel st = (tr, x, st') -> x <> LoopFuel.
Proof.
  unfold poll_interval, timeout.
  induction fuel as [|fuel IH]; intros st tr x st' Hf; loop_cases st;
    try discriminate.
  - apply Qlt_bool_true in Ec. unfold timeout in Ec.
    rewrite Qnat_0 in Hf. lra.
  - apply iteration_again in Ei as (_ & He & _).
    eapply IH; [|exact El]. rewrite He. unfold poll_interval.
    rewrite Qnat_S in Hf. pose proof (clock (polls st)). lra.
  - apply iteration_leave in Ei as (_ & _ & _ & Hx & _). exact Hx.
Qed.



Lemma iteration_started st d :
  answer (poll_answers w (polls st)) = inr (PDict d) ->
  dict_get "status" d = Some (PStr "started") ->
  exists evs st1, iter st = Again evs st1
                  /\ current_status st1 = Some (PStr "started").
Proof.
  intros Ha Hs. unfold poll_iteration, dict_get_default. rewrite Ha, Hs. cbn.
  eexists _, _. split; reflexivity.
Qed.

Lemma loop_first_poll fuel st tr x st' :
  loop (S fuel) st = (tr, x, st') -> (elapsed st < timeout)%Q ->
  polls st < polls st'.
Proof.
  intros Hl Hc. apply Qlt_bool_true in Hc. revert Hl. loop_cases st.
  - apply iteration_again in Ei as (Hp & _). apply loop_polls in El. lia.
  - apply iteration_leave in Ei as (Hp & _). lia.
  - congruence.
Qed.

(** Answers that all read [started] leave the loop through its condition. *)
Lemma loop_all_started fuel : forall st tr x st',
  (timeout <= elapsed st + poll_interval * Qnat fuel)%Q ->
  loop fuel st = (tr, x, st') ->
  (forall n, polls st <= n < polls st' ->
     exists d, answer (poll_answers w n) = inr (PDict d)
               /\ dict_get "status" d = Some (PStr "started")) ->
  x = LoopDeadline
  /\ (polls st < polls st' -> current_status st' = Some (PStr "started")).
Proof.
  induction fuel as [|fuel IH]; intros st tr x st' Hf; loop_cases st;
    try (intros; split; [reflexivity|lia]).
  - intros _. apply Qlt_bool_true in Ec. rewrite Qnat_0 in Hf.
    unfold timeout, poll_interval in *. lra.
  - intros Hall. pose proof Ei as (Hp & He & _)%iteration_again.
    pose proof (loop_polls _ _ _ _ _ El) as Hpl.
    destruct (Hall (polls st)) as (d & Ha & Hs); [lia|].
    destruct (iteration_started st d Ha Hs) as (evs' & st1' & Ei' & Hcs).
    rewrite Ei in Ei'. injection Ei' as <- <-.
    assert (Hf1 : (timeout <= elapsed st1 + poll_interval * Qnat fuel)%Q).
    { rewrite He. rewrite Qnat_S in Hf. pose proof (clock (polls st)).
      unfold timeout, poll_interval in *. lra. }
    destruct (IH _ _ _ _ Hf1 El) as [Hx Hst].
    + intros n Hn. apply Hall. lia.
    + split; [exact Hx|]. intros _.
      destruct (decide (polls st2 = polls st1)) as [Heq|Hne].
      * apply loop_no_poll in El as (_ & -> & _); auto.
      * apply Hst. lia.
  - intros Hall. pose proof Ei as (Hp & _)%iteration_leave.
    destruct (Hall (polls st)) as (d & Ha & Hs); [lia|].
    destruct (iteration_started st d Ha Hs) as (evs' & st1' & Ei' & _).
    congruence.
Qed.

End PollerFacts.

(** ** Whole runs *)

Section RunFacts.

Variable json_dumps : pyval -> string.
Variable py_repr : pyval -> string.
Variable w : world.
Variable API_KEY : pyval.

Local Abbreviation run_of := (create_talk json_dumps py_repr w API_KEY).
Local Abbreviation try_of := (create_talk_try json_dumps py_repr w API_KEY).
Local Abbreviation loop := (poll_loop json_dumps py_repr w).
Local Abbreviation first_log talk := (creation_log json_dumps (PDict talk)).

(** A run that polls has a key, a creation response and an id. *)
Lemma run_polled fuel args :
  0 < run_polls (run_of fuel args) ->
  exists talk,
    truthy API_KEY = true
    /\ create_answer w = inr (PDict talk)
    /\ truthy (dict_get_none "id" talk) = true
    /\ run_of fuel args =
         except_clause
           (after_loop py_repr (build_payload args) (dict_get_none "id" talk)
              (loop (dict_get_none "id" talk) fuel
                 (fresh_locals (first_log talk)))).
Proof.
  unfold create_talk, create_talk_try.
  destruct (truthy API_KEY); cbn; [|lia].
  destruct (create_answer w) as [e|[| | | | | |talk]]; cbn; try lia.
  destruct (truthy (dict_get_none "id" talk)) eqn:Hid; cbn; [|lia].
  intros _. exists talk. rewrite Hid. auto.
Qed.

Lemma run_entered fuel args talk :
  truthy API_KEY = true -> create_answer w = inr (PDict talk) ->
  truthy (dict_get_none "id" talk) = true ->
  run_of fuel args =
    except_clause
      (after_loop py_repr (build_payload args) (dict_get_none "id" talk)
         (loop (dict_get_none "id" talk) fuel (fresh_locals (first_log talk)))).
Proof.
  intros Hk Hc Hi. unfold create_talk, create_talk_try.
  rewrite Hk, Hc, Hi. reflexivity.
Qed.

Lemma except_clause_polls r : run_polls (except_clause r) = run_polls r.
Proof. unfold except_clause. destruct (run_end r); reflexivity. Qed.

Lemma except_clause_elapsed r : run_elapsed (except_clause r) = run_elapsed r.
Proof. unfold except_clause. destruct (run_end r); reflexivity. Qed.

Lemma except_clause_get_calls r :
  get_calls (run_trace (except_clause r)) = get_calls (run_trace r).
Proof.
  unfold except_clause. destruct (run_end r); try reflexivity.
  cbn. unfold get_calls. rewrite omap_app. cbn. apply app_nil_r.
Qed.

Lemma except_clause_end r e : run_end (except_clause r) <> Propagated e.
Proof. unfold except_clause. destruct (run_end r) eqn:E; cbn; congruence. Qed.

Lemma after_loop_polls p tid tr x st :
  run_polls (after_loop py_repr p tid (tr, x, st)) = polls st
  /\ run_elapsed (after_loop py_repr p tid (tr, x, st)) = elapsed st
  /\ get_calls (run_trace (after_loop py_repr p tid (tr, x, st))) = get_calls tr.
Proof.
  unfold after_loop. destruct x, (current_status st); cbn; repeat split;
    unfold get_calls; rewrite ?omap_app; cbn; rewrite ?app_nil_r; reflexivity.
Qed.

(** The number of [get_talk] calls in the trace is [run_polls]. *)
Lemma run_polls_get_calls fuel args :
  length (get_calls (run_trace (run_of fuel args))) = run_polls (run_of fuel args).
Proof.
  unfold create_talk. rewrite except_clause_get_calls, except_clause_polls.
  unfold create_talk_try.
  destruct (truthy API_KEY); cbn; [|reflexivity].
  destruct (create_answer w) as [e|[| | | | | |talk]]; cbn; try reflexivity.
  destruct (truthy (dict_get_none "id" talk)); cbn; [|reflexivity].
  destruct (loop _ fuel _) as [[tr x] st] eqn:El.
  destruct (after_loop_polls (build_payload args) (dict_get_none "id" talk) tr x st)
    as (-> & _ & ->).
  apply loop_polls in El. cbn in El. lia.
Qed.

(** A run that makes its [N]-th call, cut at the state before that call. *)
Lemma run_at_poll fuel args N :
  N < run_polls (run_of fuel args) ->
  exists talk tr0 trN fuelN stN x st',
    polls stN = N
    /\ Qlt_bool (elapsed stN) timeout = true
    /\ loop (dict_get_none "id" talk) (S fuelN) stN = (trN, x, st')
    /\ Forall (fun u => is_progress u = true) (yields tr0)
    /\ run_of fuel args =
         except_clause
           (after_loop py_repr (build_payload args) (dict_get_none "id" talk)
              ((tr0 ++ trN)%list, x, st'))
    /\ loop (dict_get_none "id" talk) fuel (fresh_locals (first_log talk))
         = ((tr0 ++ trN)%list, x, st').
Proof.
  intros HN.
  destruct (run_polled fuel args) as (talk & Hk & Hc & Hi & Hr); [lia|].
  rewrite Hr in HN. rewrite except_clause_polls in HN.
  destruct (loop _ fuel _) as [[tr x] st'] eqn:El.
  destruct (after_loop_polls (build_payload args) (dict_get_none "id" talk) tr x st')
    as (Hp & _). rewrite Hp in HN.
  destruct (loop_reach _ _ _ _ N _ _ _ _ _ El)
    as (tr0 & trN & fuelN & stN & H1 & H2 & H3 & H4 & H5); [cbn; lia|].
  exists talk, tr0, trN, fuelN, stN, x, st'. subst tr. rewrite El. auto 10.
Qed.

Lemma fuel_covers_deadline fuel log :
  max_polls <= fuel ->
  (timeout <= elapsed (fresh_locals log) + poll_interval * Qnat fuel)%Q.
Proof.
  intros H. cbn. unfold timeout, poll_interval, Qnat, max_polls in *.
  unfold Qle. cbn. lia.
Qed.

Lemma loop_leaves tid fuel st evs x1 st1 tr x st' :
  Qlt_bool (elapsed st) timeout = true ->
  poll_iteration json_dumps py_repr w tid st = Leave evs x1 st1 ->
  loop tid (S fuel) st = (tr, x, st') ->
  tr = evs /\ x = x1 /\ st' = st1.
Proof.
  intros Hc Hi. rewrite poll_loop_unfold, Hc, Hi. intros [= <- <- <-]. auto.
Qed.

Lemma iteration_raises_attr tid st e :
  raises (answer (poll_answers w (polls st))) e ->
  exists st1,
    poll_iteration json_dumps py_repr w tid st = Leave [EvGetTalk tid] (LoopRaise e) st1
    /\ polls st1 = S (polls st).
Proof.
  unfold raises, poll_iteration.
  destruct (answer (poll_answers w (polls st))) as [e'|[| | | | | |d]];
    try (intros ->; eauto); intros [].
Qed.

(** [failed] and [error] end the polling. *)
Lemma failed_or_error_stops fuel args N d s :
  N < run_polls (run_of fuel args) ->
  answer (poll_answers w N) = inr (PDict d) ->
  dict_get "status" d = Some (PStr s) -> s = "failed" \/ s = "error" ->
  let r := run_of fuel args in
  run_end r = StopIteration ExitBreak
  /\ run_polls r = S N
  /\ exists u, last (updates r) = Some u
               /\ u_status u =
                    "Processing timed out or failed (status: " +:+ s +:+ ")".
Proof.
  intros HN Ha Hs Hf.
  destruct (run_at_poll fuel args N HN)
    as (talk & tr0 & trN & fuelN & stN & x & st' & H1 & H2 & H3 & H4 & Hr & Hl).
  subst N.
  destruct (iteration_failed json_dumps py_repr w (dict_get_none "id" talk)
              stN d s Ha Hs Hf) as (p & st1 & Hi & Hp & Hpl & Hcs).
  destruct (loop_leaves _ _ _ _ _ _ _ _ _ H2 Hi H3) as (-> & -> & ->).
  cbn zeta. rewrite Hr. unfold except_clause, after_loop. rewrite Hcs. cbn.
  repeat split; auto.
  eexists. split.
  - unfold updates, yields. cbn. rewrite omap_app. apply last_snoc.
  - reflexivity.
Qed.

(** Any other status string than [done], [failed] and [error] is in
    progress: after such an answer the run either polls again or finds the
    deadline passed. *)
Lemma other_status_keeps_polling fuel args N d s :
  monotone_clock w -> max_polls <= fuel ->
  N < run_polls (run_of fuel args) ->
  answer (poll_answers w N) = inr (PDict d) ->
  dict_get "status" d = Some (PStr s) ->
  s <> "done" -> s <> "failed" -> s <> "error" ->
  S N < run_polls (run_of fuel args)
  \/ run_end (run_of fuel args) = StopIteration ExitDeadline.
Proof.
  intros Hclock Hfuel HN Ha Hs Hd Hf He.
  destruct (run_at_poll fuel args N HN)
    as (talk & tr0 & trN & fuelN & stN & x & st' & H1 & H2 & H3 & H4 & Hr & Hl).
  subst N.
  pose proof (loop_fuel_enough _ _ _ _ Hclock _ _ _ _ _
                (fuel_covers_deadline fuel _ Hfuel) Hl) as Hx.
  destruct (iteration_in_progress json_dumps py_repr w (dict_get_none "id" talk)
              stN d s Ha Hs Hd Hf He) as (evs & st1 & Hi & Hcs & Hpl).
  rewrite poll_loop_unfold, H2, Hi in H3.
  destruct (loop _ fuelN st1) as [[tr1 x1] st2] eqn:El1.
  injection H3 as <- <- <-.
  rewrite Hr, except_clause_polls.
  destruct (after_loop_polls (build_payload args) (dict_get_none "id" talk)
              (tr0 ++ evs ++ tr1)%list x1 st2) as (-> & _).
  pose proof (loop_polls _ _ _ _ _ _ _ _ _ El1) as Hp2.
  destruct (decide (polls st2 = polls st1)) as [Heq|Hne]; [|left; lia].
  right.
  destruct (loop_no_poll _ _ _ _ _ _ _ _ _ El1 Heq) as (_ & -> & [-> | ->]).
  - congruence.
  - unfold except_clause, after_loop. rewrite Hcs. reflexivity.
Qed.

(** C1, as the code has it: an answer whose status is [failed] or [error]
    ends the polling, with that call as the last [get_talk] call and the
    closing tuple that reads "... failed (status: ...)"; an answer whose
    status is [rejected] does not: the run polls again, unless the deadline
    has passed. *)
Theorem C1_failed_and_error_stop_polling fuel args N d s :
  N < run_polls (run_of fuel args) ->
  answer (poll_answers w N) = inr (PDict d) ->
  dict_get "status" d = Some (PStr s) ->
  let r := run_of fuel args in
  (s = "failed" \/ s = "error" ->
     run_end r = StopIteration ExitBreak
     /\ outcome_of ExitBreak = Failed
     /\ run_polls r = S N
     /\ length (get_calls (run_trace r)) = S N
     /\ exists u, last (updates r) = Some u
                  /\ u_status u =
                       "Processing timed out or failed (status: " +:+ s +:+ ")")
  /\ (s = "rejected" -> monotone_clock w -> max_polls <= fuel ->
       S N < run_polls r \/ run_end r = StopIteration ExitDeadline).
Proof.
  intros HN Ha Hs. cbn zeta. split.
  - intros Hf. rewrite run_polls_get_calls.
    destruct (failed_or_error_stops fuel args N d s HN Ha Hs Hf)
      as (H1 & H2 & H3).
    auto.
  - intros -> Hclock Hfuel.
    apply (other_status_keeps_polling fuel args N d "rejected"); auto;
      discriminate.
Qed.

(** C3: when the creation response is an object without an [id], the run
    yields exactly one tuple, with status "Failed" and the creation
    response as its log, and calls [get_talk] zero times. *)
Theorem C3_no_id_single_failed_update fuel args talk :
  truthy API_KEY = true ->
  create_answer w = inr (PDict talk) ->
  dict_get "id" talk = None ->
  let r := run_of fuel args in
  updates r =
    [ {| u_talk_id := PStr ""; u_status := "Failed"; u_result_url := PStr "";
         u_video_preview := hidden_video; u_download_status := "";
         u_api_logs := "Creation Response:" +:+ LF +:+ json_dumps (PDict talk) |} ]
  /\ get_calls (run_trace r) = []
  /\ run_polls r = 0
  /\ run_end r = StopIteration ExitNoId
  /\ outcome_of ExitNoId = Failed.
Proof.
  intros Hk Hc Hi. cbn zeta.
  unfold create_talk, create_talk_try, dict_get_none, dict_get_default.
  rewrite Hk, Hc, Hi. cbn. auto.
Qed.

(** C4: when the answer to some [get_talk] call has status [done] and a
    result url, the last tuple of the stream reads "Completed successfully"
    and carries that url, and that call is the last [get_talk] call. *)
Theorem C4_done_with_result_closes_stream fuel args N d url :
  N < run_polls (run_of fuel args) ->
  answer (poll_answers w N) = inr (PDict d) ->
  dict_get "status" d = Some (PStr "done") ->
  dict_get "result_url" d = Some url ->
  truthy url = true ->
  let r := run_of fuel args in
  run_end r = StopIteration ExitCompleted
  /\ outcome_of ExitCompleted = Succeeded
  /\ (exists u, last (updates r) = Some u
                /\ u_status u = "Completed successfully"
                /\ u_result_url u = url
                /\ u_video_preview u =
                     {| video_value := Some url; video_visible := true |})
  /\ run_polls r = S N
  /\ length (get_calls (run_trace r)) = S N.
Proof.
  intros HN Ha Hs Hu Ht. cbn zeta. rewrite run_polls_get_calls.
  destruct (run_at_poll fuel args N HN)
    as (talk & tr0 & trN & fuelN & stN & x & st' & H1 & H2 & H3 & H4 & Hr & Hl).
  subst N.
  destruct (iteration_done json_dumps py_repr w (dict_get_none "id" talk)
              stN d url Ha Hs Hu Ht) as (p & st1 & Hi & Hp & Hpl).
  destruct (loop_leaves _ _ _ _ _ _ _ _ _ H2 Hi H3) as (-> & -> & ->).
  rewrite Hr. unfold except_clause, after_loop. cbn.
  repeat split; auto.
  eexists. split.
  - unfold updates, yields. cbn. rewrite omap_app. cbn.
    rewrite last_app. cbn. reflexivity.
  - auto.
Qed.

(** C5: when every answer the run receives reads [started], the stream ends
    with the tuple whose status is
    "Processing timed out or failed (status: started)" and the generator is
    left through the loop condition. *)
Theorem C5_started_until_deadline fuel args talk :
  monotone_clock w -> max_polls <= fuel ->
  truthy API_KEY = true ->
  create_answer w = inr (PDict talk) ->
  truthy (dict_get_none "id" talk) = true ->
  (forall n, n < run_polls (run_of fuel args) ->
     exists d, answer (poll_answers w n) = inr (PDict d)
               /\ dict_get "status" d = Some (PStr "started")) ->
  let r := run_of fuel args in
  run_end r = StopIteration ExitDeadline
  /\ outcome_of ExitDeadline = TimedOut
  /\ exists u, last (updates r) = Some u
               /\ u_status u = "Processing timed out or failed (status: started)"
               /\ u_talk_id u = dict_get_none "id" talk.
Proof.
  intros Hclock Hfuel Hk Hc Hi. cbn zeta.
  rewrite (run_entered fuel args talk Hk Hc Hi), except_clause_polls.
  destruct (loop _ fuel _) as [[tr x] st'] eqn:El.
  destruct (after_loop_polls (build_payload args) (dict_get_none "id" talk) tr x st')
    as (-> & _).
  intros Hall.
  assert (Hf : (timeout <= elapsed (fresh_locals (first_log talk))
                           + poll_interval * Qnat fuel)%Q).
  { cbn. unfold timeout, poll_interval, Qnat, max_polls in *.
    unfold Qle. cbn. lia. }
  destruct (loop_all_started json_dumps py_repr w _ Hclock _ _ _ _ _ Hf El)
    as [-> Hst].
  { intros n [_ Hn]. apply Hall, Hn. }
  destruct fuel as [|fuel]; [unfold max_polls in Hfuel; lia|].
  apply loop_first_poll in El; [|reflexivity].
  unfold except_clause, after_loop. rewrite (Hst El). cbn.
  repeat split. eexists. split.
  - unfold updates, yields. cbn. rewrite omap_app. apply last_snoc.
  - auto.
Qed.



(** C9: no exception leaves the generator, and an exception raised by
    [create_talk] or by a [get_talk] call (transport error, non-2xx status,
    malformed response) ends the stream with one closing tuple that is no
    per-poll snapshot: its status is "Error", its id and result url are
    empty, its video is hidden, and its log is "Error: " followed by the text
    of the exception and, when the exception carries a truthy response, by
    that response's text.  After a failed creation it is the only tuple and
    no [get_talk] call is made; after a failed poll no further call is
    made. *)
Theorem C9_failures_end_in_error_update fuel args :
  let r := run_of fuel args in
  let terminal (e : py_exception) :=
    {| u_talk_id := PStr ""; u_status := "Error"; u_result_url := PStr "";
       u_video_preview := {| video_value := None; video_visible := false |};
       u_download_status := "";
       u_api_logs :=
         match exc_response e with
         | Some (true, text) =>
             "Error: " +:+ exc_str e +:+ LF +:+ "API Response:" +:+ LF +:+ text
         | _ => "Error: " +:+ exc_str e
         end |} in
  (forall e, run_end r <> Propagated e)
  /\ (forall e, is_progress (terminal e) = false)
  /\ (forall e, truthy API_KEY = true -> raises (create_answer w) e ->
        run_end r = StopIteration (ExitError e)
        /\ outcome_of (ExitError e) = Failed
        /\ updates r = [terminal e]
        /\ run_polls r = 0)
  /\ (forall N e, N < run_polls r -> raises (answer (poll_answers w N)) e ->
        run_end r = StopIteration (ExitError e)
        /\ outcome_of (ExitError e) = Failed
        /\ last (updates r) = Some (terminal e)
        /\ run_polls r = S N).
Proof.
  cbn zeta. split; [|split; [|split]].
  - intros e. apply except_clause_end.
  - intros e. reflexivity.
  - intros e Hk He. unfold create_talk, create_talk_try. rewrite Hk. cbn.
    unfold raises in He.
    destruct (create_answer w) as [e'|[| | | | | |talk]]; subst; cbn; auto.
    destruct He.
  - intros N e HN He.
    destruct (run_at_poll fuel args N HN)
      as (talk & tr0 & trN & fuelN & stN & x & st' & H1 & H2 & H3 & H4 & Hr & Hl).
    subst N.
    destruct (iteration_raises_attr (dict_get_none "id" talk) stN e He)
      as (st1 & Hi & Hpl).
    destruct (loop_leaves _ _ _ _ _ _ _ _ _ H2 Hi H3) as (-> & -> & ->).
    rewrite Hr. unfold except_clause, after_loop. cbn.
    repeat split; auto.
    unfold updates, yields. cbn. rewrite omap_app.
    exact (last_snoc (error_update e) _).
Qed.

(** The iteration budget does not matter once it covers the deadline. *)
Lemma create_talk_fuel_irrelevant fuel fuel' args :
  monotone_clock w -> max_polls <= fuel -> fuel <= fuel' ->
  run_of fuel' args = run_of fuel args.
Proof.
  intros Hclock Hfuel Hle. unfold create_talk, create_talk_try.
  destruct (truthy API_KEY); [|reflexivity].
  destruct (create_answer w) as [e|[| | | | | |talk]]; try reflexivity.
  destruct (truthy (dict_get_none "id" talk)); cbn; [|reflexivity].
  destruct (loop _ fuel _) as [[tr x] st'] eqn:El.
  pose proof (loop_fuel_enough _ _ _ _ Hclock _ _ _ _ _
                (fuel_covers_deadline fuel _ Hfuel) El) as Hx.
  rewrite (loop_more_fuel _ _ _ _ _ _ _ _ _ fuel' El Hx Hle). reflexivity.
Qed.

(** C10: the External TTS Key (the twelfth input) changes neither the
    payload sent to [create_talk] nor anything the run does or yields. *)
Theorem C10_external_tts_has_no_effect fuel args (tts : string) :
  build_payload (with_external_tts tts args) = build_payload args
  /\ run_of fuel (with_external_tts tts args) = run_of fuel args.
Proof. split; reflexivity. Qed.

End RunFacts.

(** ** The downloader *)

Section DownloaderFacts.

Variable os_sep : string.
Variable py_int : string -> py_exception + Z.
Variable dw : download_world.

Local Abbreviation target := (filename os_sep dw).

(** The [try] block touches no file but the target. *)
Lemma download_try_other_files (fs fs1 : gmap string bytes) err p :
  download_try os_sep py_int dw fs = (fs1, err) -> p <> target ->
  fs1 !! p = fs !! p.
Proof.
  unfold download_try. intros H Hp.
  destruct (requests_get dw) as [e|r]; [congruence|].
  destruct (raise_for_status r); [congruence|].
  destruct (match content_length r with Some h => py_int h | None => inr 0%Z end);
    [congruence|].
  destruct (open_wb dw); [congruence|].
  destruct (write_chunks dw (iter_content r) 0 []) as [content err'].
  injection H as <- <-. apply lookup_insert_ne. congruence.
Qed.

(** A transfer that breaks after the file was opened leaves what was
    written so far in the target when the [try] block is left. *)
Lemma download_try_partial_file (fs : gmap string bytes) r total content e :
  requests_get dw = inr r -> raise_for_status r = None ->
  match content_length r with Some h => py_int h | None => inr 0%Z end = inr total ->
  open_wb dw = None ->
  write_chunks dw (iter_content r) 0 [] = (content, Some e) ->
  download_try os_sep py_int dw fs = (<[target := content]> fs, Some e).
Proof.
  intros Hg Hs Hl Ho Hw. unfold download_try. rewrite Hg, Hs, Hl, Ho, Hw.
  reflexivity.
Qed.

(** The failures of a download make the [try] block raise: a connection
    error, a status that is not 2xx, a write error or a broken stream. *)
Lemma download_failures_raise (fs : gmap string bytes) e :
  requests_get dw = inl e
  \/ (exists r, requests_get dw = inr r /\ raise_for_status r = Some e)
  \/ (exists r total content,
        requests_get dw = inr r /\ raise_for_status r = None
        /\ match content_length r with Some h => py_int h | None => inr 0%Z end
           = inr total
        /\ open_wb dw = None
        /\ write_chunks dw (iter_content r) 0 [] = (content, Some e)) ->
  exists fs1, download_try os_sep py_int dw fs = (fs1, Some e).
Proof.
  intros [Hg | [(r & Hg & Hs) | (r & total & content & Hg & Hs & Hl & Ho & Hw)]].
  - unfold download_try. rewrite Hg. eauto.
  - unfold download_try. rewrite Hg, Hs. eauto.
  - erewrite download_try_partial_file; eauto.
Qed.

(** C7, as the code has it: when the [try] block of a download raises and
    removing the file does not itself fail (or there is no file to remove),
    [download_video] returns [None] with the failure message, and no file
    is left under the target name; when [os.remove] raises, its exception
    leaves [download_video] and the partial file stays.  The other files
    are as they were in both cases. *)
Theorem C7_failed_download_leaves_no_file url (fs fs1 : gmap string bytes) e :
  is_http_url url = true -> makedirs dw = None ->
  download_try os_sep py_int dw fs = (fs1, Some e) ->
  (os_remove dw = None \/ fs1 !! target = None ->
   exists fs2,
     download_video os_sep py_int dw url fs =
       (fs2, Returned None ("❌ Download failed: " +:+ exc_str e))
     /\ fs2 !! target = None
     /\ forall p, p <> target -> fs2 !! p = fs !! p)
  /\ (forall e', os_remove dw = Some e' -> is_Some (fs1 !! target) ->
      download_video os_sep py_int dw url fs = (fs1, Raised e')
      /\ forall p, p <> target -> fs1 !! p = fs !! p).
Proof.
  intros Hu Hm Ht. unfold download_video. rewrite Hu, Hm, Ht. cbn [negb].
  split.
  - intros Hr. destruct (fs1 !! target) eqn:Hf.
    + destruct Hr as [Hr|Hr]; [|discriminate Hr]. rewrite Hr.
      eexists. split; [reflexivity|].
      split; [apply lookup_delete_eq|].
      intros p Hp. rewrite lookup_delete_ne by congruence.
      eapply download_try_other_files; eauto.
    + eexists. split; [reflexivity|].
      split; [exact Hf|].
      intros p Hp. eapply download_try_other_files; eauto.
  - intros e' Hr [content Hf]. rewrite Hf, Hr.
    split; [reflexivity|].
    intros p Hp. eapply download_try_other_files; eauto.
Qed.

End DownloaderFacts.

(** ** The configuration file *)

Section ConfigFacts.

Variable CONFIG_PATH : string.
Variable json_dump : pyval -> string.
Variable json_load : string -> option pyval.

(** C8: provided [json.load] reads back the object that [json.dump] wrote
    for this key and url, a successful save followed by [load_config]
    gives the same key and url. *)
Theorem C8_config_round_trip key url st :
  json_load (json_dump (PDict [("key", PStr key); ("url", PStr url)]))
    = Some (PDict [("key", PStr key); ("url", PStr url)]) ->
  let st' := (save_config_handler CONFIG_PATH json_dump DiskOk key url st).1 in
  let config := load_config CONFIG_PATH json_load (files st') in
  config = PDict [("key", PStr key); ("url", PStr url)]
  /\ configured_key config = PStr key
  /\ configured_url config = PStr url.
Proof.
  intros H. cbn zeta. unfold load_config, save_config_handler. cbn.
  rewrite lookup_insert_eq.
  change (dict_display [("key", PStr key); ("url", PStr url)])
    with [("key", PStr key); ("url", PStr url)].
  rewrite H. repeat split.
Qed.

(** Without a readable file the defaults are returned. *)
Lemma load_config_default (fs : gmap string string) :
  fs !! CONFIG_PATH = None ->
  load_config CONFIG_PATH json_load fs = default_config.
Proof. intros H. unfold load_config. rewrite H. reflexivity. Qed.

End ConfigFacts.

(** ** Concrete runs *)

Lemma world_done_monotone : monotone_clock world_done.
Proof. intros [|[|n]]; cbn; discriminate. Qed.

Lemma world_started_monotone : monotone_clock world_started.
Proof. intros n; cbn; discriminate. Qed.


(** The scenario of the specification: created, started, done. *)
Example scenario_three_polls :
  map u_status (updates (sample_run world_done))
    = ["Status: created"; "Status: started"; "Status: done";
       "Completed successfully"]
  /\ run_polls (sample_run world_done) = 3.
Proof. split; reflexivity. Qed.

(** C1 as stated fails where the first answer reads [rejected]: [get_talk]
    is called again after that answer, and the run goes on to whatever the
    later answers say, here to a success; when every answer reads [rejected]
    the run polls 150 times and is left through the loop condition. *)
Lemma C1_rejected_keeps_polling :
  (let r := sample_run world_rejected_then_done in
   map u_status (updates r)
     = ["Status: rejected"; "Status: done"; "Completed successfully"]
   /\ length (get_calls (run_trace r)) = 2
   /\ run_end r = StopIteration ExitCompleted)
  /\ (let r := sample_run world_rejected in
      run_polls r = 150
      /\ run_end r = StopIteration ExitDeadline
      /\ u_status <$> last (updates r)
         = Some "Processing timed out or failed (status: rejected)").
Proof. vm_compute. repeat split. Qed.


(** C7 as stated fails: the transfer breaks after the first chunk and the
    partial file cannot be removed; the exception of [os.remove] leaves
    [download_video], which returns no failure value, and the two bytes
    written so far stay on disk. *)
Lemma C7_locked_partial_file_stays :
  let r := download_video "/" sample_int world_reset_locked
             "https://x/out.mp4" ∅ in
  download_try "/" sample_int world_reset_locked ∅
    = ({[ "d-id_videos/video_1700000000.mp4" := [Byte.x00; Byte.x01] ]},
       Some transport_error)
  /\ r.2 = Raised {| exc_str := "[WinError 32] The process cannot access the file because it is being used by another process";
                     exc_response := None |}
  /\ (forall m, r.2 <> Returned None m)
  /\ r.1 !! "d-id_videos/video_1700000000.mp4" = Some [Byte.x00; Byte.x01].
Proof.
  cbn zeta. split; [reflexivity|]. split; [reflexivity|].
  split; [intros m; discriminate|reflexivity].
Qed.

(** ** The theorems at concrete inputs *)

Lemma C1_witness :
  1 < run_polls (sample_run world_failed)
  /\ run_end (sample_run world_failed) = StopIteration ExitBreak
  /\ run_polls (sample_run world_failed) = 2
  /\ (1 < run_polls (sample_run world_rejected_then_done)
      \/ run_end (sample_run world_rejected_then_done)
         = StopIteration ExitDeadline).
Proof.
  assert (H : 1 < run_polls (sample_run world_failed)) by (vm_compute; lia).
  split; [exact H|].
  destruct (C1_failed_and_error_stop_polling sample_dumps sample_repr world_failed
              (PStr "key") max_polls text_request 1
              [("status", PStr "failed")] "failed" H eq_refl eq_refl)
    as [HA _].
  destruct (HA (or_introl eq_refl)) as (H1 & _ & H2 & _).
  split; [exact H1|]. split; [exact H2|].
  assert (H' : 0 < run_polls (sample_run world_rejected_then_done))
    by (vm_compute; lia).
  destruct (C1_failed_and_error_stop_polling sample_dumps sample_repr
              world_rejected_then_done (PStr "key") max_polls text_request 0
              [("status", PStr "rejected")] "rejected" H' eq_refl eq_refl)
    as [_ HB].
  apply (HB eq_refl); [|apply le_n].
  intros [|n]; cbn; discriminate.
Defined.

Lemma C3_witness :
  updates (sample_run world_no_id) =
    [ {| u_talk_id := PStr ""; u_status := "Failed"; u_result_url := PStr "";
         u_video_preview := hidden_video; u_download_status := "";
         u_api_logs :=
           "Creation Response:" +:+ LF
           +:+ sample_dumps (PDict [("kind", PStr "ValidationError")]) |} ]
  /\ get_calls (run_trace (sample_run world_no_id)) = []
  /\ run_polls (sample_run world_no_id) = 0
  /\ run_end (sample_run world_no_id) = StopIteration ExitNoId
  /\ outcome_of ExitNoId = Failed.
Proof.
  exact (C3_no_id_single_failed_update sample_dumps sample_repr world_no_id
           (PStr "key") max_polls text_request
           [("kind", PStr "ValidationError")] eq_refl eq_refl eq_refl).
Defined.

Lemma C4_witness :
  2 < run_polls (sample_run world_done)
  /\ run_end (sample_run world_done) = StopIteration ExitCompleted
  /\ (exists u, last (updates (sample_run world_done)) = Some u
                /\ u_status u = "Completed successfully"
                /\ u_result_url u = PStr "https://x/out.mp4"
                /\ u_video_preview u =
                     {| video_value := Some (PStr "https://x/out.mp4");
                        video_visible := true |})
  /\ run_polls (sample_run world_done) = 3
  /\ length (get_calls (run_trace (sample_run world_done))) = 3.
Proof.
  assert (H : 2 < run_polls (sample_run world_done)) by (vm_compute; lia).
  split; [exact H|].
  pose proof (C4_done_with_result_closes_stream sample_dumps sample_repr
                world_done (PStr "key") max_polls text_request 2
                [("status", PStr "done"); ("result_url", PStr "https://x/out.mp4")]
                (PStr "https://x/out.mp4") H eq_refl eq_refl eq_refl eq_refl)
    as (H1 & _ & H2 & H3 & H4).
  auto.
Defined.

Lemma C5_witness :
  monotone_clock world_started
  /\ run_end (sample_run world_started) = StopIteration ExitDeadline
  /\ exists u, last (updates (sample_run world_started)) = Some u
               /\ u_status u = "Processing timed out or failed (status: started)"
               /\ u_talk_id u = PStr "tlk_1".
Proof.
  split; [exact world_started_monotone|].
  pose proof (C5_started_until_deadline sample_dumps sample_repr world_started
                (PStr "key") max_polls text_request
                [("id", PStr "tlk_1"); ("status", PStr "created")]
                world_started_monotone (le_n _) eq_refl eq_refl eq_refl)
    as H.
  destruct H as (H1 & _ & H2); [|auto].
  intros n _. exists [("status", PStr "started")]. split; reflexivity.
Defined.


Lemma C9_witness :
  1 < run_polls (sample_run world_poll_fails)
  /\ run_end (sample_run world_poll_fails)
     = StopIteration (ExitError transport_error)
  /\ last (updates (sample_run world_poll_fails))
     = Some {| u_talk_id := PStr ""; u_status := "Error";
               u_result_url := PStr "";
               u_video_preview := {| video_value := None;
                                     video_visible := false |};
               u_download_status := "";
               u_api_logs := "Error: Connection reset by peer" |}
  /\ run_polls (sample_run world_poll_fails) = 2.
Proof.
  assert (H : 1 < run_polls (sample_run world_poll_fails)) by (vm_compute; lia).
  split; [exact H|].
  pose proof (C9_failures_end_in_error_update sample_dumps sample_repr
                world_poll_fails (PStr "key") max_polls text_request)
    as (_ & _ & _ & H3).
  destruct (H3 1 transport_error H eq_refl) as (H4 & _ & H5 & H6).
  split; [exact H4|]. split; [exact H5|exact H6].
Defined.

Lemma C7_witness :
  download_try "/" sample_int world_reset ∅
    = ({[ "d-id_videos/video_1700000000.mp4" := [Byte.x00; Byte.x01] ]},
       Some transport_error)
  /\ exists fs2,
       download_video "/" sample_int world_reset "https://x/out.mp4" ∅
         = (fs2, Returned None "❌ Download failed: Connection reset by peer")
       /\ fs2 !! "d-id_videos/video_1700000000.mp4" = None.
Proof.
  assert (H : download_try "/" sample_int world_reset ∅
              = ({[ "d-id_videos/video_1700000000.mp4" := [Byte.x00; Byte.x01] ]},
                 Some transport_error)) by reflexivity.
  split; [exact H|].
  destruct (C7_failed_download_leaves_no_file "/" sample_int world_reset
              "https://x/out.mp4" ∅ _ transport_error eq_refl eq_refl H)
    as (Hok & _).
  destruct (Hok (or_introl eq_refl)) as (fs2 & H1 & H2 & _).
  exists fs2. split; [exact H1|exact H2].
Defined.

Lemma C8_witness :
  let st := {| files := ∅; API_KEY := PStr ""; BASE_URL := PStr "https://api.d-id.com" |} in
  let st' := (save_config_handler "api_config.json" sample_dumps DiskOk
                "k3y" "https://api.example" st).1 in
  files st' !! "api_config.json"
    = Some ("{" +:+ quoted "key" +:+ ": " +:+ quoted "k3y" +:+ ", "
                +:+ quoted "url" +:+ ": " +:+ quoted "https://api.example" +:+ "}")
  /\ load_config "api_config.json" sample_loads (files st')
     = PDict [("key", PStr "k3y"); ("url", PStr "https://api.example")].
Proof.
  cbn zeta. split; [reflexivity|].
  apply (C8_config_round_trip "api_config.json" sample_dumps sample_loads
           "k3y" "https://api.example"
           {| files := ∅; API_KEY := PStr ""; BASE_URL := PStr "https://api.d-id.com" |}).
  reflexivity.
Defined.

(** * Further properties of the code *)

(** ** The generator [create_talk]: requests, tuples and pacing *)

(** One test of the loop condition and one pass, for any instance of the
    loop. *)
Ltac loop_step st :=
  rewrite poll_loop_unfold;
  destruct (Qlt_bool (elapsed st) timeout) eqn:?Ec;
  [ lazymatch goal with
    | |- context [poll_iteration ?a ?b ?c ?d st] =>
        destruct (poll_iteration a b c d st) as [?evs ?st1|?evs ?x1 ?st1] eqn:?Ei;
        [ destruct (poll_loop _ _ _ _ _ _) as [[?tr1 ?x1] ?st2] eqn:?El;
          intros [= <- <- <-]
        | intros [= <- <- <-] ]
    | |- _ => intros [= <- <- <-]
    end
  | intros [= <- <- <-] ].

Lemma string_app_nil_r (s : string) : s +:+ "" = s.
Proof.
  induction s as [|c s IH]; [reflexivity|].
  change (String c (s +:+ "") = String c s). f_equal. exact IH.
Qed.

Lemma string_app_assoc (a b c : string) : (a +:+ b) +:+ c = a +:+ (b +:+ c).
Proof.
  induction a as [|x a IH]; [reflexivity|].
  change (String x ((a +:+ b) +:+ c) = String x (a +:+ (b +:+ c))).
  f_equal. exact IH.
Qed.

Lemma log_extends_refl s : log_extends s s.
Proof. exists "". symmetry. apply string_app_nil_r. Qed.

Lemma log_extends_trans a b c :
  log_extends a b -> log_extends b c -> log_extends a c.
Proof.
  intros [r ->] [r' ->]. exists (r +:+ r'). apply string_app_assoc.
Qed.

Lemma append_only_tail a l : append_only (a :: l) -> append_only l.
Proof. destruct l; cbn; tauto. Qed.

Lemma append_only_front l : forall a,
  append_only (l ++ [a]) -> append_only l.
Proof.
  induction l as [|b l IH]; intros a; [exact (fun _ => I)|].
  destruct l as [|c l]; [exact (fun _ => I)|].
  cbn. intros [H1 H2]. split; [exact H1|]. apply (IH a). exact H2.
Qed.

Lemma append_only_same c : forall l a,
  Forall (fun s => s = c) l -> log_extends a c -> append_only (a :: l ++ [c]).
Proof.
  induction l as [|b l IH]; intros a Hl Ha.
  - cbn. auto.
  - inversion Hl; subst.
    change (log_extends a c /\ append_only (c :: l ++ [c])).
    split; [exact Ha|]. apply IH; auto using log_extends_refl.
Qed.

Section PollerShape.

Variable json_dumps : pyval -> string.
Variable py_repr : pyval -> string.
Variable w : world.
Variable talk_id : pyval.

Local Abbreviation iter := (poll_iteration json_dumps py_repr w talk_id).
Local Abbreviation loop := (poll_loop json_dumps py_repr w talk_id).

(** What one pass emits, whatever the answer. *)
Lemma iteration_events st :
  match iter st with
  | Again evs st1 =>
      creates evs = [] /\ sleeps evs = [poll_interval]
      /\ exists u, yields evs = [u] /\ u_api_logs u = response_log st1
                   /\ log_extends (response_log st) (response_log st1)
  | Leave evs x st1 =>
      creates evs = [] /\ sleeps evs = []
      /\ log_extends (response_log st) (response_log st1)
      /\ Forall (fun u => u_api_logs u = response_log st1) (yields evs)
      /\ length (yields evs) =
           match x with LoopReturn => 2 | LoopRaise _ => 0 | _ => 1 end
  end.
Proof.
  unfold poll_iteration.
  destruct (answer (poll_answers w (polls st))) as [e|[| | | | | |d]];
    try solve [cbn; repeat split; auto using log_extends_refl].
  assert (Hext : forall cs,
            log_extends (response_log st)
              (polling_log json_dumps py_repr (response_log st) cs (PDict d)))
    by (intros cs; unfold polling_log; eexists; reflexivity).
  destruct (py_eq_str _ "done");
    [destruct (truthy _)|destruct (py_in_strs _ _)];
    cbn; repeat split; eauto.
Qed.

(** The first tuple of a pass whose answer is an object. *)
Lemma iteration_snapshot st d :
  answer (poll_answers w (polls st)) = inr (PDict d) ->
  exists u rest,
    match iter st with Again evs _ | Leave evs _ _ => yields evs = u :: rest end
    /\ u_talk_id u = talk_id
    /\ u_status u =
         "Status: " +:+ py_format py_repr (dict_get_default "status" (PStr "unknown") d)
    /\ u_result_url u = dict_get_default "result_url" (PStr "") d
    /\ u_video_preview u = hidden_video.
Proof.
  intros Ha. unfold poll_iteration. rewrite Ha.
  destruct (py_eq_str _ "done");
    [destruct (truthy _)|destruct (py_in_strs _ _)];
    cbn; eexists _, _; repeat split.
Qed.

Lemma loop_requests fuel : forall st tr x st',
  loop fuel st = (tr, x, st') ->
  creates tr = []
  /\ get_calls tr = replicate (polls st' - polls st) talk_id
  /\ exists n, sleeps tr = replicate n poll_interval
               /\ match x with
                  | LoopDeadline | LoopFuel => n = polls st' - polls st
                  | _ => S n = polls st' - polls st
                  end.
Proof.
  induction fuel as [|fuel IH]; intros st tr x st'; loop_step st;
    try (rewrite Nat.sub_diag; repeat split; exists 0; auto).
  - pose proof (iteration_events st) as Hev. rewrite Ei in Hev.
    destruct Hev as (Hc & Hs & _).
    pose proof Ei as (Hp & _ & Hg & _)%iteration_again.
    pose proof (loop_polls _ _ _ _ _ _ _ _ _ El) as Hpl.
    destruct (IH _ _ _ _ El) as (Hc1 & Hg1 & n & Hs1 & Hn).
    unfold creates, get_calls, sleeps in *.
    rewrite !omap_app, Hc, Hc1, Hg, Hg1, Hs, Hs1.
    replace (polls st2 - polls st) with (S (polls st2 - polls st1)) by lia.
    repeat split. exists (S n). split; [reflexivity|].
    destruct x1; lia.
  - pose proof (iteration_events st) as Hev. rewrite Ei in Hev.
    destruct Hev as (Hc & Hs & _).
    pose proof Ei as (Hp & _ & Hg & Hx1 & Hx2)%iteration_leave.
    rewrite Hp. replace (S (polls st) - polls st) with 1 by lia.
    repeat split; auto. exists 0. split; [exact Hs|].
    destruct x1; congruence.
Qed.

Lemma loop_yield_count fuel : forall st tr x st',
  loop fuel st = (tr, x, st') ->
  match x with
  | LoopReturn => length (yields tr) = S (polls st' - polls st)
  | LoopRaise _ => S (length (yields tr)) = polls st' - polls st
  | _ => length (yields tr) = polls st' - polls st
  end.
Proof.
  induction fuel as [|fuel IH]; intros st tr x st'; loop_step st;
    try (rewrite Nat.sub_diag; reflexivity).
  - pose proof (iteration_events st) as Hev. rewrite Ei in Hev.
    destruct Hev as (_ & _ & u & Hu & _).
    pose proof Ei as (Hp & _)%iteration_again.
    pose proof (loop_polls _ _ _ _ _ _ _ _ _ El) as Hpl.
    apply IH in El. unfold yields in *. rewrite omap_app, Hu. cbn.
    destruct x1; lia.
  - pose proof (iteration_events st) as Hev. rewrite Ei in Hev.
    destruct Hev as (_ & _ & _ & _ & Hn).
    pose proof Ei as (Hp & _ & _ & Hx1 & Hx2)%iteration_leave.
    rewrite Hp. destruct x1; try congruence; lia.
Qed.

Lemma loop_logs fuel : forall st tr x st',
  loop fuel st = (tr, x, st') ->
  append_only
    (response_log st :: (u_api_logs <$> yields tr) ++ [response_log st']).
Proof.
  induction fuel as [|fuel IH]; intros st tr x st'; loop_step st;
    try (cbn; auto using log_extends_refl).
  - pose proof (iteration_events st) as Hev. rewrite Ei in Hev.
    destruct Hev as (_ & _ & u & Hu & Hlog & Hext).
    apply IH in El. unfold yields in *. rewrite omap_app, Hu. cbn.
    rewrite Hlog. split; [exact Hext|exact El].
  - pose proof (iteration_events st) as Hev. rewrite Ei in Hev.
    destruct Hev as (_ & _ & Hext & Hall & _).
    apply append_only_same; [|exact Hext].
    apply Forall_fmap. exact Hall.
Qed.

Lemma loop_snapshot N fuel : forall st tr x st' d,
  loop fuel st = (tr, x, st') -> polls st <= N < polls st' ->
  answer (poll_answers w N) = inr (PDict d) ->
  exists u,
    yields tr !! (N - polls st) = Some u
    /\ u_talk_id u = talk_id
    /\ u_status u =
         "Status: " +:+ py_format py_repr (dict_get_default "status" (PStr "unknown") d)
    /\ u_result_url u = dict_get_default "result_url" (PStr "") d
    /\ u_video_preview u = hidden_video.
Proof.
  induction fuel as [|fuel IH]; intros st tr x st' d; loop_step st;
    try (intros; lia).
  - intros HN Ha.
    pose proof Ei as (Hp & _)%iteration_again.
    destruct (decide (polls st = N)) as [<-|Hne].
    + destruct (iteration_snapshot st d Ha) as (u & rest & Hy & Hu).
      rewrite Ei in Hy. exists u. split; [|exact Hu].
      rewrite Nat.sub_diag. unfold yields in *. rewrite omap_app, Hy.
      reflexivity.
    + destruct (IH _ _ _ _ d El) as (u & Hy & Hu); [lia|exact Ha|].
      exists u. split; [|exact Hu].
      pose proof (iteration_events st) as Hev. rewrite Ei in Hev.
      destruct Hev as (_ & _ & u0 & Hu0 & _).
      unfold yields in *. rewrite omap_app, Hu0.
      replace (N - polls st) with (S (N - polls st1)) by lia. exact Hy.
  - intros HN Ha.
    pose proof Ei as (Hp & _)%iteration_leave.
    assert (polls st = N) as <- by lia.
    destruct (iteration_snapshot st d Ha) as (u & rest & Hy & Hu).
    rewrite Ei in Hy. exists u. split; [|exact Hu].
    rewrite Nat.sub_diag, Hy. reflexivity.
Qed.

Lemma loop_elapsed_lower fuel :
  monotone_clock w -> forall st tr x st',
  loop fuel st = (tr, x, st') -> polls st < polls st' ->
  (elapsed st + poll_interval * Qnat (polls st' - S (polls st)) <= elapsed st')%Q.
Proof.
  intros clock. unfold poll_interval.
  induction fuel as [|fuel IH]; intros st tr x st'; loop_step st;
    try (intros; lia).
  - intros Hlt. pose proof Ei as (Hp & He & _)%iteration_again.
    pose proof (clock (polls st)) as Hd.
    destruct (decide (polls st2 = polls st1)) as [Heq|Hne].
    + destruct (loop_no_poll _ _ _ _ _ _ _ _ _ El Heq) as (_ & -> & _).
      rewrite Hp, Nat.sub_diag, Qnat_0, He. unfold poll_interval. lra.
    + pose proof (loop_polls _ _ _ _ _ _ _ _ _ El).
      assert (Hlt1 : polls st1 < polls st2) by lia.
      specialize (IH _ _ _ _ El Hlt1). rewrite He in IH.
      replace (polls st2 - S (polls st))
        with (S (polls st2 - S (polls st1))) by lia.
      rewrite Qnat_S. unfold poll_interval in IH. lra.
  - intros _. pose proof Ei as (Hp & He & _)%iteration_leave.
    pose proof (clock (polls st)) as Hd.
    rewrite Hp, Nat.sub_diag, Qnat_0, He. lra.
Qed.

End PollerShape.

Section RunShape.

Variable json_dumps : pyval -> string.
Variable py_repr : pyval -> string.
Variable w : world.
Variable API_KEY : pyval.

Local Abbreviation run_of := (create_talk json_dumps py_repr w API_KEY).
Local Abbreviation loop := (poll_loop json_dumps py_repr w).
Local Abbreviation first_log talk := (creation_log json_dumps (PDict talk)).

(** The four ways a run can go. *)
Lemma run_cases fuel args :
  (truthy API_KEY = false
   /\ run_of fuel args =
        {| run_trace := [EvYield no_key_update];
           run_end := StopIteration ExitNoKey;
           run_polls := 0; run_elapsed := 0%Q |})
  \/ (truthy API_KEY = true
      /\ exists e, raises (create_answer w) e
         /\ run_of fuel args =
              {| run_trace := [EvCreateTalk (build_payload args);
                               EvYield (error_update e)];
                 run_end := StopIteration (ExitError e);
                 run_polls := 0; run_elapsed := 0%Q |})
  \/ (truthy API_KEY = true
      /\ exists talk, create_answer w = inr (PDict talk)
         /\ truthy (dict_get_none "id" talk) = false
         /\ run_of fuel args =
              {| run_trace := [EvCreateTalk (build_payload args);
                               EvYield (failed_update (first_log talk))];
                 run_end := StopIteration ExitNoId;
                 run_polls := 0; run_elapsed := 0%Q |})
  \/ (truthy API_KEY = true
      /\ exists talk tr x st',
           create_answer w = inr (PDict talk)
           /\ truthy (dict_get_none "id" talk) = true
           /\ loop (dict_get_none "id" talk) fuel (fresh_locals (first_log talk))
              = (tr, x, st')
           /\ run_of fuel args =
                except_clause
                  (after_loop py_repr (build_payload args)
                     (dict_get_none "id" talk) (tr, x, st'))).
Proof.
  unfold create_talk, create_talk_try.
  destruct (truthy API_KEY); [right|left; auto].
  destruct (create_answer w) as [e|v] eqn:Hc.
  { left. split; [reflexivity|]. exists e. split; reflexivity. }
  destruct v as [| | | | | |talk];
    try (left; split; [reflexivity|]; eexists; split; reflexivity).
  right. destruct (truthy (dict_get_none "id" talk)) eqn:Hid.
  - right. split; [reflexivity|].
    destruct (loop _ fuel _) as [[tr x] st'] eqn:El.
    exists talk, tr, x, st'. cbn. rewrite Hid, El. auto.
  - left. split; [reflexivity|]. exists talk. cbn. rewrite Hid. auto.
Qed.

(** The trace around the loop: the creation request, the loop's events, and
    closing tuples only. *)
Lemma after_loop_trace payload tid tr x st' :
  exists tail,
    run_trace (except_clause (after_loop py_repr payload tid (tr, x, st')))
      = EvCreateTalk payload :: (tr ++ tail)%list
    /\ creates tail = [] /\ get_calls tail = [] /\ sleeps tail = [].
Proof.
  unfold except_clause, after_loop.
  destruct x, (current_status st'); cbn;
    first [ exists []; rewrite app_nil_r; by auto
          | eexists [_]; by auto ].
Qed.

Lemma fresh_loop_status tid fuel log tr x st' :
  loop tid fuel (fresh_locals log) = (tr, x, st') ->
  x = LoopBreak \/ x = LoopDeadline -> is_Some (current_status st').
Proof.
  intros El Hx. eapply loop_status; [exact El|exact Hx|]. left.
  destruct fuel as [|fuel].
  - rewrite poll_loop_unfold in El. cbn in El.
    injection El as <- <- <-. destruct Hx; discriminate.
  - eapply loop_first_poll; [exact El|reflexivity].
Qed.

(** X1.  [get_talk] is called at all exactly when a key is configured and
    the creation response is an object whose [id] is truthy: an [id] that is
    missing, [None], [""] or [0] ends the run before any poll. *)
Theorem polling_starts_iff fuel args :
  0 < fuel ->
  0 < run_polls (run_of fuel args) <->
  truthy API_KEY = true
  /\ exists talk, create_answer w = inr (PDict talk)
                  /\ truthy (dict_get_none "id" talk) = true.
Proof.
  intros Hfuel. split.
  - intros H. destruct (run_polled json_dumps py_repr w API_KEY fuel args H)
      as (talk & Hk & Hc & Hi & _). eauto.
  - intros (Hk & talk & Hc & Hi).
    rewrite (run_entered json_dumps py_repr w API_KEY fuel args talk Hk Hc Hi).
    rewrite except_clause_polls.
    destruct (loop _ fuel _) as [[tr x] st'] eqn:El.
    destruct (after_loop_polls py_repr (build_payload args)
                (dict_get_none "id" talk) tr x st') as (-> & _).
    destruct fuel as [|fuel]; [lia|].
    apply loop_first_poll in El; [|reflexivity]. cbn in El. lia.
Qed.

(** X2.  The requests of a run: without a key none at all; with a key exactly
    one creation request, sent first and carrying the payload built from the
    arguments; and every [get_talk] call asks for the [id] of the creation
    response. *)
Theorem requests_of_a_run fuel args :
  let r := run_of fuel args in
  (truthy API_KEY = false ->
     creates (run_trace r) = [] /\ get_calls (run_trace r) = [])
  /\ (truthy API_KEY = true ->
        creates (run_trace r) = [build_payload args]
        /\ exists rest, run_trace r = EvCreateTalk (build_payload args) :: rest)
  /\ forall i, i ∈ get_calls (run_trace r) ->
       exists talk, create_answer w = inr (PDict talk)
                    /\ i = dict_get_none "id" talk.
Proof.
  cbn zeta.
  destruct (run_cases fuel args)
    as [(Hk & ->) | [(Hk & e & He & ->) | [(Hk & talk & Hc & Hi & ->)
       | (Hk & talk & tr & x & st' & Hc & Hi & El & ->)]]];
    rewrite Hk.
  - cbn. repeat split; try discriminate. intros i Hin. inversion Hin.
  - cbn. split; [discriminate|]. split; [eauto|]. intros i Hin. inversion Hin.
  - cbn. split; [discriminate|]. split; [eauto|]. intros i Hin. inversion Hin.
  - destruct (after_loop_trace (build_payload args) (dict_get_none "id" talk)
                tr x st') as (tail & -> & Hc1 & Hg1 & Hs1).
    destruct (loop_requests _ _ _ _ _ _ _ _ _ El) as (Hc2 & Hg2 & _).
    unfold creates, get_calls in *. cbn.
    rewrite !omap_app, Hc1, Hg1, Hc2, Hg2.
    split; [discriminate|]. split; [eauto|].
    intros i Hin. rewrite app_nil_r in Hin.
    apply elem_of_replicate in Hin as [-> _]. eauto.
Qed.

(** X3.  The log only grows: in a run that does not end in the [except]
    clause, the log of each yielded tuple is the log of the tuple before it
    with text appended. *)
Theorem logs_are_append_only fuel args :
  (forall e, run_end (run_of fuel args) <> StopIteration (ExitError e)) ->
  append_only (u_api_logs <$> updates (run_of fuel args)).
Proof.
  destruct (run_cases fuel args)
    as [(Hk & ->) | [(Hk & e & He & ->) | [(Hk & talk & Hc & Hi & ->)
       | (Hk & talk & tr & x & st' & Hc & Hi & El & ->)]]].
  - intros _. exact I.
  - intros H. destruct (H e). reflexivity.
  - intros _. exact I.
  - pose proof (loop_logs _ _ _ _ _ _ _ _ _ El) as Hlogs.
    apply append_only_tail in Hlogs.
    pose proof (fresh_loop_status _ _ _ _ _ _ El) as Hst.
    unfold except_clause, after_loop, updates.
    destruct x; cbn.
    + intros _. unfold yields in *. eapply append_only_front, Hlogs.
    + destruct Hst as [cs ->]; auto. cbn. intros _.
      unfold yields in *. rewrite omap_app, fmap_app. exact Hlogs.
    + destruct Hst as [cs ->]; auto. cbn. intros _.
      unfold yields in *. rewrite omap_app, fmap_app. exact Hlogs.
    + intros H. destruct (H e). reflexivity.
    + intros _. unfold yields in *. eapply append_only_front, Hlogs.
Qed.

(** X4.  One snapshot per poll: a run that ends outside the [except] clause
    yields one tuple for each [get_talk] call and one closing tuple; a run
    that ends in the [except] clause yields one tuple for each call that
    returned, and the "Error" tuple. *)
Theorem one_update_per_poll fuel args :
  let r := run_of fuel args in
  match run_end r with
  | StopIteration (ExitError _) => length (updates r) = max 1 (run_polls r)
  | StopIteration _ => length (updates r) = S (run_polls r)
  | _ => True
  end.
Proof.
  cbn zeta.
  destruct (run_cases fuel args)
    as [(Hk & ->) | [(Hk & e & He & ->) | [(Hk & talk & Hc & Hi & ->)
       | (Hk & talk & tr & x & st' & Hc & Hi & El & ->)]]];
    [reflexivity..|].
  pose proof (loop_yield_count _ _ _ _ _ _ _ _ _ El) as Hn.
  pose proof (fresh_loop_status _ _ _ _ _ _ El) as Hst.
  unfold except_clause, after_loop, updates. cbn in Hn.
  destruct x; cbn.
  - unfold yields in *. lia.
  - destruct Hst as [cs ->]; auto. cbn.
    unfold yields in *. rewrite omap_app, length_app. cbn. lia.
  - destruct Hst as [cs ->]; auto. cbn.
    unfold yields in *. rewrite omap_app, length_app. cbn. lia.
  - unfold yields in *. rewrite omap_app, length_app. cbn. lia.
  - exact I.
Qed.

End RunShape.

Section RunPolls.

Variable json_dumps : pyval -> string.
Variable py_repr : pyval -> string.
Variable w : world.
Variable API_KEY : pyval.

Local Abbreviation run_of := (create_talk json_dumps py_repr w API_KEY).
Local Abbreviation loop := (poll_loop json_dumps py_repr w).

Lemma iteration_done_without_result tid st d :
  answer (poll_answers w (polls st)) = inr (PDict d) ->
  dict_get "status" d = Some (PStr "done") ->
  truthy (dict_get_none "result_url" d) = false ->
  exists p st1,
    poll_iteration json_dumps py_repr w tid st
      = Leave [EvGetTalk tid; EvYield p] LoopBreak st1
    /\ polls st1 = S (polls st)
    /\ current_status st1 = Some (PStr "done").
Proof.
  intros Ha Hs Hu. unfold poll_iteration, dict_get_default.
  rewrite Ha, Hs. cbn. rewrite Hu. eexists _, _. repeat split.
Qed.

Lemma iteration_continues tid st d :
  answer (poll_answers w (polls st)) = inr (PDict d) ->
  py_eq_str (dict_get_default "status" (PStr "unknown") d) "done" = false ->
  py_in_strs (dict_get_default "status" (PStr "unknown") d) ["failed"; "error"]
    = false ->
  exists evs st1,
    poll_iteration json_dumps py_repr w tid st = Again evs st1
    /\ polls st1 = S (polls st)
    /\ is_Some (current_status st1).
Proof.
  intros Ha Hd Hf. unfold poll_iteration. rewrite Ha. cbn zeta.
  rewrite Hd, Hf. eexists _, _. repeat split. eauto.
Qed.

(** X5.  A job that is [done] without a result ends the polling as a
    failure: when the answer has status [done] and its [result_url] is
    missing, [None] or empty, no further [get_talk] call is made and the
    closing tuple reads "Processing timed out or failed (status: done)" with
    an empty result url and a hidden video. *)
Theorem done_without_result_stops fuel args N d :
  N < run_polls (run_of fuel args) ->
  answer (poll_answers w N) = inr (PDict d) ->
  dict_get "status" d = Some (PStr "done") ->
  truthy (dict_get_none "result_url" d) = false ->
  let r := run_of fuel args in
  run_end r = StopIteration ExitBreak
  /\ run_polls r = S N
  /\ exists u, last (updates r) = Some u
               /\ u_status u = "Processing timed out or failed (status: done)"
               /\ u_result_url u = PStr ""
               /\ u_video_preview u = hidden_video.
Proof.
  intros HN Ha Hs Hu.
  destruct (run_at_poll json_dumps py_repr w API_KEY fuel args N HN)
    as (talk & tr0 & trN & fuelN & stN & x & st' & H1 & H2 & H3 & H4 & Hr & Hl).
  subst N.
  destruct (iteration_done_without_result (dict_get_none "id" talk) stN d
              Ha Hs Hu) as (p & st1 & Hi & Hpl & Hcs).
  destruct (loop_leaves _ _ _ _ _ _ _ _ _ _ _ _ H2 Hi H3) as (-> & -> & ->).
  cbn zeta. rewrite Hr. unfold except_clause, after_loop. rewrite Hcs. cbn.
  repeat split; auto.
  eexists. split.
  - unfold updates, yields. cbn. rewrite omap_app. apply last_snoc.
  - repeat split.
Qed.

(** X6.  The stream follows the polls in order: for every [get_talk] call
    that returns an object, the tuple at the same position of the stream is
    its snapshot: the id of the job, "Status: " and the [status] of the
    answer (["unknown"] when it has none), its [result_url] (the empty string
    when it has none) and a hidden video. *)
Theorem snapshot_of_each_poll fuel args N d :
  N < run_polls (run_of fuel args) ->
  answer (poll_answers w N) = inr (PDict d) ->
  exists talk u,
    create_answer w = inr (PDict talk)
    /\ updates (run_of fuel args) !! N = Some u
    /\ u_talk_id u = dict_get_none "id" talk
    /\ u_status u =
         "Status: " +:+ py_format py_repr (dict_get_default "status" (PStr "unknown") d)
    /\ u_result_url u = dict_get_default "result_url" (PStr "") d
    /\ u_video_preview u = hidden_video.
Proof.
  intros HN Ha.
  destruct (run_polled json_dumps py_repr w API_KEY fuel args)
    as (talk & Hk & Hc & Hi & Hr); [lia|].
  rewrite Hr in HN |- *. rewrite except_clause_polls in HN.
  destruct (loop _ fuel _) as [[tr x] st'] eqn:El.
  destruct (after_loop_polls py_repr (build_payload args)
              (dict_get_none "id" talk) tr x st') as (Hp & _).
  rewrite Hp in HN.
  destruct (loop_snapshot json_dumps py_repr w _ N _ _ _ _ _ d El)
    as (u & Hy & Hu); [cbn; lia|exact Ha|].
  cbn in Hy. rewrite Nat.sub_0_r in Hy.
  exists talk, u. split; [exact Hc|]. split; [|exact Hu].
  destruct (after_loop_trace py_repr (build_payload args)
              (dict_get_none "id" talk) tr x st') as (tail & Ht & _).
  unfold updates. rewrite Ht. unfold yields in *. cbn. rewrite omap_app.
  apply lookup_app_l_Some. exact Hy.
Qed.

(** X7.  Only [done], [failed] and [error] end the loop: after an answer
    whose status is anything else (no status at all, a status that is not a
    string, any other string) the run calls [get_talk] again, unless the
    deadline has passed by then. *)
Theorem only_three_statuses_end_the_loop fuel args N d :
  monotone_clock w -> max_polls <= fuel ->
  N < run_polls (run_of fuel args) ->
  answer (poll_answers w N) = inr (PDict d) ->
  py_eq_str (dict_get_default "status" (PStr "unknown") d) "done" = false ->
  py_in_strs (dict_get_default "status" (PStr "unknown") d) ["failed"; "error"]
    = false ->
  S N < run_polls (run_of fuel args)
  \/ run_end (run_of fuel args) = StopIteration ExitDeadline.
Proof.
  intros Hclock Hfuel HN Ha Hd Hf.
  destruct (run_at_poll json_dumps py_repr w API_KEY fuel args N HN)
    as (talk & tr0 & trN & fuelN & stN & x & st' & H1 & H2 & H3 & H4 & Hr & Hl).
  subst N.
  pose proof (loop_fuel_enough _ _ _ _ Hclock _ _ _ _ _
                (fuel_covers_deadline fuel _ Hfuel) Hl) as Hx.
  destruct (iteration_continues (dict_get_none "id" talk) stN d Ha Hd Hf)
    as (evs & st1 & Hi & Hpl & cs & Hcs).
  rewrite poll_loop_unfold, H2, Hi in H3.
  destruct (loop _ fuelN st1) as [[tr1 x1] st2] eqn:El1.
  injection H3 as <- <- <-.
  rewrite Hr, except_clause_polls.
  destruct (after_loop_polls py_repr (build_payload args)
              (dict_get_none "id" talk) (tr0 ++ evs ++ tr1)%list x1 st2)
    as (-> & _).
  pose proof (loop_polls _ _ _ _ _ _ _ _ _ El1) as Hp2.
  destruct (decide (polls st2 = polls st1)) as [Heq|Hne]; [|left; lia].
  right.
  destruct (loop_no_poll _ _ _ _ _ _ _ _ _ El1 Heq) as (_ & -> & [-> | ->]).
  - congruence.
  - unfold except_clause, after_loop. rewrite Hcs. reflexivity.
Qed.

(** X8.  The pacing of a run: every sleep is for the poll interval; there
    is one sleep between any two polls and never more sleeps than polls; and
    with a clock that does not run backwards the polls take at least one
    interval each but the last. *)
Theorem polls_are_paced fuel args :
  let r := run_of fuel args in
  (exists n, sleeps (run_trace r) = replicate n poll_interval
             /\ n <= run_polls r <= S n)
  /\ (monotone_clock w ->
      (poll_interval * Qnat (run_polls r - 1) <= run_elapsed r)%Q).
Proof.
  cbn zeta.
  destruct (run_cases json_dumps py_repr w API_KEY fuel args)
    as [(Hk & ->) | [(Hk & e & He & ->) | [(Hk & talk & Hc & Hi & ->)
       | (Hk & talk & tr & x & st' & Hc & Hi & El & ->)]]];
    try (split; [exists 0; cbn; split; [reflexivity|lia]
                |intros _; cbn; unfold Qle; cbn; lia]).
  rewrite except_clause_polls, except_clause_elapsed.
  destruct (after_loop_polls py_repr (build_payload args)
              (dict_get_none "id" talk) tr x st') as (-> & -> & _).
  destruct (after_loop_trace py_repr (build_payload args)
              (dict_get_none "id" talk) tr x st') as (tail & -> & _ & _ & Hs1).
  destruct (loop_requests _ _ _ _ _ _ _ _ _ El) as (_ & _ & n & Hs2 & Hn).
  pose proof (loop_polls _ _ _ _ _ _ _ _ _ El) as Hpl. cbn in Hpl, Hn.
  split.
  - exists n. unfold sleeps in *. cbn. rewrite omap_app, Hs1, Hs2, app_nil_r.
    split; [reflexivity|]. destruct x; lia.
  - intros Hclock.
    destruct (decide (polls st' = 0)) as [H0|H0].
    + destruct (loop_no_poll _ _ _ _ _ _ _ _ _ El H0) as (_ & -> & _).
      cbn. unfold Qle. cbn. lia.
    + pose proof (loop_elapsed_lower json_dumps py_repr w _ fuel Hclock
                    _ _ _ _ El) as Hlow.
      cbn in Hlow. rewrite Nat.sub_1_r.
      replace (polls st' - 1) with (Nat.pred (polls st')) in Hlow by lia.
      unfold poll_interval in *.
      assert (Hlt : 0 < polls st') by lia. specialize (Hlow Hlt). lra.
Qed.

End RunPolls.

(** ** [download_video] and [download_handler] *)

Section DownloadMore.

Variable os_sep : string.
Variable py_int : string -> py_exception + Z.
Variable dw : download_world.

Local Abbreviation target := (filename os_sep dw).
Local Abbreviation video_of := (download_video os_sep py_int dw).
Local Abbreviation handler := (download_handler os_sep py_int dw).

(** A loop that ends without an exception has written every chunk. *)
Lemma write_chunks_all items : forall n content content',
  write_chunks dw items n content = (content', None) ->
  content' = (content ++ chunk_data items)%list.
Proof.
  unfold chunk_data.
  induction items as [|[data|e] items IH]; intros n content content'; cbn.
  - intros [= <-]. rewrite app_nil_r. reflexivity.
  - destruct data as [|b data].
    + intros H. apply IH in H. exact H.
    + destruct (write_error dw n); [discriminate|].
      intros H. apply IH in H. rewrite H, app_assoc. reflexivity.
  - discriminate.
Qed.

(** What a [try] block that raises nothing has done. *)
Lemma download_try_success (fs fs1 : gmap string bytes) :
  download_try os_sep py_int dw fs = (fs1, None) ->
  exists r, requests_get dw = inr r
            /\ raise_for_status r = None
            /\ fs1 = <[target := chunk_data (iter_content r)]> fs.
Proof.
  unfold download_try.
  destruct (requests_get dw) as [e|r]; [discriminate|].
  destruct (raise_for_status r) eqn:Hs; [discriminate|].
  destruct (match content_length r with Some h => py_int h | None => inr 0%Z end);
    [discriminate|].
  destruct (open_wb dw); [discriminate|].
  destruct (write_chunks dw (iter_content r) 0 []) as [content err] eqn:Hw.
  intros [= <- ->]. apply write_chunks_all in Hw. cbn in Hw. subst content.
  exists r. auto.
Qed.

(** What a call that returns a path has done. *)
Lemma download_video_returned url (fs fs1 : gmap string bytes) path msg :
  video_of url fs = (fs1, Returned (Some path) msg) ->
  path = target
  /\ msg = "✅ Downloaded successfully"
  /\ exists r, requests_get dw = inr r
               /\ raise_for_status r = None
               /\ fs1 = <[target := chunk_data (iter_content r)]> fs.
Proof.
  unfold download_video.
  destruct (is_http_url url); cbn; [|discriminate].
  destruct (makedirs dw); [discriminate|].
  destruct (download_try os_sep py_int dw fs) as [fs' [e|]] eqn:Ht.
  { destruct (fs' !! target); [destruct (os_remove dw)|]; discriminate. }
  intros [= <- <- <-].
  destruct (download_try_success fs fs' Ht) as (r & Hg & Hs & ->).
  repeat split. exists r. auto.
Qed.

(** X9.  A download that succeeds returns the target path, and the file under
    that path then holds exactly the bytes of the chunks of the response, in
    order (keep-alive chunks add nothing), whatever was under that name
    before. *)
Theorem download_writes_all_chunks url (fs fs1 : gmap string bytes) path msg :
  video_of url fs = (fs1, Returned (Some path) msg) ->
  path = target
  /\ msg = "✅ Downloaded successfully"
  /\ exists r, requests_get dw = inr r
               /\ raise_for_status r = None
               /\ fs1 !! path = Some (chunk_data (iter_content r)).
Proof.
  intros Hv.
  destruct (download_video_returned url fs fs1 path msg Hv)
    as (-> & -> & r & Hg & Hs & ->).
  repeat split. exists r. rewrite lookup_insert_eq. auto.
Qed.

(** X10.  Whatever happens, [download_video] changes no file but the one
    under the target name. *)
Theorem download_touches_only_target url (fs : gmap string bytes) p :
  p <> filename os_sep dw ->
  (download_video os_sep py_int dw url fs).1 !! p = fs !! p.
Proof.
  intros Hp. unfold download_video.
  destruct (is_http_url url); cbn; [|reflexivity].
  destruct (makedirs dw); [reflexivity|].
  destruct (download_try os_sep py_int dw fs) as [fs1 err] eqn:Ht.
  pose proof (download_try_other_files os_sep py_int dw fs fs1 err p Ht Hp) as H.
  destruct err; cbn; [|exact H].
  destruct (fs1 !! target); [|exact H].
  destruct (os_remove dw); cbn; [exact H|].
  rewrite lookup_delete_ne by congruence. exact H.
Qed.

(** X11.  The exceptions that leave [download_video] are the one of
    [os.makedirs] and the one of [os.remove] in the [except] clause, which
    is called only when the [try] block failed with the file in place; both
    only for an http(s) url.  For any other url, and when [os.makedirs]
    raises, the files are left as they were. *)
Theorem download_raises_from_makedirs_or_remove url (fs : gmap string bytes) :
  (forall e, (download_video os_sep py_int dw url fs).2 = Raised e <->
     is_http_url url = true
     /\ (makedirs dw = Some e
         \/ (makedirs dw = None
             /\ os_remove dw = Some e
             /\ exists fs1 e0,
                  download_try os_sep py_int dw fs = (fs1, Some e0)
                  /\ is_Some (fs1 !! filename os_sep dw))))
  /\ (is_http_url url = false ->
      download_video os_sep py_int dw url fs
        = (fs, Returned None "❌ Invalid URL"))
  /\ (forall e, makedirs dw = Some e ->
        (download_video os_sep py_int dw url fs).1 = fs).
Proof.
  unfold download_video.
  destruct (is_http_url url); cbn [negb].
  - destruct (makedirs dw) as [e0|] eqn:Hm.
    + split; [|split].
      * intros e. split.
        -- intros [= ->]. auto.
        -- intros [_ [[= ->]|[H _]]]; [reflexivity|discriminate H].
      * discriminate.
      * reflexivity.
    + destruct (download_try os_sep py_int dw fs) as [fs1 [e1|]] eqn:Ht.
      * destruct (fs1 !! target) as [content|] eqn:Hf.
        -- destruct (os_remove dw) as [e2|] eqn:Hr; cbn.
           ++ split; [|split]; try discriminate.
              intros e. split.
              ** intros [= ->]. split; [reflexivity|]. right.
                 split; [reflexivity|]. split; [reflexivity|].
                 exists fs1, e1. split; [reflexivity|]. rewrite Hf. eauto.
              ** intros [_ [H|(_ & [= ->] & _)]]; [discriminate H|reflexivity].
           ++ split; [|split]; try discriminate.
              intros e. split; [discriminate|].
              intros [_ [H|(_ & H & _)]]; discriminate H.
        -- cbn. split; [|split]; try discriminate.
           intros e. split; [discriminate|].
           intros [_ [H|(_ & _ & fs' & e' & [= <- _] & Hs)]]; [discriminate H|].
           rewrite Hf in Hs. destruct Hs as [? Hs]. discriminate Hs.
      * cbn. split; [|split]; try discriminate.
        intros e. split; [discriminate|].
        intros [_ [H|(_ & _ & fs' & e' & H & _)]]; discriminate H.
  - split; [|split].
    + intros e. split; [discriminate|intros [H _]; discriminate].
    + reflexivity.
    + reflexivity.
Qed.

Lemma target_is_truthy : truthy (PStr target) = true.
Proof. reflexivity. Qed.

(** X12.  What the user sees of a download: nothing at all for an empty url
    (the value of [return] in a generator is not yielded); otherwise exactly
    two tuples, "Downloading..." and then either "Download Complete" or
    "Download Failed"; and no exception leaves the handler. *)
Theorem download_handler_updates url (fs : gmap string bytes) :
  h_raised (handler url fs) = None
  /\ (url = "" -> h_yields (handler url fs) = [] /\ h_files (handler url fs) = fs)
  /\ (url <> "" ->
      exists u, h_yields (handler url fs) = [download_started; u]
                /\ (d_button u = "✅ Download Complete"
                    \/ d_button u = "❌ Download Failed")).
Proof.
  unfold download_handler, download_handler_try. cbn [truthy].
  destruct (String.eqb_spec url "") as [->|Hne]; cbn.
  - split; [reflexivity|]. split; [auto|congruence].
  - destruct (download_video os_sep py_int dw url fs) as [fs1 [p msg|e]]; cbn.
    + split; [reflexivity|]. split; [congruence|].
      intros _. eexists. split; [reflexivity|].
      destruct p as [p|]; [destruct (String.eqb p "")|]; cbn; auto.
    + split; [reflexivity|]. split; [congruence|].
      intros _. eexists. split; [reflexivity|]. cbn. auto.
Qed.

(** X13.  "Download Complete" means the file is there: when the handler
    ends with that tuple, the tuple shows the video under the target path
    with the message of [download_video], and the file under that path holds
    the bytes of the response. *)
Theorem download_complete_means_file url (fs : gmap string bytes) u :
  last (h_yields (handler url fs)) = Some u ->
  d_button u = "✅ Download Complete" ->
  d_video u = {| video_value := Some (PStr target); video_visible := true |}
  /\ d_status u = "✅ Downloaded successfully"
  /\ exists r, requests_get dw = inr r
               /\ h_files (handler url fs) !! target
                  = Some (chunk_data (iter_content r)).
Proof.
  unfold download_handler, download_handler_try.
  destruct (truthy (PStr url)); cbn [negb]; [|discriminate].
  destruct (download_video os_sep py_int dw url fs) as [fs1 [p msg|e]] eqn:Hv;
    cbn [h_raised h_yields h_files].
  - destruct p as [p|]; cbn [last].
    + destruct (download_video_returned url fs fs1 p msg Hv)
        as (-> & -> & r & Hg & _ & ->).
      rewrite target_is_truthy. intros [= <-] _. cbn.
      repeat split. exists r. rewrite lookup_insert_eq. auto.
    + intros [= <-]. cbn. discriminate.
  - intros [= <-]. cbn. discriminate.
Qed.

End DownloadMore.

(** ** The configuration at start-up and after a save *)

Section StartupFacts.

Variable CONFIG_PATH : string.
Variable json_dump : pyval -> string.
Variable json_load : string -> option pyval.
Variable py_strip : string -> string.

Local Abbreviation globals_of := (module_globals CONFIG_PATH json_load).
Local Abbreviation main_of := (main_block CONFIG_PATH json_dump py_strip).

(** X14.  A first start: without a configuration file the module runs with
    the key [""] and the default url, the [__main__] block writes the default
    file and prints the missing-key warning, and (when [json.load] reads back
    what [json.dump] wrote for the default object) the next start reads the
    same key and url from that file and leaves it alone. *)
Theorem first_start_writes_defaults (fs : gmap string string) :
  fs !! CONFIG_PATH = None ->
  json_load (json_dump default_config) = Some default_config ->
  let first := main_of DiskOk (PStr "") fs in
  globals_of fs = inr (PStr "", PStr "https://api.d-id.com")
  /\ m_files first = <[CONFIG_PATH := json_dump default_config]> fs
  /\ m_raised first = None
  /\ last (m_printed first) = Some no_key_warning
  /\ globals_of (m_files first) = inr (PStr "", PStr "https://api.d-id.com")
  /\ m_files (main_of DiskOk (PStr "") (m_files first)) = m_files first.
Proof.
  intros Hnone Hrt. cbn zeta.
  unfold module_globals, load_config, main_block. rewrite Hnone. cbn.
  rewrite lookup_insert_eq, Hrt. cbn. repeat split.
Qed.

(** X15.  A key of blanks only is warned about but used: when the stripped
    key is empty the [__main__] block prints the missing-key warning, yet
    [create_talk] takes the key as configured and sends the creation
    request. *)
Theorem blank_key_warned_but_used disk (fs : gmap string string) s
    json_dumps py_repr w fuel args :
  s <> "" -> py_strip s = "" ->
  is_Some (fs !! CONFIG_PATH) ->
  last (m_printed (main_of disk (PStr s) fs)) = Some no_key_warning
  /\ exists rest,
       run_trace (create_talk json_dumps py_repr w (PStr s) fuel args)
         = EvCreateTalk (build_payload args) :: rest.
Proof.
  intros Hs Hstrip [t Ht].
  assert (Hk : truthy (PStr s) = true).
  { cbn. apply negb_true_iff, String.eqb_neq, Hs. }
  split.
  - unfold main_block. rewrite Ht, Hk, Hstrip. reflexivity.
  - destruct (run_cases json_dumps py_repr w (PStr s) fuel args)
      as [(Hk' & _) | [(_ & e & _ & ->) | [(_ & talk & _ & _ & ->)
         | (_ & talk & tr & x & st' & _ & _ & _ & ->)]]];
      [congruence|eauto..|].
    destruct (after_loop_trace py_repr (build_payload args)
                (dict_get_none "id" talk) tr x st') as (tail & -> & _).
    eauto.
Qed.

(** X16.  A save takes effect at once: after a successful save of an empty
    key [create_talk] sends nothing and yields "Error: No API key"; after a
    successful save of any other key it sends the creation request; a save
    that fails leaves the key and the url in use as they were. *)
Theorem save_applies_to_next_submission disk key url st
    json_dumps py_repr w fuel args :
  let st' := (save_config_handler CONFIG_PATH json_dump disk key url st).1 in
  let r := create_talk json_dumps py_repr w (API_KEY st') fuel args in
  (disk = DiskOk -> key = "" -> run_trace r = [EvYield no_key_update])
  /\ (disk = DiskOk -> key <> "" ->
      exists rest, run_trace r = EvCreateTalk (build_payload args) :: rest)
  /\ (disk <> DiskOk -> API_KEY st' = API_KEY st /\ BASE_URL st' = BASE_URL st).
Proof.
  cbn zeta. split; [|split].
  - intros -> ->. reflexivity.
  - intros -> Hkey. cbn.
    assert (Hk : truthy (PStr key) = true).
    { cbn. apply negb_true_iff, String.eqb_neq, Hkey. }
    destruct (run_cases json_dumps py_repr w (PStr key) fuel args)
      as [(Hk' & _) | [(_ & e & _ & ->) | [(_ & talk & _ & _ & ->)
         | (_ & talk & tr & x & st' & _ & _ & _ & ->)]]];
      [congruence|eauto..|].
    destruct (after_loop_trace py_repr (build_payload args)
                (dict_get_none "id" talk) tr x st') as (tail & -> & _).
    eauto.
  - intros Hd. destruct disk; [congruence|auto..].
Qed.

End StartupFacts.

(** ** The url validators and the previews *)

Section ValidatorFacts.

Variable py_strip : string -> string.
Variable py_lower : string -> string.
Variable ndarray : Type.
Variable decode_image : bytes -> py_exception + ndarray.

Local Abbreviation audio := (validate_audio_url py_strip py_lower).
Local Abbreviation image := (validate_image_url py_strip ndarray decode_image).
Local Abbreviation audio_preview := (update_audio_preview py_strip py_lower).
Local Abbreviation image_preview :=
  (update_image_preview py_strip ndarray decode_image).

(** X17.  The validators fetch http(s) urls only: each requests at most the
    url it is given, and requests nothing for a url that does not start with
    [http://] or [https://], which it turns down with the same message. *)
Theorem validators_fetch_http_only head get url :
  ((audio head url).1 = []
   \/ (audio head url).1 = [url] /\ is_http_url url = true)
  /\ ((image get url).1 = []
      \/ (image get url).1 = [url] /\ is_http_url url = true)
  /\ (is_http_url url = false ->
      audio head url = ([], (None, invalid_url_message))
      /\ image get url = ([], (None, invalid_url_message))).
Proof.
  unfold validate_audio_url, validate_image_url, rejects_url.
  destruct (is_http_url url); cbn [negb].
  - rewrite orb_false_r.
    destruct (negb (truthy (PStr url)) || negb (truthy (PStr (py_strip url))));
      cbn.
    + split; [auto|]. split; [auto|]. discriminate.
    + split; [|split; [|discriminate]].
      * right. split; [|reflexivity].
        destruct head as [e|h]; [reflexivity|].
        destruct (negb _ && negb _); reflexivity.
      * right. split; [|reflexivity].
        destruct get as [e|c]; [reflexivity|].
        destruct (decode_image c); reflexivity.
  - rewrite orb_true_r. cbn. auto.
Qed.

(** X18.  An audio url is accepted exactly when it passes the url test, the
    HEAD request succeeds and the lower-cased content type contains [mp3] or
    [mpeg]; the accepted value is the url itself, and the preview player is
    shown exactly then. *)
Theorem audio_accepted_iff head url :
  let accepted :=
    rejects_url py_strip url = false
    /\ exists header,
         head = inr header
         /\ (contains (py_lower (default "" header)) "mp3" = true
             \/ contains (py_lower (default "" header)) "mpeg" = true) in
  (forall a, (audio head url).2.1 = Some a <-> a = url /\ accepted)
  /\ ((audio_preview head url).2.2 = true <-> accepted)
  /\ ((audio_preview head url).2.2 = true ->
      (audio_preview head url).2.1.1 = Some url).
Proof.
  cbn zeta.
  assert (Hcore : forall a, (audio head url).2.1 = Some a <->
            a = url /\ rejects_url py_strip url = false
            /\ exists header,
                 head = inr header
                 /\ (contains (py_lower (default "" header)) "mp3" = true
                     \/ contains (py_lower (default "" header)) "mpeg" = true)).
  { intros a. unfold validate_audio_url.
    destruct (rejects_url py_strip url); cbn.
    - split; [discriminate|]. intros (_ & H & _). discriminate.
    - destruct head as [e|header]; cbn.
      + split; [discriminate|]. intros (_ & _ & h & H & _). discriminate.
      + change (match header with Some h => h | None => "" end)
          with (default "" header).
        destruct (contains (py_lower (default "" header)) "mp3") eqn:H1;
          [|destruct (contains (py_lower (default "" header)) "mpeg") eqn:H2];
          cbn.
        * split; [intros [= <-]; eauto 6|intros (-> & _); reflexivity].
        * split; [intros [= <-]; eauto 6|intros (-> & _); reflexivity].
        * split; [discriminate|].
          intros (_ & _ & h & [= <-] & [H|H]); congruence. }
  split; [exact Hcore|].
  unfold update_audio_preview.
  destruct (truthy (PStr url)) eqn:Hu; cbn [negb].
  - destruct (audio head url) as [reqs [[a|] msg]] eqn:Ha; cbn.
    + pose proof (proj1 (Hcore a)) as H.
      destruct (H eq_refl) as (-> & Hacc). tauto.
    + split; [split; [discriminate|]|discriminate].
      intros Hacc.
      pose proof (proj2 (Hcore url) (conj eq_refl Hacc)) as H.
      discriminate.
  - cbn. split; [split; [discriminate|]|discriminate].
    intros [Hr _]. unfold rejects_url in Hr. rewrite Hu in Hr. discriminate.
Qed.

(** X19.  A picture is accepted exactly when its url passes the url test,
    the GET request succeeds and the content decodes.  The preview of an
    accepted picture is pinned: one request for the url, the decoded picture
    as value, the message "Valid avatar image", and the component visible.
    The preview holds a picture exactly when that picture is accepted, and
    is visible exactly when some picture is; in every other case it is
    hidden and holds none. *)
Theorem image_accepted_iff get url :
  let accepted (img : ndarray) :=
    rejects_url py_strip url = false
    /\ exists content, get = inr content /\ decode_image content = inr img in
  (forall img,
     (validate_image_url py_strip ndarray decode_image get url).2.1 = Some img
     <-> accepted img)
  /\ (forall img, accepted img ->
        update_image_preview py_strip ndarray decode_image get url
          = ([url], (Some img, "✅ Valid avatar image", true)))
  /\ (forall img,
        (update_image_preview py_strip ndarray decode_image get url).2.1.1
          = Some img
        <-> accepted img)
  /\ ((update_image_preview py_strip ndarray decode_image get url).2.2 = true
      <-> exists img, accepted img).
Proof.
  cbn zeta.
  assert (Hshown : forall img,
            rejects_url py_strip url = false
            /\ (exists content, get = inr content
                                /\ decode_image content = inr img) ->
            image_preview get url
              = ([url], (Some img, "✅ Valid avatar image", true))).
  { intros img (Hr & content & -> & Hd).
    unfold update_image_preview, validate_image_url. rewrite Hr.
    unfold rejects_url in Hr.
    destruct (truthy (PStr url)); cbn [negb orb] in *; [|discriminate Hr].
    rewrite Hd. reflexivity. }
  assert (Hvalue : forall img,
            (image_preview get url).2.1.1 = Some img ->
            rejects_url py_strip url = false
            /\ exists content, get = inr content
                               /\ decode_image content = inr img).
  { intros img. unfold update_image_preview, validate_image_url.
    destruct (truthy (PStr url)); cbn [negb]; [|discriminate].
    destruct (rejects_url py_strip url); cbn; [discriminate|].
    destruct get as [e|content]; cbn; [discriminate|].
    destruct (decode_image content) as [e|img'] eqn:Hd; cbn; [discriminate|].
    intros [= <-]. eauto. }
  split; [|split; [exact Hshown|split]].
  - intros img. unfold validate_image_url.
    destruct (rejects_url py_strip url); cbn.
    + split; [discriminate|]. intros [H _]. discriminate.
    + destruct get as [e|content]; cbn.
      * split; [discriminate|]. intros (_ & c & H & _). discriminate.
      * destruct (decode_image content) as [e|img'] eqn:Hd; cbn.
        -- split; [discriminate|]. intros (_ & c & [= <-] & H). congruence.
        -- split; [intros [= <-]; eauto|].
           intros (_ & c & [= <-] & H). congruence.
  - intros img. split; [apply Hvalue|].
    intros H. rewrite (Hshown img H). reflexivity.
  - split.
    + intros Hv.
      destruct ((image_preview get url).2.1.1) as [img|] eqn:Hi.
      * exists img. apply Hvalue. reflexivity.
      * exfalso. revert Hv Hi. unfold update_image_preview.
        destruct (truthy (PStr url)); cbn [negb]; [|discriminate].
        destruct (image get url) as [reqs [[a|] msg]]; cbn; discriminate.
    + intros [img H]. rewrite (Hshown img H). reflexivity.
Qed.

End ValidatorFacts.

(** ** The requests on the wire *)

Section ClientFacts.

Variable b64encode : string -> string.
Variable json_dumps : pyval -> string.
Variable py_repr : pyval -> string.
Variable BASE_URL : pyval.
Variable w : world.
Variable API_KEY : pyval.

Local Abbreviation run_of := (create_talk json_dumps py_repr w API_KEY).
Local Abbreviation wire := (http_requests b64encode py_repr BASE_URL API_KEY).
Local Abbreviation base := (py_format py_repr BASE_URL).

Lemma wire_of_polls tr :
  creates tr = [] ->
  wire tr =
    (fun i => {| req_method := "GET";
                 req_url := base +:+ "/talks/" +:+ py_format py_repr i;
                 req_headers := client_headers b64encode py_repr API_KEY;
                 req_json := None |}) <$> get_calls tr.
Proof.
  unfold http_requests, creates, get_calls.
  induction tr as [|[p|i|u|s] tr IH]; cbn; intros H;
    try discriminate; try (rewrite IH by exact H); reflexivity.
Qed.

(** X20.  What a run sends: nothing without a key; otherwise one POST to
    [{BASE_URL}/talks] whose body is the payload, followed only by GETs of
    [{BASE_URL}/talks/{id}] without a body, one for each poll, all for the
    [id] of the creation response; and every request carries the same three
    headers, with the Basic authorization made from [API_KEY]. *)
Theorem requests_on_the_wire fuel args :
  let r := run_of fuel args in
  (truthy API_KEY = false -> wire (run_trace r) = [])
  /\ (truthy API_KEY = true ->
      exists gets,
        wire (run_trace r) =
          {| req_method := "POST"; req_url := base +:+ "/talks";
             req_headers := client_headers b64encode py_repr API_KEY;
             req_json := Some (build_payload args) |} :: gets
        /\ length gets = run_polls r
        /\ forall q, q ∈ gets ->
             req_method q = "GET" /\ req_json q = None
             /\ req_headers q = client_headers b64encode py_repr API_KEY
             /\ exists talk,
                  create_answer w = inr (PDict talk)
                  /\ req_url q = base +:+ "/talks/"
                                 +:+ py_format py_repr (dict_get_none "id" talk)).
Proof.
  cbn zeta.
  destruct (run_cases json_dumps py_repr w API_KEY fuel args)
    as [(Hk & ->) | [(Hk & e & He & ->) | [(Hk & talk & Hc & Hi & ->)
       | (Hk & talk & tr & x & st' & Hc & Hi & El & ->)]]];
    rewrite Hk.
  - split; [reflexivity|discriminate].
  - split; [discriminate|]. intros _. exists []. cbn.
    split; [reflexivity|]. split; [reflexivity|]. intros q Hq. inversion Hq.
  - split; [discriminate|]. intros _. exists []. cbn.
    split; [reflexivity|]. split; [reflexivity|]. intros q Hq. inversion Hq.
  - split; [discriminate|]. intros _.
    rewrite except_clause_polls.
    destruct (after_loop_polls py_repr (build_payload args)
                (dict_get_none "id" talk) tr x st') as (-> & _).
    destruct (after_loop_trace py_repr (build_payload args)
                (dict_get_none "id" talk) tr x st') as (tail & -> & Hc1 & Hg1 & _).
    destruct (loop_requests _ _ _ _ _ _ _ _ _ El) as (Hc2 & Hg2 & _).
    pose proof (loop_polls _ _ _ _ _ _ _ _ _ El) as Hpl. cbn in Hpl, Hg2.
    eexists. split; [unfold http_requests; cbn; reflexivity|].
    fold (wire (tr ++ tail)).
    rewrite wire_of_polls
      by (unfold creates in *; rewrite omap_app, Hc1, Hc2; reflexivity).
    unfold get_calls in *. rewrite omap_app, Hg1, Hg2, app_nil_r.
    rewrite Nat.sub_0_r. split.
    + rewrite length_fmap, length_replicate. reflexivity.
    + intros q Hq. apply list_elem_of_fmap in Hq as (i & -> & Hi').
      apply elem_of_replicate in Hi' as [-> _]. cbn. eauto 10.
Qed.

(** X21.  [test_api_key] asks for the credits only with a key, with the
    same Basic authorization [DIDClient] would send for that key; its summary
    has exactly the entries [remaining], [total] and [expiry] of the
    response, [None] for the ones the response lacks; and with an empty key
    it returns two values, not the three the button has outputs for. *)
Theorem test_api_key_outputs credits api_key :
  let t := test_api_key b64encode py_repr BASE_URL credits api_key in
  (api_key = "" -> t.1 = [] /\ length t.2 = 2)
  /\ (api_key <> "" ->
      length t.2 = 3
      /\ exists q, t.1 = [q]
           /\ req_url q = base +:+ "/credits"
           /\ dict_get "Authorization" (req_headers q)
              = dict_get "Authorization"
                  (client_headers b64encode py_repr (PStr api_key)))
  /\ (forall data, api_key <> "" -> credits = inr (PDict data) ->
      t.2 = [GrValue (PDict [("remaining", dict_get_none "remaining" data);
                             ("total", dict_get_none "total" data);
                             ("expiry", dict_get_none "expiry" data)]);
             GrText "✅ API Key is valid"; GrJSON true])
  /\ (forall e, api_key <> "" -> raises credits e ->
      t.2 = [GrValue (PDict []);
             GrText ("❌ API Key test failed: " +:+ exc_str e); GrJSON false]).
Proof.
  cbn zeta. unfold test_api_key. cbn [truthy].
  destruct (String.eqb_spec api_key "") as [->|Hne]; cbn [negb].
  - repeat split; congruence.
  - split; [congruence|]. split; [|split].
    + intros _.
      destruct credits as [e|[| | | | | |data]]; cbn; split; eauto.
    + intros data _ ->. reflexivity.
    + intros e _ He. unfold raises in He.
      destruct credits as [e'|[| | | | | |data]]; subst; try reflexivity.
      destruct He.
Qed.

End ClientFacts.

(** ** The set-up script *)

Lemma str_lt_first_character c rest d rest' :
  ((Ascii.N_of_ascii c < Ascii.N_of_ascii d)%N ->
   str_lt (String c rest) (String d rest') = true)
  /\ ((Ascii.N_of_ascii d < Ascii.N_of_ascii c)%N ->
      str_lt (String c rest) (String d rest') = false).
Proof.
  cbn. split; intros H.
  - apply N.ltb_lt in H. rewrite H. reflexivity.
  - destruct (N.ltb_spec (Ascii.N_of_ascii c) (Ascii.N_of_ascii d)); [lia|].
    apply N.ltb_lt in H. rewrite H. reflexivity.
Qed.

Lemma str_lt_four c rest :
  ((Ascii.N_of_ascii c < 52)%N -> str_lt (String c rest) "4.0.0" = true)
  /\ ((52 < Ascii.N_of_ascii c)%N -> str_lt (String c rest) "4.0.0" = false).
Proof.
  exact (str_lt_first_character c rest
           (Ascii.Ascii false false true false true true false false) ".0.0").
Qed.

Section SetupFacts.

Variable py_strip : string -> string.
Variable py_lower : string -> string.
Variable py_repr : pyval -> string.
Variable json_dumps_indent : pyval -> string.
Variable type_error : string -> string -> py_exception.
Variable CONFIG_PATH : string.
Variable json_dump : pyval -> string.
Variable json_load : string -> option pyval.

Local Abbreviation check :=
  (check_gradio_version py_strip py_lower py_repr type_error).
Local Abbreviation setup_config :=
  (create_config py_strip json_dumps_indent CONFIG_PATH).
Local Abbreviation globals_of := (module_globals CONFIG_PATH json_load).
Local Abbreviation main_of := (main_block CONFIG_PATH json_dump py_strip).

(** X22.  The installed Gradio version is compared with ["4.0.0"] as text:
    the upgrade question is asked exactly when the version string is smaller
    in character order, so every version that starts with a character before
    [4] (such as 10.2.0 or 3.50.2) is asked about and no version that starts
    with a character after [4] is; and the upgrade runs exactly when the
    question is asked and the answer, stripped and lower-cased, is empty,
    [y] or [yes]. *)
Theorem gradio_versions_compare_as_text packages l d v answer upgrade :
  py_iter type_error packages = inr l ->
  find_gradio py_lower type_error l = inr (Some (PDict d)) ->
  dict_get "version" d = Some (PStr v) ->
  let evs := check (inr packages) answer upgrade in
  asks evs = str_lt v "4.0.0"
  /\ upgrades evs =
       str_lt v "4.0.0"
       && py_in_strs (PStr (py_lower (py_strip answer))) [""; "y"; "yes"]
  /\ (forall c rest, v = String c rest ->
        ((Ascii.N_of_ascii c < 52)%N -> asks evs = true)
        /\ ((52 < Ascii.N_of_ascii c)%N ->
            asks evs = false /\ upgrades evs = false)).
Proof.
  intros Hit Hfind Hver. cbn zeta.
  assert (Hd : truthy (PDict d) = true).
  { destruct d; [discriminate|reflexivity]. }
  assert (Hasks : asks (check (inr packages) answer upgrade) = str_lt v "4.0.0"
                  /\ upgrades (check (inr packages) answer upgrade) =
                       str_lt v "4.0.0"
                       && py_in_strs (PStr (py_lower (py_strip answer)))
                            [""; "y"; "yes"]).
  { unfold check_gradio_version, check_gradio_try.
    rewrite Hit, Hfind, Hd. cbn [negb dict_items]. rewrite Hver.
    destruct (str_lt v "4.0.0"); [|split; reflexivity].
    destruct (py_in_strs (PStr (py_lower (py_strip answer))) [""; "y"; "yes"]);
      [destruct upgrade|]; split; reflexivity. }
  destruct Hasks as [Ha Hu]. split; [exact Ha|]. split; [exact Hu|].
  intros c rest ->. rewrite Hu, Ha.
  destruct (str_lt_four c rest) as [Hlow Hhigh].
  split.
  - exact Hlow.
  - intros Hc. rewrite (Hhigh Hc). split; reflexivity.
Qed.

(** X23.  The file written by [create_config] is the one the application
    reads: when there is no configuration file, the set-up script writes the
    stripped input as the key with the default url, and (when [json.load]
    reads back what [json.dumps] wrote for that object) the application
    starts with that key and url and its [__main__] block leaves the file
    alone. *)
Theorem setup_config_is_read_by_app typed (fs : gmap string string) disk key' :
  fs !! CONFIG_PATH = None ->
  json_load
    (json_dumps_indent
       (PDict [("key", PStr (py_strip typed));
               ("url", PStr "https://api.d-id.com")]))
    = Some (PDict [("key", PStr (py_strip typed));
                   ("url", PStr "https://api.d-id.com")]) ->
  let c := setup_config typed DiskOk fs in
  c_raised c = None
  /\ asks (c_events c) = true
  /\ globals_of (c_files c)
     = inr (PStr (py_strip typed), PStr "https://api.d-id.com")
  /\ m_files (main_of disk key' (c_files c)) = c_files c.
Proof.
  intros Hnone Hrt. cbn zeta.
  unfold create_config, module_globals, load_config, main_block.
  rewrite Hnone. cbn [c_files c_raised c_events].
  rewrite lookup_insert_eq.
  change (dict_display [("key", PStr (py_strip typed));
                        ("url", PStr "https://api.d-id.com")])
    with [("key", PStr (py_strip typed)); ("url", PStr "https://api.d-id.com")].
  rewrite Hrt. cbn.
  repeat split;
    first [ reflexivity
          | destruct (negb (py_strip typed =? "")); reflexivity
          | destruct (negb (truthy key')); [|destruct key']; reflexivity ].
Qed.

(** X24.  A configuration saved in the application survives the set-up
    script and a restart: after a successful save neither [create_config]
    (whatever is typed) nor the [__main__] block changes the file,
    [create_config] asks nothing, and (when [json.load] reads back what
    [json.dump] wrote) the next start has the saved key and url. *)
Theorem saved_config_survives_setup_and_restart key url st typed d1 d2 key' :
  json_load (json_dump (PDict [("key", PStr key); ("url", PStr url)]))
    = Some (PDict [("key", PStr key); ("url", PStr url)]) ->
  let saved :=
    files (save_config_handler CONFIG_PATH json_dump DiskOk key url st).1 in
  c_files (setup_config typed d1 saved) = saved
  /\ asks (c_events (setup_config typed d1 saved)) = false
  /\ m_files (main_of d2 key' saved) = saved
  /\ globals_of saved = inr (PStr key, PStr url).
Proof.
  intros Hrt. cbn zeta.
  unfold save_config_handler, create_config, main_block, module_globals,
    load_config.
  cbn [fst files]. rewrite lookup_insert_eq.
  change (dict_display [("key", PStr key); ("url", PStr url)])
    with [("key", PStr key); ("url", PStr url)].
  rewrite Hrt. cbn.
  repeat split;
    first [ reflexivity
          | destruct (negb (truthy key')); [|destruct key']; reflexivity ].
Qed.

End SetupFacts.

(** ** The payload, for every submission *)

(** X25.  Whatever is submitted (any script type, any optional field set or
    not), the body of the creation request has the keys [source_url],
    [script] and [config], followed by [driver_url] exactly when a driver
    url was given, and holds no [None] at any depth: the service is never
    sent a [null]. *)
Theorem payload_keys_and_no_None (a : inputs) :
  dict_keys (build_payload a) =
    (["source_url"; "script"; "config"] ++
     (if truthy (PStr (driver_url a)) then ["driver_url"] else []))%list
  /\ no_None (PDict (build_payload a)) = true.
Proof.
  destruct a as [src ty txt au vp vi vs dr wh st pe ext].
  unfold build_payload, raw_payload, config_dict, script_dict, provider_dict,
    truthy; cbn [driver_url webhook stitch persist voice_style script_type
    text_input audio_url voice_provider voice_id source_url].
  destruct (String.eqb dr ""), (String.eqb wh ""), (String.eqb vs ""), st, pe,
    (String.eqb ty "text"), (String.eqb ty "audio"); split; reflexivity.
Qed.

(** ** setup.py: the script *)

Lemma asks_elem (evs : list setup_event) :
  asks evs = true <-> exists q, Prompt q ∈ evs.
Proof.
  unfold asks. induction evs as [|e evs IH]; cbn.
  - split; [discriminate|]. intros [q H]. inversion H.
  - destruct e; cbn; rewrite ?IH;
      try (split; [intros [q H]; exists q; right; exact H
                  |intros [q H]; exists q; inversion H; subst; auto]).
    split; [intros _; eexists; left|reflexivity].
Qed.

Lemma runs_app_app (a b : list setup_event) :
  runs_app (a ++ b) = runs_app a || runs_app b.
Proof. apply existsb_app. Qed.

Lemma runs_app_cons (e : setup_event) (l : list setup_event) :
  runs_app (e :: l)
  = match e with RunApp => true | _ => false end || runs_app l.
Proof. reflexivity. Qed.

Lemma snoc_then_app {A} (x y : list A) (p : A) (z : list A) :
  ((x ++ y ++ [p]) ++ z = (x ++ y) ++ p :: z)%list.
Proof. rewrite <- !app_assoc. reflexivity. Qed.

Section SetupScriptFacts.

Variable py_strip : string -> string.
Variable py_lower : string -> string.
Variable py_repr : pyval -> string.
Variable json_dumps_indent : pyval -> string.
Variable type_error : string -> string -> py_exception.
Variable config_path : string.

Local Abbreviation script :=
  (setup_script py_strip py_lower py_repr json_dumps_indent type_error
     config_path).
Local Abbreviation gradio_check :=
  (check_gradio_version py_strip py_lower py_repr type_error).
Local Abbreviation config :=
  (create_config py_strip json_dumps_indent config_path).

(** Case analysis on the steps before the gradio check. *)
Ltac script_cases sw :=
  unfold setup_script, create_venv, install_setuptools, install_requirements,
    installs_succeed, venv_usable, proc_ok, proc_failed;
  destruct (version_too_old (version_info sw)) eqn:?Hv;
  destruct (venv_exists sw) eqn:?Hx;
  destruct (venv_run sw) eqn:?Hvr;
  destruct (setuptools_run sw) eqn:?Hs;
  destruct (requirements_exist sw) eqn:?Hq;
  destruct (requirements_run sw) eqn:?Hr;
  cbn [negb orb andb s_end s_files s_events].

(** Case analysis on the steps after [create_config]. *)
Ltac tail_cases sw :=
  unfold run_app;
  try (destruct (c_raised _) eqn:?Hc;
       [|destruct (String.eqb _ "y") eqn:?Hy;
         [destruct (app_run sw) eqn:?Ha|]]);
  cbn [s_end s_files s_events].

(** The gradio check starts no application, and neither does
    [create_config]. *)
Lemma gradio_check_no_app pip answer upgrade :
  runs_app (gradio_check pip answer upgrade) = false.
Proof.
  unfold check_gradio_version, check_gradio_try.
  repeat case_match; simplify_eq; cbn; try reflexivity;
    rewrite ?runs_app_cons, ?runs_app_app; reflexivity.
Qed.

Lemma create_config_no_app typed disk (fs : gmap string string) :
  runs_app (c_events (config typed disk fs)) = false.
Proof.
  unfold create_config. repeat case_match; reflexivity.
Qed.

(** Rewriting [runs_app] through the events of a run. *)
Ltac no_app :=
  repeat first [rewrite runs_app_cons | rewrite runs_app_app
               | rewrite gradio_check_no_app | rewrite create_config_no_app];
  cbn [orb banner print_activation_instructions].

(** When [create_config] raises, it has asked for the key. *)
Lemma create_config_raised_asked typed disk (fs : gmap string string) e :
  c_raised (config typed disk fs) = Some e ->
  asks (c_events (config typed disk fs)) = true.
Proof.
  unfold create_config. repeat case_match; cbn; try discriminate; reflexivity.
Qed.

(** X26.  The script ends with [sys.exit(1)] in exactly these cases: the
    interpreter is older than 3.8, or a virtual environment is there and
    installing setuptools fails with [CalledProcessError], or setuptools is
    installed and requirements.txt is missing or installing from it fails
    with [CalledProcessError].  A creation of the virtual environment that
    fails in that way is not among them: the script then prints the failure,
    starts no other child process, asks nothing, and ends like a successful
    run, with the files as the failed [python -m venv] left them. *)
Theorem setup_exits_with_1_iff (sw : setup_world) (fs : gmap string string) :
  (s_end (script sw fs) = Exit 1
   <-> version_too_old (version_info sw) = true
       \/ (venv_usable sw = true
           /\ (proc_failed (setuptools_run sw) = true
               \/ (proc_ok (setuptools_run sw) = true
                   /\ (requirements_exist sw = false
                       \/ proc_failed (requirements_run sw) = true)))))
  /\ (forall e,
        version_too_old (version_info sw) = false ->
        venv_exists sw = false -> venv_run sw = ProcFailed e ->
        script sw fs =
          {| s_events :=
               [banner; Print "🔧 Creating virtual environment..."; MakeVenv;
                Print ("❌ Failed to create virtual environment: "
                       +:+ exc_str e)];
             s_files := proc_files sw MakeVenv fs; s_end := Finished |}).
Proof.
  split.
  - script_cases sw; tail_cases sw;
      split; intros H;
      solve [ discriminate H
            | reflexivity
            | left; reflexivity
            | right; split; [reflexivity|]; left; reflexivity
            | right; split; [reflexivity|]; right; split; [reflexivity|];
              (left; reflexivity) || (right; reflexivity)
            | exfalso; clear -H; intuition discriminate ].
  - intros e Hv Hx Hr.
    unfold setup_script, create_venv. rewrite Hv, Hx, Hr. reflexivity.
Qed.

(** X27.  The script asks the user something (the upgrade question, the
    key, whether to run the application) exactly when every step before the
    gradio check has succeeded: a failed step never leaves the user at a
    prompt, and after the installs there is always at least one question,
    whatever the gradio check does. *)
Theorem setup_asks_iff_installs_succeed (sw : setup_world)
    (fs : gmap string string) :
  asks (s_events (script sw fs)) = true <-> installs_succeed sw = true.
Proof.
  script_cases sw;
    try (split; [intros H; solve [discriminate H|reflexivity]
                |intros H; solve [discriminate H|reflexivity]]).
  all: split; [reflexivity|intros _].
  all: destruct (c_raised _) as [err|] eqn:Hc;
    [pose proof (create_config_raised_asked _ _ _ _ Hc) as Hasked;
     apply asks_elem in Hasked; destruct Hasked as [q Hprompt]
    |destruct (String.eqb _ "y"); [destruct (run_app sw)|]];
    cbn [s_events]; apply asks_elem.
  all: try (exists q; set_solver).
  all: exists run_now_question; set_solver.
Qed.

(** X28.  The application is started only at the very end and only on the
    answer [y]: when the script starts it, every step before has succeeded,
    the answer to the last question, stripped and lower-cased, is [y], the
    start follows that question directly, and the script ends as [run_app]
    does: normally when the application returns (whatever its exit status)
    or is interrupted from the keyboard, which is answered with the goodbye
    line, and with the exception when the start raises anything else.  With
    any other answer ([yes], say) the application is not started. *)
Theorem app_started_only_on_y (sw : setup_world) (fs : gmap string string) :
  (runs_app (s_events (script sw fs)) = true ->
     installs_succeed sw = true
     /\ py_lower (py_strip (run_now_answer sw)) = "y"
     /\ (exists before,
           s_events (script sw fs)
             = (before ++ Prompt run_now_question :: (run_app sw).1)%list
           /\ runs_app before = false)
     /\ s_end (script sw fs) = (run_app sw).2)
  /\ (py_lower (py_strip (run_now_answer sw)) <> "y" ->
      runs_app (s_events (script sw fs)) = false)
  /\ run_app sw =
       match app_run sw with
       | AppReturned => ([RunApp], Finished)
       | AppInterrupted =>
           ([RunApp; Print (LF +:+ "👋 Application closed by user.")],
            Finished)
       | AppError e => ([RunApp], Crashed e)
       end.
Proof.
  split; [|split; [|reflexivity]].
  - script_cases sw; try (intros H; discriminate H).
    all: destruct (c_raised _) as [err|] eqn:Hc;
      [|destruct (String.eqb_spec (py_lower (py_strip (run_now_answer sw))) "y")
          as [Hy|Hy]];
      cbn [s_events s_end].
    all: try (no_app; intros H; discriminate H).
    all: intros _; split; [reflexivity|]; split; [exact Hy|].
    all: destruct (run_app sw) as [app_events app_end] eqn:Happ;
      cbn [fst snd s_events s_end]; split; [|reflexivity].
    all: eexists; split; [apply snoc_then_app|].
    all: no_app; reflexivity.
  - intros Hy.
    script_cases sw; try reflexivity.
    all: destruct (c_raised _) as [err|] eqn:Hc;
      [|destruct (String.eqb_spec (py_lower (py_strip (run_now_answer sw))) "y")
          as [Hy'|Hy']; [contradiction|]];
      cbn [s_events].
    all: no_app; reflexivity.
Qed.

End SetupScriptFacts.

(** ** The further properties at concrete inputs *)

Lemma world_done_no_result_monotone : monotone_clock world_done_no_result.
Proof. intros [|n]; cbn; discriminate. Qed.

Lemma polling_starts_iff_witness :
  0 < max_polls
  /\ (0 < run_polls (sample_run world_empty_id) <->
      truthy (PStr "key") = true
      /\ exists talk, create_answer world_empty_id = inr (PDict talk)
                      /\ truthy (dict_get_none "id" talk) = true).
Proof.
  assert (H : 0 < max_polls) by (unfold max_polls; lia).
  split; [exact H|].
  exact (polling_starts_iff sample_dumps sample_repr world_empty_id (PStr "key")
           max_polls text_request H).
Defined.

Lemma logs_are_append_only_witness :
  (forall e, run_end (sample_run world_done) <> StopIteration (ExitError e))
  /\ append_only (u_api_logs <$> updates (sample_run world_done)).
Proof.
  assert (H : forall e,
            run_end (sample_run world_done) <> StopIteration (ExitError e)).
  { intros e. vm_compute. discriminate. }
  split; [exact H|].
  exact (logs_are_append_only sample_dumps sample_repr world_done (PStr "key")
           max_polls text_request H).
Defined.

Lemma done_without_result_stops_witness :
  1 < run_polls (sample_run world_done_no_result)
  /\ run_end (sample_run world_done_no_result) = StopIteration ExitBreak
  /\ run_polls (sample_run world_done_no_result) = 2.
Proof.
  assert (H : 1 < run_polls (sample_run world_done_no_result))
    by (vm_compute; lia).
  split; [exact H|].
  destruct (done_without_result_stops sample_dumps sample_repr
              world_done_no_result (PStr "key") max_polls text_request 1
              [("status", PStr "done"); ("result_url", PStr "")]
              H eq_refl eq_refl eq_refl) as (H1 & H2 & _).
  split; [exact H1|exact H2].
Defined.

Lemma snapshot_of_each_poll_witness :
  1 < run_polls (sample_run world_done)
  /\ exists u, updates (sample_run world_done) !! 1 = Some u
               /\ u_talk_id u = PStr "tlk_1"
               /\ u_status u = "Status: started".
Proof.
  assert (H : 1 < run_polls (sample_run world_done)) by (vm_compute; lia).
  split; [exact H|].
  destruct (snapshot_of_each_poll sample_dumps sample_repr world_done
              (PStr "key") max_polls text_request 1
              [("status", PStr "started")] H eq_refl)
    as (talk & u & Hc & Hu & Hid & Hs & _).
  injection Hc as <-.
  exists u. split; [exact Hu|]. split; [exact Hid|exact Hs].
Defined.

Lemma only_three_statuses_witness :
  monotone_clock world_done_no_result
  /\ 0 < run_polls (sample_run world_done_no_result)
  /\ (1 < run_polls (sample_run world_done_no_result)
      \/ run_end (sample_run world_done_no_result) = StopIteration ExitDeadline).
Proof.
  assert (H : 0 < run_polls (sample_run world_done_no_result))
    by (vm_compute; lia).
  split; [exact world_done_no_result_monotone|]. split; [exact H|].
  exact (only_three_statuses_end_the_loop sample_dumps sample_repr
           world_done_no_result (PStr "key") max_polls text_request 0
           [("pending", PBool true)]
           world_done_no_result_monotone (le_n _) H eq_refl eq_refl eq_refl).
Defined.

Lemma download_writes_all_chunks_witness :
  download_video "/" sample_int world_three_chunks "https://x/out.mp4" ∅
    = ({[ "d-id_videos/video_1700000000.mp4" := [Byte.x01; Byte.x02; Byte.x03] ]},
       Returned (Some "d-id_videos/video_1700000000.mp4")
         "✅ Downloaded successfully")
  /\ exists r, requests_get world_three_chunks = inr r
               /\ chunk_data (iter_content r) = [Byte.x01; Byte.x02; Byte.x03].
Proof.
  assert (H : download_video "/" sample_int world_three_chunks
                "https://x/out.mp4" ∅
              = ({[ "d-id_videos/video_1700000000.mp4"
                    := [Byte.x01; Byte.x02; Byte.x03] ]},
                 Returned (Some "d-id_videos/video_1700000000.mp4")
                   "✅ Downloaded successfully")) by reflexivity.
  split; [exact H|].
  destruct (download_writes_all_chunks "/" sample_int world_three_chunks
              "https://x/out.mp4" ∅ _ _ _ H) as (_ & _ & r & Hg & _ & Hf).
  exists r. split; [exact Hg|].
  injection Hg as <-. reflexivity.
Defined.

Lemma download_touches_only_target_witness :
  "notes.txt" <> filename "/" world_reset
  /\ (download_video "/" sample_int world_reset "https://x/out.mp4"
        {[ "notes.txt" := [Byte.x41] ]}).1 !! "notes.txt"
     = Some [Byte.x41].
Proof.
  assert (H : "notes.txt" <> filename "/" world_reset) by discriminate.
  split; [exact H|].
  rewrite (download_touches_only_target "/" sample_int world_reset
             "https://x/out.mp4" {[ "notes.txt" := [Byte.x41] ]} "notes.txt" H).
  reflexivity.
Defined.

Lemma download_complete_means_file_witness :
  exists u,
    last (h_yields (download_handler "/" sample_int world_three_chunks
                      "https://x/out.mp4" ∅)) = Some u
    /\ d_button u = "✅ Download Complete"
    /\ d_video u =
         {| video_value := Some (PStr "d-id_videos/video_1700000000.mp4");
            video_visible := true |}.
Proof.
  eexists. split; [reflexivity|]. split; [reflexivity|].
  destruct (download_complete_means_file "/" sample_int world_three_chunks
              "https://x/out.mp4" ∅ _ eq_refl eq_refl) as (H & _).
  exact H.
Defined.

Lemma first_start_writes_defaults_witness :
  (∅ : gmap string string) !! "api_config.json" = None
  /\ sample_loads (sample_dumps default_config) = Some default_config
  /\ module_globals "api_config.json" sample_loads
       (m_files (main_block "api_config.json" sample_dumps sample_strip
                   DiskOk (PStr "") ∅))
     = inr (PStr "", PStr "https://api.d-id.com").
Proof.
  split; [reflexivity|]. split; [reflexivity|].
  destruct (first_start_writes_defaults "api_config.json" sample_dumps
              sample_loads sample_strip ∅ (lookup_empty _) eq_refl)
    as (_ & _ & _ & _ & H & _).
  exact H.
Defined.

Lemma blank_key_warned_but_used_witness :
  "  " <> "" /\ sample_strip "  " = ""
  /\ last (m_printed (main_block "api_config.json" sample_dumps sample_strip
                        DiskOk (PStr "  ") {[ "api_config.json" := "{}" ]}))
     = Some no_key_warning
  /\ exists rest,
       run_trace (create_talk sample_dumps sample_repr world_done (PStr "  ")
                    max_polls text_request)
         = EvCreateTalk (build_payload text_request) :: rest.
Proof.
  assert (H1 : "  " <> "") by discriminate.
  split; [exact H1|]. split; [reflexivity|].
  apply (blank_key_warned_but_used "api_config.json" sample_dumps sample_strip
           DiskOk {[ "api_config.json" := "{}" ]} "  "
           sample_dumps sample_repr world_done max_polls text_request
           H1 eq_refl).
  eexists. reflexivity.
Defined.

Lemma gradio_versions_witness :
  asks (check_gradio_version sample_strip sample_lower sample_repr
          sample_type_error (pip_packages "10.2.0") "n" None) = true
  /\ upgrades (check_gradio_version sample_strip sample_lower sample_repr
                 sample_type_error (pip_packages "10.2.0") "n" None) = false.
Proof.
  destruct (gradio_versions_compare_as_text sample_strip sample_lower
              sample_repr sample_type_error
              (PList [PDict [("name", PStr "requests"); ("version", PStr "2.31.0")];
                      PDict [("name", PStr "Gradio"); ("version", PStr "10.2.0")]])
              _ [("name", PStr "Gradio"); ("version", PStr "10.2.0")]
              "10.2.0" "n" None eq_refl eq_refl eq_refl)
    as (Ha & Hu & _).
  split; [exact Ha|exact Hu].
Defined.

Lemma setup_config_is_read_by_app_witness :
  (∅ : gmap string string) !! "api_config.json" = None
  /\ module_globals "api_config.json" sample_loads
       (c_files (create_config sample_strip sample_dumps "api_config.json"
                   " k3y " DiskOk ∅))
     = inr (PStr "k3y", PStr "https://api.d-id.com").
Proof.
  split; [reflexivity|].
  destruct (setup_config_is_read_by_app sample_strip sample_dumps
              "api_config.json" sample_dumps sample_loads " k3y " ∅ DiskOk
              (PStr "k3y") (lookup_empty _) eq_refl) as (_ & _ & H & _).
  exact H.
Defined.

Lemma saved_config_survives_witness :
  let saved :=
    files (save_config_handler "api_config.json" sample_dumps DiskOk
             "k3y" "https://api.example"
             {| files := ∅; API_KEY := PStr ""; BASE_URL := PStr "" |}).1 in
  sample_loads (sample_dumps
                  (PDict [("key", PStr "k3y"); ("url", PStr "https://api.example")]))
    = Some (PDict [("key", PStr "k3y"); ("url", PStr "https://api.example")])
  /\ c_files (create_config sample_strip sample_dumps "api_config.json"
                "other" DiskOk saved) = saved
  /\ module_globals "api_config.json" sample_loads saved
     = inr (PStr "k3y", PStr "https://api.example").
Proof.
  cbn zeta. split; [reflexivity|].
  destruct (saved_config_survives_setup_and_restart sample_strip sample_dumps
              "api_config.json" sample_dumps sample_loads
              "k3y" "https://api.example"
              {| files := ∅; API_KEY := PStr ""; BASE_URL := PStr "" |}
              "other" DiskOk DiskOk (PStr "k3y") eq_refl)
    as (H1 & _ & _ & H2).
  split; [exact H1|exact H2].
Defined.

Lemma setup_asks_iff_installs_succeed_witness :
  installs_succeed world_fresh_machine = true
  /\ asks (s_events (setup_script sample_strip sample_lower sample_repr
                       sample_dumps sample_type_error "api_config.json"
                       world_fresh_machine ∅)) = true.
Proof.
  split; [reflexivity|].
  destruct (setup_asks_iff_installs_succeed sample_strip sample_lower
              sample_repr sample_dumps sample_type_error "api_config.json"
              world_fresh_machine ∅) as [_ H].
  exact (H eq_refl).
Defined.

Lemma app_started_only_on_y_witness :
  runs_app (s_events (setup_script sample_strip sample_lower sample_repr
                        sample_dumps sample_type_error "api_config.json"
                        world_run_now ∅)) = true
  /\ s_end (setup_script sample_strip sample_lower sample_repr sample_dumps
              sample_type_error "api_config.json" world_run_now ∅)
     = Finished
  /\ last (s_events (setup_script sample_strip sample_lower sample_repr
                       sample_dumps sample_type_error "api_config.json"
                       world_run_now ∅))
     = Some (Print (LF +:+ "👋 Application closed by user.")).
Proof.
  assert (H : runs_app (s_events (setup_script sample_strip sample_lower
                sample_repr sample_dumps sample_type_error "api_config.json"
                world_run_now ∅)) = true) by reflexivity.
  split; [exact H|].
  destruct (app_started_only_on_y sample_strip sample_lower sample_repr
              sample_dumps sample_type_error "api_config.json"
              world_run_now ∅) as (Hrun & _).
  destruct (Hrun H) as (_ & _ & _ & He).
  split; [exact He|reflexivity].
Defined.
